(** * PIN-indexed file transfer: the metadata store of [app.py]

    A shallow embedding of the store functions of [src/app.py]
    ([load_file_metadata], [save_file_metadata], [generate_pin],
    [save_file_with_pin], [get_file_by_pin], [cleanup_old_files]) and of the
    download handler of the second tab, followed by the properties the
    specification states about them.

    Conventions of the embedding.
    - A Python [str] is a Rocq [string], one character per code point; the
      code points are those below U+0100.
    - A Python [int] is a [Z]; [bytes] are a [list byte].
    - A [dict] is an association list in insertion order ([dict] below); the
      dict of one upload, which always has the same five keys, is a record.
    - The disk, the clock, the rendered Streamlit elements and the list of
      file-system calls form the [World] that every function threads.  A
      function of the script is a function from the world to its outcome
      and the world it leaves.
    - A write or a removal fails on the paths the world refuses.  A refused
      write fails either at [open], which leaves the file as it was, or
      after [open] has emptied the file, which leaves the file cut.
    - The text of an exception a library raises is the library's; it is
      carried as [str(e)] and not spelled out.
    - [random.randint] takes its value from a list of raw draws handed to
      the caller; a loop that has used them all up is still running. *)

From Stdlib Require Import ZArith Lia Ascii String List Bool.
From Stdlib Require Import Init.Byte.
From stdpp Require Import base option strings list gmap.

Local Open Scope string_scope.
Local Open Scope Z_scope.
Local Open Scope list_scope.

(** ** Decimal text *)

Module Text.

(** The character of a decimal digit [0..9]. *)
Definition digit_char (d : Z) : ascii := ascii_of_N (48 + Z.to_N d).

(** ['0' <= c <= '9']. *)
Definition is_ascii_digit (c : ascii) : bool :=
  ((48 <=? N_of_ascii c) && (N_of_ascii c <=? 57))%N.

Definition digit_val (c : ascii) : Z := Z.of_N (N_of_ascii c) - 48.

(** [str.isdigit] on one character below U+0100: the decimal digits and the
    superscripts U+00B2, U+00B3 and U+00B9, whose Unicode numeric type is
    Digit. *)
Definition char_isdigit (c : ascii) : bool :=
  is_ascii_digit c
  || (N_of_ascii c =? 178)%N || (N_of_ascii c =? 179)%N
  || (N_of_ascii c =? 185)%N.

Fixpoint all_chars (p : ascii -> bool) (s : string) : bool :=
  match s with
  | EmptyString => true
  | String c s' => p c && all_chars p s'
  end.

(** [s.isdigit()]: every character is a digit and there is at least one. *)
Definition isdigit (s : string) : bool :=
  match s with
  | EmptyString => false
  | _ => all_chars char_isdigit s
  end.

(** [len(s)] *)
Definition len (s : string) : Z := Z.of_nat (String.length s).

(** The [k] low-order decimal digits of [n], most significant first:
    ["%0kd" % n] for [0 <= n < 10^k]. *)
Fixpoint digits (k : nat) (n : Z) : string :=
  match k with
  | O => EmptyString
  | S k' => String (digit_char ((n / 10 ^ Z.of_nat k') mod 10)) (digits k' n)
  end.

Fixpoint ndigits (fuel : nat) (n : Z) : nat :=
  match fuel with
  | O => 1%nat
  | S f => if n <? 10 then 1%nat else S (ndigits f (n / 10))
  end.

(** [f"{n}"] for an [int]. *)
Definition str_of_int (n : Z) : string :=
  if n <? 0
  then String "-" (digits (ndigits (Z.to_nat (- n)) (- n)) (- n))
  else digits (ndigits (Z.to_nat n) n) n.

(** Reads exactly [k] ASCII digits off the front of [s]. *)
Fixpoint take_int (k : nat) (acc : Z) (s : string) : option (Z * string) :=
  match k with
  | O => Some (acc, s)
  | S k' =>
      match s with
      | String c s' =>
          if is_ascii_digit c then take_int k' (acc * 10 + digit_val c) s'
          else None
      | EmptyString => None
      end
  end.

(** Drops the character [c] off the front of [s]. *)
Definition expect (c : ascii) (s : string) : option string :=
  match s with
  | String c' s' => if Ascii.eqb c c' then Some s' else None
  | EmptyString => None
  end.

End Text.

(** ** [datetime] *)

Module Datetime.
Import Text.

(** A naive [datetime], as [datetime.now()] returns it.  The [fold] flag,
    which neither [==] nor [-] looks at, is left out. *)
Record datetime : Type := mk_datetime {
  year : Z; month : Z; day : Z;
  hour : Z; minute : Z; second : Z; microsecond : Z
}.

(** A [timedelta], in microseconds. *)
Definition timedelta : Type := Z.

Definition timedelta_hours (h : Z) : timedelta := h * 3600 * 1000000.

Definition is_leap (y : Z) : bool :=
  (y mod 4 =? 0) && (negb (y mod 100 =? 0) || (y mod 400 =? 0)).

Definition days_in_month (y m : Z) : Z :=
  match m with
  | 1 => 31 | 2 => if is_leap y then 29 else 28 | 3 => 31 | 4 => 30
  | 5 => 31 | 6 => 30 | 7 => 31 | 8 => 31 | 9 => 30 | 10 => 31
  | 11 => 30 | _ => 31
  end.

Definition days_before_year (y : Z) : Z :=
  let y' := y - 1 in y' * 365 + y' / 4 - y' / 100 + y' / 400.

Definition days_before_month (y m : Z) : Z :=
  match m with
  | 1 => 0 | 2 => 31 | 3 => 59 | 4 => 90 | 5 => 120 | 6 => 151
  | 7 => 181 | 8 => 212 | 9 => 243 | 10 => 273 | 11 => 304 | _ => 334
  end + (if (2 <? m) && is_leap y then 1 else 0).

(** [date.toordinal()] *)
Definition ymd2ord (y m d : Z) : Z :=
  days_before_year y + days_before_month y m + d.

(** The fields a [datetime] object can hold. *)
Definition datetime_ok (t : datetime) : bool :=
  (1 <=? year t) && (year t <=? 9999)
  && (1 <=? month t) && (month t <=? 12)
  && (1 <=? day t) && (day t <=? days_in_month (year t) (month t))
  && (0 <=? hour t) && (hour t <? 24)
  && (0 <=? minute t) && (minute t <? 60)
  && (0 <=? second t) && (second t <? 60)
  && (0 <=? microsecond t) && (microsecond t <? 1000000).

(** Microseconds since the start of day one of year one. *)
Definition to_us (t : datetime) : Z :=
  (((ymd2ord (year t) (month t) (day t) * 24 + hour t) * 60 + minute t) * 60
   + second t) * 1000000 + microsecond t.

(** [a - b] on two naive datetimes. *)
Definition sub (a b : datetime) : timedelta := to_us a - to_us b.

(** [t.isoformat()]: [YYYY-MM-DDTHH:MM:SS], then [.ffffff] when the
    microseconds are not zero. *)
Definition isoformat (t : datetime) : string :=
  digits 4 (year t) +:+ "-" +:+ digits 2 (month t) +:+ "-" +:+ digits 2 (day t)
  +:+ "T" +:+ digits 2 (hour t) +:+ ":" +:+ digits 2 (minute t) +:+ ":"
  +:+ digits 2 (second t)
  +:+ (if microsecond t =? 0 then "" else "." +:+ digits 6 (microsecond t)).

Definition parse_fraction (s : string) : option Z :=
  match s with
  | EmptyString => Some 0
  | String c s' =>
      if Ascii.eqb c "." then
        match take_int 6 0 s' with
        | Some (us, EmptyString) => Some us
        | _ => None
        end
      else None
  end.

(** [datetime.fromisoformat(s)] on the layout [isoformat] writes for a naive
    datetime (any one character may stand between date and time); [None]
    is [ValueError].  Python reads further layouts (a date alone, hours and
    minutes alone, a shorter fraction, a UTC offset, ...); the script never
    writes them, and they are turned down here.  Where a property below
    rests on a text being turned down, the text has fewer than 7
    characters, which no layout has. *)
Definition fromisoformat (s : string) : option datetime :=
  '(y, s) ← take_int 4 0 s;
  s ← expect "-" s;
  '(m, s) ← take_int 2 0 s;
  s ← expect "-" s;
  '(d, s) ← take_int 2 0 s;
  s ← (match s with String _ s' => Some s' | EmptyString => None end);
  '(hh, s) ← take_int 2 0 s;
  s ← expect ":" s;
  '(mm, s) ← take_int 2 0 s;
  s ← expect ":" s;
  '(ss, s) ← take_int 2 0 s;
  us ← parse_fraction s;
  let t := mk_datetime y m d hh mm ss us in
  if datetime_ok t then Some t else None.

(** [t.strftime("%Y-%m-%d %H:%M")] *)
Definition strftime_minute (t : datetime) : string :=
  digits 4 (year t) +:+ "-" +:+ digits 2 (month t) +:+ "-"
  +:+ digits 2 (day t) +:+ " " +:+ digits 2 (hour t) +:+ ":"
  +:+ digits 2 (minute t).

End Datetime.

(** ** Python dictionaries *)

Module Dict.

(** A [dict] with [str] keys: the items in insertion order.  The functions
    below keep the keys distinct. *)
Definition dict (V : Type) : Type := list (string * V).

Section ops.
Context {V : Type}.

Definition keys (d : dict V) : list string := map fst d.

(** [d.get(k)] *)
Fixpoint get (k : string) (d : dict V) : option V :=
  match d with
  | [] => None
  | (k', v) :: d' => if String.eqb k k' then Some v else get k d'
  end.

(** [k in d] *)
Definition contains (k : string) (d : dict V) : bool :=
  match get k d with Some _ => true | None => false end.

(** [d[k] = v]: an existing key keeps its place, a new one goes last. *)
Fixpoint set (k : string) (v : V) (d : dict V) : dict V :=
  match d with
  | [] => [(k, v)]
  | (k', v') :: d' =>
      if String.eqb k k' then (k, v) :: d' else (k', v') :: set k v d'
  end.

(** [del d[k]]; [None] is [KeyError]. *)
Fixpoint del (k : string) (d : dict V) : option (dict V) :=
  match d with
  | [] => None
  | (k', v') :: d' =>
      if String.eqb k k' then Some d'
      else match del k d' with
           | Some d'' => Some ((k', v') :: d'')
           | None => None
           end
  end.

(** The dict built from the members of a JSON object, in text order (a
    repeated name keeps its first place and its last value). *)
Definition of_pairs (l : list (string * V)) : dict V :=
  fold_left (fun acc kv => set (fst kv) (snd kv) acc) l [].

End ops.

End Dict.

(** ** The world around the script *)

Module Sys.
Import Datetime Dict.

(** One entry of the metadata table: the dict with the keys ['filename'],
    ['filepath'], ['size'], ['upload_time'] and ['type'].  [T] is the type
    of ['upload_time']: [datetime] in memory, [string] in the JSON file. *)
Record file_info (T : Type) : Type := mk_file_info {
  filename : string;
  filepath : string;
  size : Z;
  upload_time : T;
  type : option string
}.
Arguments mk_file_info {T}.
Arguments filename {T}.
Arguments filepath {T}.
Arguments size {T}.
Arguments upload_time {T}.
Arguments type {T}.

(** The table in memory. *)
Definition table : Type := dict (file_info datetime).

(** What a file holds: the bytes written through [open(path, "wb")], the
    JSON object [json.dump] wrote (its members in text order, each with the
    five fields of an upload), or what is left of a file when the write
    failed after [open] had emptied it: some beginning of what was being
    written, which is no JSON text.  At the path of the metadata file,
    bytes stand for any content on which [load_file_metadata] fails. *)
Inductive file_content : Type :=
| Blob (data : list byte)
| Snapshot (members : list (string * file_info string))
| Cut.

(** File-system calls and uses of [file_lock], in the order made. *)
Inductive syscall : Type :=
| sys_exists (path : string)
| sys_open_r (path : string)
| sys_open_w (path : string)
| sys_remove (path : string)
| lock_acquire
| lock_release.

(** The exceptions: those the libraries raise, named by the call that
    raised them, and the one the script raises itself.  The text of a
    library's exception (the message of the operating system, of [json], of
    [datetime]) is not spelled out: a [message] is either a text of the
    script or such a text followed by [str(e)] for a library's [e]. *)
Inductive exn : Type :=
| OSError (path : string)
    (** [open(path, ...)], the writes that follow it, or [os.remove(path)] *)
| JSONDecodeError
    (** [json.load] *)
| ValueError (date_string : string)
    (** [datetime.fromisoformat(date_string)] *)
| KeyError (key : string)
    (** [del d[key]] *)
| Exception (msg : message)
    (** [raise Exception(msg)] *)
with message : Type :=
| plain (s : string)
| followed_by_str (s : string) (e : exn).

Coercion plain : string >-> message.

(** [str(e)] *)
Definition str_exn (e : exn) : message :=
  match e with
  | Exception msg => msg
  | _ => followed_by_str "" e
  end.

(** [f"{prefix}{m}"] *)
Definition fstring (prefix : string) (m : message) : message :=
  match m with
  | plain s => plain (prefix +:+ s)
  | followed_by_str s e => followed_by_str (prefix +:+ s) e
  end.

(** Streamlit elements, in the order rendered (texts without their
    pictographs). *)
Inductive widget : Type :=
| st_error (text : message)
| st_warning (text : string)
| st_info (text : string)
| st_success (text : string)
| st_download_button (data : file_content) (file_name : string)
                     (mime : option string).

Record World : Type := mk_World {
  disk : gmap string file_content;
  (** paths on which a write or a removal fails with [OSError] (permission
      denied, read-only file system, no such directory, disk full) *)
  refused : gset string;
  (** among them, the paths on which a write fails only after [open] has
      emptied the file (disk full, quota used up): the file is left cut *)
  cuts : gset string;
  (** what [datetime.now()] returns *)
  now : datetime;
  ui : list widget;
  calls : list syscall
}.

(** How a call ends: it returns, it raises, or its loop is still running
    when the random draws supplied to it are used up. *)
Inductive result (A : Type) : Type :=
| Ok (a : A)
| Raise (e : exn)
| Looping.
Arguments Ok {A}.
Arguments Raise {A}.
Arguments Looping {A}.

Definition M (A : Type) : Type := World -> result A * World.

Definition ret {A} (a : A) : M A := fun w => (Ok a, w).

Definition bind {A B} (m : M A) (k : A -> M B) : M B :=
  fun w =>
    match m w with
    | (Ok a, w') => k a w'
    | (Raise e, w') => (Raise e, w')
    | (Looping, w') => (Looping, w')
    end.

Definition raise {A} (e : exn) : M A := fun w => (Raise e, w).

(** [try: m  except Exception as e: h e] *)
Definition try_except {A} (m : M A) (h : exn -> M A) : M A :=
  fun w =>
    match m w with
    | (Raise e, w') => h e w'
    | r => r
    end.

Notation "'let*' x ':=' m 'in' k" := (bind m (fun x => k))
  (at level 10, x pattern, m at level 100, k at level 200).
Notation "m1 >> m2" := (bind m1 (fun _ => m2))
  (at level 100, m2 at level 200, right associativity).

(** [[f x for x in l]], [f] run in order. *)
Fixpoint map_each {A B} (f : A -> M B) (l : list A) : M (list B) :=
  match l with
  | [] => ret []
  | x :: l' => let* y := f x in let* ys := map_each f l' in ret (y :: ys)
  end.

Definition log_call (c : syscall) : M unit :=
  fun w => (Ok tt, mk_World (disk w) (refused w) (cuts w) (now w) (ui w)
                            (calls w ++ [c])).

Definition render (x : widget) : M unit :=
  fun w => (Ok tt, mk_World (disk w) (refused w) (cuts w) (now w)
                            (ui w ++ [x]) (calls w)).

Definition set_disk (d : gmap string file_content) : M unit :=
  fun w => (Ok tt, mk_World d (refused w) (cuts w) (now w) (ui w) (calls w)).

(** [os.path.exists(path)] *)
Definition os_path_exists (path : string) : M bool :=
  log_call (sys_exists path)>>
  fun w => (Ok (bool_decide (is_Some (disk w !! path))), w).

(** [with open(path, "rb") as f: f.read()] *)
Definition read_file (path : string) : M file_content :=
  log_call (sys_open_r path)>>
  fun w => match disk w !! path with
           | Some c => (Ok c, w)
           | None => (Raise (OSError path), w)
           end.

(** [with open(path, mode) as f:] followed by the writes that leave
    [content] in the file, [mode] being ["w"] or ["wb"].  On a refused
    path either [open] fails and the file stays as it was, or [open] empties
    the file and a write after it fails, which leaves the file cut. *)
Definition write_file (path : string) (content : file_content) : M unit :=
  log_call (sys_open_w path)>>
  fun w => if bool_decide (path ∈ refused w) then
             if bool_decide (path ∈ cuts w) then
               (Raise (OSError path),
                snd (set_disk (<[path := Cut]> (disk w)) w))
             else (Raise (OSError path), w)
           else set_disk (<[path := content]> (disk w)) w.

(** [os.remove(path)] *)
Definition os_remove (path : string) : M unit :=
  log_call (sys_remove path)>>
  fun w => match disk w !! path with
           | None => (Raise (OSError path), w)
           | Some _ =>
               if bool_decide (path ∈ refused w)
               then (Raise (OSError path), w)
               else set_disk (delete path (disk w)) w
           end.

(** [with open(path, "r") as f: json.load(f)] *)
Definition json_load (path : string)
  : M (dict (file_info string)) :=
  let* c := read_file path in
  match c with
  | Snapshot members => ret (of_pairs members)
  | Blob _ | Cut => raise JSONDecodeError
  end.

(** [datetime.now()] *)
Definition datetime_now : M datetime := fun w => (Ok (now w), w).

(** [with file_lock: body] *)
Definition with_file_lock {A} (body : M A) : M A :=
  fun w =>
    let '(r, w') := (log_call lock_acquire>> body) w in
    (r, snd (log_call lock_release w')).

(** The clock moves to [t]; nothing else changes. *)
Definition tick (t : datetime) (w : World) : World :=
  mk_World (disk w) (refused w) (cuts w) t (ui w) (calls w).

(** [random.randint(a, b)] on the raw draw [r]. *)
Definition randint (a b r : Z) : Z := a + r mod (b - a + 1).

(** [os.path.join(a, b)] for a directory [a] written without a final
    slash. *)
Definition os_path_join (a b : string) : string :=
  match b with
  | String "/" _ => b
  | _ => a +:+ "/" +:+ b
  end.

End Sys.

(** ** The functions of [app.py] *)

Module App.
Import Text Datetime Dict Sys.

(** [tempfile.gettempdir()], on a system where it is [/tmp]. *)
Definition gettempdir : string := "/tmp".

Definition STORAGE_DIR : string :=
  os_path_join gettempdir "streamlit_file_transfer".

Definition METADATA_FILE : string :=
  os_path_join STORAGE_DIR "file_metadata.json".

(** The body of the loop of [load_file_metadata]: ['upload_time'] is a
    [str] in the file, so the [isinstance] test holds and the text is
    converted. *)
Definition load_entry (item : string * file_info string)
  : M (string * file_info datetime) :=
  let '(pin, info) := item in
  match fromisoformat (upload_time info) with
  | Some t =>
      ret (pin, mk_file_info (filename info) (filepath info) (size info) t
                             (type info))
  | None => raise (ValueError (upload_time info))
  end.

Definition load_file_metadata : M table :=
  try_except
    (let* present := os_path_exists METADATA_FILE in
     if (present : bool) then
       let* data := json_load METADATA_FILE in
       map_each load_entry data
     else ret [])
    (fun e =>
       render (st_error (fstring "Error loading metadata: " (str_exn e))) >>
       ret []).

(** [info.copy()] with ['upload_time'] replaced by its [isoformat()]; the
    value is a [datetime] in memory, so the [isinstance] test holds. *)
Definition serializable_info (info : file_info datetime)
  : file_info string :=
  mk_file_info (filename info) (filepath info) (size info)
               (isoformat (upload_time info)) (type info).

Definition save_file_metadata (metadata : table) : M unit :=
  try_except
    (with_file_lock
       (let serializable_data :=
          fold_left
            (fun acc item => Dict.set (fst item) (serializable_info (snd item)) acc)
            metadata [] in
        write_file METADATA_FILE (Snapshot serializable_data)))
    (fun e =>
       render (st_error (fstring "Error saving metadata: " (str_exn e)))).

(** The [while True] loop of [generate_pin]; every pass takes one draw. *)
Fixpoint generate_pin_loop (metadata : table) (draws : list Z)
  : M string :=
  match draws with
  | [] => fun w => (Looping, w)
  | r :: draws' =>
      let pin := str_of_int (randint 1000 9999 r) in
      if negb (contains pin metadata) then ret pin
      else generate_pin_loop metadata draws'
  end.

Definition generate_pin (draws : list Z) : M string :=
  let* metadata := load_file_metadata in
  generate_pin_loop metadata draws.

(** A Streamlit [UploadedFile]. *)
Record UploadedFile : Type := mk_UploadedFile {
  uf_name : string;
  uf_getvalue : list byte;
  uf_size : Z;
  uf_type : option string
}.

Definition save_file_with_pin (uploaded_file : UploadedFile) (pin : string)
  : M string :=
  try_except
    (let file_path :=
       os_path_join STORAGE_DIR (pin +:+ "_" +:+ uf_name uploaded_file) in
     write_file file_path (Blob (uf_getvalue uploaded_file)) >>
     let* metadata := load_file_metadata in
     let* t := datetime_now in
     let metadata :=
       Dict.set pin
         (mk_file_info (uf_name uploaded_file) file_path
                       (uf_size uploaded_file) t (uf_type uploaded_file))
         metadata in
     save_file_metadata metadata >>
     ret file_path)
    (fun e => raise (Exception (fstring "Failed to save file: " (str_exn e)))).

Definition get_file_by_pin (pin : string)
  : M (option (file_info datetime)) :=
  let* metadata := load_file_metadata in
  ret (get pin metadata).

(** [current_time - file_info['upload_time'] > timedelta(hours=24)] *)
Definition expired (current_time : datetime) (info : file_info datetime)
  : bool :=
  timedelta_hours 24 <? sub current_time (upload_time info).

(** The first loop of [cleanup_old_files]; returns [pins_to_remove]. *)
Fixpoint cleanup_scan (current_time : datetime)
    (items : list (string * file_info datetime))
    (pins_to_remove : list string) : M (list string) :=
  match items with
  | [] => ret pins_to_remove
  | (pin, file_info) :: items' =>
      if expired current_time file_info then
        let* present := os_path_exists (filepath file_info) in
        (if (present : bool) then
           try_except (os_remove (filepath file_info))
             (fun e => match e with OSError _ => ret tt | _ => raise e end)
         else ret tt) >>
        cleanup_scan current_time items' (pins_to_remove ++ [pin])
      else cleanup_scan current_time items' pins_to_remove
  end.

(** The second loop of [cleanup_old_files]: [del metadata[pin]]. *)
Fixpoint cleanup_del (pins_to_remove : list string) (metadata : table)
  : M table :=
  match pins_to_remove with
  | [] => ret metadata
  | pin :: pins' =>
      match del pin metadata with
      | Some metadata' => cleanup_del pins' metadata'
      | None => raise (KeyError pin)
      end
  end.

Definition cleanup_old_files : M Z :=
  try_except
    (let* metadata := load_file_metadata in
     let* current_time := datetime_now in
     let* pins_to_remove := cleanup_scan current_time metadata [] in
     let* metadata := cleanup_del pins_to_remove metadata in
     (match pins_to_remove with
      | [] => ret tt
      | _ => save_file_metadata metadata
      end) >>
     ret (Z.of_nat (length pins_to_remove)))
    (fun e =>
       render (st_error (fstring "Error during cleanup: " (str_exn e))) >>
       ret 0).

(** One pass of the upload loop of the first tab:
    [pin = generate_pin(); save_file_with_pin(file, pin)]. *)
Definition upload (file : UploadedFile) (draws : list Z) : M string :=
  let* pin := generate_pin draws in
  save_file_with_pin file pin >>
  ret pin.

(** The block [if pin_input:] of the second tab.  The four [st.metric]
    calls of lines 289-298 are left out.  On a record as
    [save_file_with_pin] writes it they only render; the one of them that
    can fail on a record of this embedding is the division
    [file_info['size'] / 1024], which raises [OverflowError] when the size
    is beyond the range of a float (from about [2 ^ 1034] on).  A property
    that says how the block ends on a record of any store bounds the size
    of the record ([float_size]). *)
Definition download_tab (pin_input : string) : M unit :=
  match pin_input with
  | EmptyString => ret tt
  | _ =>
      if (len pin_input =? 4) && isdigit pin_input then
        let* file_info := get_file_by_pin pin_input in
        match file_info with
        | Some file_info =>
            let* present := os_path_exists (filepath file_info) in
            if (present : bool) then
              render (st_success "PIN verified! File found.") >>
              try_except
                (let* file_data := read_file (filepath file_info) in
                 render (st_download_button file_data (filename file_info)
                                            (type file_info)))
                (fun e =>
                   render (st_error (fstring "Error reading file: "
                                             (str_exn e))) >>
                   render (st_info "The file might have been corrupted or is no longer accessible."))
            else
              render (st_error "File not found on disk.") >>
              render (st_info "The file may have been moved or deleted from storage.") >>
              let* metadata := load_file_metadata in
              if contains pin_input metadata then
                match del pin_input metadata with
                | Some metadata' => save_file_metadata metadata'
                | None => raise (KeyError pin_input)
                end
              else ret tt
        | None =>
            render (st_error "Invalid PIN or file has expired.") >>
            render (st_info "Please check the PIN or contact the file sender.")
        end
      else
        render (st_warning "Please enter a valid 4-digit PIN")
  end.

(** The dicts the upload loop of the first tab appends to
    [uploaded_file_info] and to [failed_uploads]. *)
Record uploaded_entry : Type := mk_uploaded_entry {
  ue_filename : string;
  ue_pin : string;
  ue_size : Z;
  ue_type : option string
}.

Record failed_entry : Type := mk_failed_entry {
  fe_filename : string;
  fe_error : message
}.

(** The loop [for file in uploaded_files:] of the first tab, with its
    [try]/[except]; [draws] holds, file by file, the raw draws that
    [generate_pin] takes. *)
Fixpoint upload_loop (uploaded_files : list UploadedFile)
    (draws : list (list Z))
    (uploaded_file_info : list uploaded_entry)
    (failed_uploads : list failed_entry)
  : M (list uploaded_entry * list failed_entry) :=
  match uploaded_files with
  | [] => ret (uploaded_file_info, failed_uploads)
  | file :: files' =>
      let* outcome :=
        try_except
          (let* pin := generate_pin (hd [] draws) in
           save_file_with_pin file pin >>
           ret (inl (mk_uploaded_entry (uf_name file) pin (uf_size file)
                                       (uf_type file))))
          (fun e => ret (inr (mk_failed_entry (uf_name file) (str_exn e)))) in
      match outcome with
      | inl entry =>
          upload_loop files' (tl draws) (uploaded_file_info ++ [entry])
                      failed_uploads
      | inr failure =>
          upload_loop files' (tl draws) uploaded_file_info
                      (failed_uploads ++ [failure])
      end
  end.

(** The grouping loop of the admin view: [files_by_time], keyed by the
    minute of upload. *)
Definition files_by_time_step
    (files_by_time : dict (list (string * file_info datetime)))
    (item : string * file_info datetime)
  : dict (list (string * file_info datetime)) :=
  let time_key := strftime_minute (upload_time (snd item)) in
  let files_by_time :=
    if negb (contains time_key files_by_time)
    then Dict.set time_key [] files_by_time
    else files_by_time in
  match get time_key files_by_time with
  | Some files => Dict.set time_key (files ++ [item]) files_by_time
  | None => files_by_time
  end.

Definition files_by_time (metadata : table)
  : dict (list (string * file_info datetime)) :=
  fold_left files_by_time_step metadata [].

End App.

(** ** Reading the world

    Pure counterparts of the effectful functions, in which the properties
    below are stated. *)

Module View.
Import Text Datetime Dict Sys App.

Definition add_ui (x : list widget) (w : World) : World :=
  mk_World (disk w) (refused w) (cuts w) (now w) (ui w ++ x) (calls w).

Definition add_calls (c : list syscall) (w : World) : World :=
  mk_World (disk w) (refused w) (cuts w) (now w) (ui w) (calls w ++ c).

Definition with_disk (d : gmap string file_content) (w : World) : World :=
  mk_World d (refused w) (cuts w) (now w) (ui w) (calls w).

(** [load_entry] without the world. *)
Definition decode_entry (item : string * file_info string)
  : option (string * file_info datetime) :=
  match fromisoformat (upload_time (snd item)) with
  | Some t =>
      Some (fst item,
            mk_file_info (filename (snd item)) (filepath (snd item))
                         (size (snd item)) t (type (snd item)))
  | None => None
  end.

Fixpoint decode (data : list (string * file_info string)) : option table :=
  match data with
  | [] => Some []
  | item :: data' =>
      match decode_entry item, decode data' with
      | Some e, Some t => Some (e :: t)
      | _, _ => None
      end
  end.

(** The timestamp at which the loop of [load_file_metadata] stops, when it
    does. *)
Fixpoint bad_stamp (data : list (string * file_info string)) : string :=
  match data with
  | [] => ""
  | item :: data' =>
      match fromisoformat (upload_time (snd item)) with
      | Some _ => bad_stamp data'
      | None => upload_time (snd item)
      end
  end.

(** The object [save_file_metadata] hands to [json.dump]. *)
Definition encode (tbl : table) : list (string * file_info string) :=
  fold_left
    (fun acc item => Dict.set (fst item) (serializable_info (snd item)) acc)
    tbl [].

(** What reading the metadata file yields: the table, or the exception
    raised on the way. *)
Definition read_table (d : gmap string file_content) : exn + table :=
  match d !! METADATA_FILE with
  | None => inr []
  | Some (Blob _) | Some Cut => inl JSONDecodeError
  | Some (Snapshot members) =>
      match decode (of_pairs members) with
      | Some t => inr t
      | None => inl (ValueError (bad_stamp (of_pairs members)))
      end
  end.

(** The table [load_file_metadata] returns on a disk (lemma
    [load_file_metadata_eq]). *)
Definition stored_table (d : gmap string file_content) : table :=
  match read_table d with
  | inr t => t
  | inl _ => []
  end.

Definition load_calls (d : gmap string file_content) : list syscall :=
  sys_exists METADATA_FILE
  :: match d !! METADATA_FILE with
     | Some _ => [sys_open_r METADATA_FILE]
     | None => []
     end.

Definition load_ui (d : gmap string file_content) : list widget :=
  match read_table d with
  | inr _ => []
  | inl e => [st_error (fstring "Error loading metadata: " (str_exn e))]
  end.

(** The fields of a table are in order: distinct keys, timestamps a
    [datetime] can hold. *)
Definition table_ok (tbl : table) : Prop :=
  NoDup (keys tbl)
  /\ Forall (fun kv => datetime_ok (upload_time (snd kv)) = true) tbl.

(** "Exactly 4 ASCII digits", the PIN format of the specification. *)
Definition four_ascii_digits (s : string) : bool :=
  (len s =? 4) && all_chars is_ascii_digit s.

(** The test of the download tab: [len(pin_input) == 4 and
    pin_input.isdigit()]. *)
Definition passes_pin_check (s : string) : bool :=
  (len s =? 4) && isdigit s.

(** The candidate of one pass of [generate_pin]:
    [f"{random.randint(1000, 9999)}"] on the raw draw [r]. *)
Definition draw_pin (r : Z) : string := str_of_int (randint 1000 9999 r).

(** The first draw whose candidate is not a key of the table. *)
Definition first_free (tbl : table) (draws : list Z) : option Z :=
  List.find (fun r => negb (contains (draw_pin r) tbl)) draws.

(** A world with an empty storage directory, on 1 March 2024 at noon. *)
Definition noon : datetime := mk_datetime 2024 3 1 12 0 0 0.

Definition empty_world : World := mk_World ∅ ∅ ∅ noon [] [].

(** A metadata file in which every PIN from 1000 to 9999 is taken. *)
Definition full_members : list (string * file_info string) :=
  map (fun i : nat =>
         (str_of_int (1000 + Z.of_nat i),
          mk_file_info "a.txt" "/tmp/streamlit_file_transfer/a.txt" 1
                       "2024-03-01T08:00:00" None))
      (seq 0 (Z.to_nat 9000)).

Definition full_world : World :=
  mk_World {[ METADATA_FILE := Snapshot full_members ]} ∅ ∅ noon [] [].

(** Where [save_file_with_pin] puts the bytes of an upload. *)
Definition blob_path (pin name : string) : string :=
  os_path_join STORAGE_DIR (pin +:+ "_" +:+ name).

(** The entry [save_file_with_pin] records at time [t]. *)
Definition new_info (file : UploadedFile) (pin : string) (t : datetime)
  : file_info datetime :=
  mk_file_info (uf_name file) (blob_path pin (uf_name file)) (uf_size file) t
               (uf_type file).

(** Sample inputs. *)
Definition sample_file : UploadedFile :=
  mk_UploadedFile "report.pdf" [Byte.x25; Byte.x50; Byte.x44; Byte.x46] 4
                  (Some "application/pdf").

Definition evening : datetime := mk_datetime 2024 3 1 19 30 0 250000.

Definition sample_table : table :=
  [("4821", mk_file_info "a.txt" "/tmp/streamlit_file_transfer/4821_a.txt" 1
                         (mk_datetime 2024 3 1 8 0 0 123456) None);
   ("1234", mk_file_info "b.bin" "/tmp/streamlit_file_transfer/1234_b.bin" 7
                         (mk_datetime 2023 12 31 23 59 59 0)
                         (Some "application/octet-stream"))].

(** A world whose metadata file cannot be written. *)
Definition readonly_world : World :=
  mk_World ∅ {[ METADATA_FILE ]} ∅ noon [] [].

(** A world whose only record points at a blob that is not on disk. *)
Definition stale_world : World :=
  mk_World
    {[ METADATA_FILE :=
         Snapshot
           [("4821",
             mk_file_info "a.txt" "/tmp/streamlit_file_transfer/4821_a.txt" 1
                          "2024-03-01T08:00:00" None)] ]}
    ∅ ∅ noon [] [].

(** Four times the character U+00B2, SUPERSCRIPT TWO. *)
Definition superscript_twos : string :=
  let c := ascii_of_N 178 in String c (String c (String c (String c ""))).

Definition other_file : UploadedFile :=
  mk_UploadedFile "notes.txt" [Byte.x68; Byte.x69] 2 (Some "text/plain").

(** A session in the upload loop of the first tab: about to call
    [generate_pin], about to call [save_file_with_pin] with the PIN it got,
    or through with the pass. *)
Inductive session : Type :=
| Allocating (file : UploadedFile) (draws : list Z)
| Saving (file : UploadedFile) (pin : string)
| Uploaded (pin : string)
| Stopped.

(** The next call of a session, run to its end. *)
Definition session_step (s : session) (w : World) : session * World :=
  match s with
  | Allocating file draws =>
      match generate_pin draws w with
      | (Ok pin, w') => (Saving file pin, w')
      | (_, w') => (Stopped, w')
      end
  | Saving file pin =>
      match save_file_with_pin file pin w with
      | (Ok _, w') => (Uploaded pin, w')
      | (_, w') => (Stopped, w')
      end
  | _ => (s, w)
  end.

(** Two sessions on one disk; the schedule names, call by call, the session
    that runs next ([true] the first, [false] the second). *)
Fixpoint interleave (schedule : list bool) (a b : session) (w : World)
  : session * session * World :=
  match schedule with
  | [] => (a, b, w)
  | true :: rest =>
      let '(a', w') := session_step a w in interleave rest a' b w'
  | false :: rest =>
      let '(b', w') := session_step b w in interleave rest a b' w'
  end.

(** The records the sweep finds expired at [current_time], and the others. *)
Definition expired_items (current_time : datetime) (tbl : table) : table :=
  List.filter (fun kv => expired current_time (snd kv)) tbl.

Definition live_items (current_time : datetime) (tbl : table) : table :=
  List.filter (fun kv => negb (expired current_time (snd kv))) tbl.

(** The disk a failed write on [path] leaves. *)
Definition cut_disk (cuts : gset string) (path : string)
    (d : gmap string file_content) : gmap string file_content :=
  if bool_decide (path ∈ cuts) then <[path := Cut]> d else d.

(** The disk after [if os.path.exists(path): try: os.remove(path) except
    OSError: pass]. *)
Definition remove_blob (refused : gset string) (path : string)
    (d : gmap string file_content) : gmap string file_content :=
  match d !! path with
  | Some _ => if bool_decide (path ∈ refused) then d else delete path d
  | None => d
  end.

(** The disk after the first loop of [cleanup_old_files]. *)
Fixpoint scan_disk (current_time : datetime) (items : table)
    (refused : gset string) (d : gmap string file_content)
  : gmap string file_content :=
  match items with
  | [] => d
  | (_, info) :: items' =>
      scan_disk current_time items' refused
        (if expired current_time info
         then remove_blob refused (filepath info) d else d)
  end.

(** The file-system calls of that loop. *)
Fixpoint scan_calls (current_time : datetime) (items : table)
    (refused : gset string) (d : gmap string file_content) : list syscall :=
  match items with
  | [] => []
  | (_, info) :: items' =>
      if expired current_time info then
        sys_exists (filepath info)
        :: match d !! filepath info with
           | Some _ => [sys_remove (filepath info)]
           | None => []
           end
        ++ scan_calls current_time items' refused
             (remove_blob refused (filepath info) d)
      else scan_calls current_time items' refused d
  end.

(** A store with two records, uploaded 25 and 23 hours before [noon]; the
    blob of the older one is already gone. *)
Definition day_old_world : World :=
  mk_World
    {[ METADATA_FILE :=
         Snapshot
           [("4821",
             mk_file_info "a.txt" "/tmp/streamlit_file_transfer/4821_a.txt" 1
                          "2024-02-29T11:00:00" None);
            ("1234",
             mk_file_info "b.bin" "/tmp/streamlit_file_transfer/1234_b.bin" 2
                          "2024-02-29T13:00:00" None)];
       "/tmp/streamlit_file_transfer/1234_b.bin" := Blob [Byte.x00; Byte.x01]
    ]}
    ∅ ∅ noon [] [].

(** A store whose one record was uploaded exactly 24 hours before [noon]. *)
Definition boundary_world : World :=
  mk_World
    {[ METADATA_FILE :=
         Snapshot
           [("4821",
             mk_file_info "a.txt" "/tmp/streamlit_file_transfer/4821_a.txt" 1
                          "2024-02-29T12:00:00" None)] ]}
    ∅ ∅ noon [] [].

(** One microsecond after [noon]. *)
Definition just_after_noon : datetime := mk_datetime 2024 3 1 12 0 0 1.

Definition half_past_noon : datetime := mk_datetime 2024 3 1 12 30 0 0.

(** An entry uploaded at [t]. *)
Definition uploaded_at (t : datetime) : file_info datetime :=
  mk_file_info "a.txt" "/tmp/streamlit_file_transfer/4821_a.txt" 1 t None.

(** A record as [save_file_with_pin] writes it for a PIN of [generate_pin]:
    under a PIN of 4 ASCII digits, pointing at the blob path of that PIN and
    its file name. *)
Definition own_path (kv : string * file_info datetime) : Prop :=
  four_ascii_digits (fst kv) = true
  /\ filepath (snd kv) = blob_path (fst kv) (filename (snd kv)).

(** The store is consistent: every record of the persisted table is as
    [save_file_with_pin] writes it, and its blob is on disk. *)
Definition consistent (w : World) : Prop :=
  Forall (fun kv => own_path kv /\ is_Some (disk w !! filepath (snd kv)))
         (stored_table (disk w)).

(** A text too short to be a date: [datetime.fromisoformat] raises
    [ValueError] on fewer than 7 characters, whatever the layout. *)
Definition too_short (date_string : string) : Prop := len date_string < 7.

(** The metadata file holds what [load_file_metadata] fails on: no JSON
    text, or a JSON object with a timestamp that is too short to be a
    date. *)
Definition unreadable (d : gmap string file_content) : Prop :=
  match d !! METADATA_FILE with
  | Some (Snapshot members) =>
      NoDup (map fst members)
      /\ Exists (fun kv => too_short (upload_time (snd kv))) members
  | Some _ => True
  | None => False
  end.

(** A metadata file with one record whose timestamp is not a date. *)
Definition bad_stamp_members : list (string * file_info string) :=
  [("4821",
    mk_file_info "a.txt" "/tmp/streamlit_file_transfer/4821_a.txt" 1
                 "2024-03-01T08:00:00" None);
   ("1234",
    mk_file_info "b.bin" "/tmp/streamlit_file_transfer/1234_b.bin" 2
                 "never" None)].

Definition bad_stamp_world : World :=
  mk_World {[ METADATA_FILE := Snapshot bad_stamp_members ]} ∅ ∅ noon [] [].

(** A world in which the blob of "1234_report.pdf" cannot be written. *)
Definition blob_refused_world : World :=
  mk_World ∅ {[ blob_path "1234" "report.pdf" ]} ∅ noon [] [].

(** A consistent store with one record, uploaded at 08:00. *)
Definition one_file_world : World :=
  mk_World
    {[ METADATA_FILE :=
         Snapshot
           [("4821",
             mk_file_info "a.txt" "/tmp/streamlit_file_transfer/4821_a.txt" 1
                          "2024-03-01T08:00:00" None)];
       "/tmp/streamlit_file_transfer/4821_a.txt" := Blob [Byte.x61] ]}
    ∅ ∅ noon [] [].

(** The store of [one_file_world] on a full disk: the metadata file can be
    opened for writing, which empties it, and the write then fails. *)
Definition disk_full_world : World :=
  mk_World (disk one_file_world) {[ METADATA_FILE ]} {[ METADATA_FILE ]}
           noon [] [].

(** The store of [day_old_world] with a metadata file that cannot be
    opened for writing. *)
Definition readonly_day_old_world : World :=
  mk_World (disk day_old_world) {[ METADATA_FILE ]} ∅ noon [] [].

(** The size of the record can be shown: [file_info['size'] / 1024] is
    within the range of a float.  Every size below [2 ^ 1023] is. *)
Definition float_size (info : file_info datetime) : Prop :=
  Z.abs (size info) < 2 ^ 1023.

(** The error of an entry of [failed_uploads]: the text of the exception
    [save_file_with_pin] raises when the blob of the file, under some PIN,
    cannot be written. *)
Definition blob_write_error (f : failed_entry) : Prop :=
  exists pin,
    fe_error f
    = fstring "Failed to save file: "
        (str_exn (OSError (blob_path pin (fe_filename f)))).

(** What happens to a store: one pass of the upload loop, a sweep, a use of
    the download tab, or the clock moving on. *)
Inductive action : Type :=
| do_upload (file : UploadedFile) (draws : list Z)
| do_sweep
| do_download (pin_input : string)
| do_tick (t : datetime).

Definition act (w : World) (a : action) : World :=
  match a with
  | do_upload file draws => snd (upload file draws w)
  | do_sweep => snd (cleanup_old_files w)
  | do_download pin_input => snd (download_tab pin_input w)
  | do_tick t => tick t w
  end.

Definition run (actions : list action) (w : World) : World :=
  fold_left act actions w.

(** The clock is only ever set to a time a [datetime] can hold. *)
Definition clock_ok (a : action) : Prop :=
  match a with
  | do_tick t => datetime_ok t = true
  | _ => True
  end.

(** The PINs reported so far are distinct, and each resolves to a record
    with the reported name and size. *)
Definition reported_ok (up : list uploaded_entry) (w : World) : Prop :=
  NoDup (map ue_pin up)
  /\ Forall (fun e =>
               exists info,
                 get (ue_pin e) (stored_table (disk w)) = Some info
                 /\ filename info = ue_filename e
                 /\ size info = ue_size e
                 /\ type info = ue_type e) up.

End View.

(** * Proofs *)

(** ** The definitions on sample inputs *)

Section examples.
Import Text Datetime Dict Sys App View.

Example isoformat_with_microseconds :
  isoformat (mk_datetime 2024 3 1 8 0 0 123456) = "2024-03-01T08:00:00.123456".
Proof. reflexivity. Qed.

Example isoformat_whole_second : isoformat noon = "2024-03-01T12:00:00".
Proof. reflexivity. Qed.

Example fromisoformat_rejects_30_february :
  fromisoformat "2024-02-30T12:00:00" = None.
Proof. reflexivity. Qed.

Example one_leap_day_apart :
  sub (mk_datetime 2024 3 1 0 0 0 0) (mk_datetime 2024 2 28 0 0 0 0)
  = timedelta_hours 48.
Proof. reflexivity. Qed.

Example str_of_int_samples :
  str_of_int 1000 = "1000" /\ str_of_int 9999 = "9999" /\ str_of_int 7 = "7"
  /\ str_of_int (-12) = "-12".
Proof. repeat split. Qed.

Example paths :
  STORAGE_DIR = "/tmp/streamlit_file_transfer"
  /\ METADATA_FILE = "/tmp/streamlit_file_transfer/file_metadata.json"
  /\ blob_path "1234" "report.pdf"
     = "/tmp/streamlit_file_transfer/1234_report.pdf".
Proof. repeat split. Qed.

Example pin_check_samples :
  passes_pin_check "12" = false /\ passes_pin_check "12a4" = false
  /\ passes_pin_check "" = false /\ passes_pin_check "99999" = false
  /\ passes_pin_check "0042" = true.
Proof. repeat split. Qed.

Example expired_after_25_hours :
  expired noon (uploaded_at (mk_datetime 2024 2 29 11 0 0 0)) = true.
Proof. reflexivity. Qed.

Example live_after_23_hours :
  expired noon (uploaded_at (mk_datetime 2024 2 29 13 0 0 0)) = false.
Proof. reflexivity. Qed.

Example live_after_exactly_24_hours :
  expired noon (uploaded_at (mk_datetime 2024 2 29 12 0 0 0)) = false.
Proof. reflexivity. Qed.

End examples.

(** ** Decimal text and timestamps *)

Section text_facts.
Import Text.

Lemma digit_val_char (d : Z) :
  0 <= d < 10 ->
  is_ascii_digit (digit_char d) = true /\ digit_val (digit_char d) = d.
Proof.
  intros Hd.
  assert (d = 0 \/ d = 1 \/ d = 2 \/ d = 3 \/ d = 4 \/ d = 5 \/ d = 6
          \/ d = 7 \/ d = 8 \/ d = 9) as Hcases by lia.
  repeat (destruct Hcases as [-> | Hcases]; [split; reflexivity |]).
  subst d. split; reflexivity.
Qed.

Lemma append_String (c : ascii) (s r : string) :
  String c s +:+ r = String c (s +:+ r).
Proof. reflexivity. Qed.

Lemma append_Empty (r : string) : "" +:+ r = r.
Proof. reflexivity. Qed.

Lemma take_int_digits (k : nat) : forall (n acc : Z) (rest : string),
  take_int k acc (digits k n +:+ rest)
  = Some (acc * 10 ^ Z.of_nat k + n mod 10 ^ Z.of_nat k, rest).
Proof.
  induction k as [| k IH]; intros n acc rest.
  - cbn [digits take_int]. rewrite append_Empty. f_equal. f_equal.
    rewrite Z.pow_0_r, Z.mod_1_r. lia.
  - cbn [digits]. rewrite append_String. cbn [take_int].
    set (d := (n / 10 ^ Z.of_nat k) mod 10).
    assert (0 <= d < 10) as Hd by (apply Z.mod_pos_bound; lia).
    destruct (digit_val_char d Hd) as [-> ->].
    rewrite IH. f_equal. f_equal.
    rewrite Nat2Z.inj_succ, Z.pow_succ_r by lia.
    assert (0 < 10 ^ Z.of_nat k) as Hp by (apply Z.pow_pos_nonneg; lia).
    rewrite (Z.mul_comm 10 (10 ^ Z.of_nat k)).
    rewrite (Z.rem_mul_r n (10 ^ Z.of_nat k) 10) by lia.
    fold d. ring.
Qed.

Lemma take_int_digits_small (k : nat) (n : Z) (rest : string) :
  0 <= n < 10 ^ Z.of_nat k ->
  take_int k 0 (digits k n +:+ rest) = Some (n, rest).
Proof.
  intros Hn. rewrite take_int_digits, Z.mod_small by assumption.
  reflexivity.
Qed.

End text_facts.

Section datetime_facts.
Import Text Datetime.

Lemma append_Empty_r (s : string) : s +:+ "" = s.
Proof.
  induction s as [| c s IH]; [reflexivity |].
  rewrite append_String, IH. reflexivity.
Qed.

Lemma expect_append (c : ascii) (rest : string) :
  expect c (String c "" +:+ rest) = Some rest.
Proof.
  rewrite append_String, append_Empty. cbn [expect].
  rewrite Ascii.eqb_refl. reflexivity.
Qed.

Lemma parse_fraction_isoformat (us : Z) :
  0 <= us < 1000000 ->
  parse_fraction (if us =? 0 then "" else "." +:+ digits 6 us) = Some us.
Proof.
  intros Hus. destruct (Z.eqb_spec us 0) as [-> | Hne]; [reflexivity |].
  rewrite append_String, append_Empty. cbn [parse_fraction].
  change (Ascii.eqb "." ".") with true. cbv iota.
  rewrite <- (append_Empty_r (digits 6 us)).
  rewrite take_int_digits_small by (change (10 ^ Z.of_nat 6) with 1000000; lia).
  reflexivity.
Qed.

Lemma days_in_month_le (y m : Z) : days_in_month y m <= 31.
Proof.
  unfold days_in_month.
  repeat match goal with
         | |- context [match ?x with _ => _ end] => destruct x
         end; lia.
Qed.

(** What [isoformat] writes, [fromisoformat] reads back unchanged. *)
Lemma fromisoformat_isoformat (t : datetime) :
  datetime_ok t = true -> fromisoformat (isoformat t) = Some t.
Proof.
  intros Hok. pose proof Hok as Hok'.
  unfold datetime_ok in Hok'.
  repeat rewrite andb_true_iff in Hok'.
  repeat match type of Hok' with _ /\ _ => destruct Hok' as [Hok' ?] end.
  pose proof (days_in_month_le (year t) (month t)) as Hdim.
  destruct t as [y m d hh mm ss us]; cbn [year month day hour minute second
    microsecond] in *.
  unfold isoformat, fromisoformat;
    cbn [year month day hour minute second microsecond].
  rewrite take_int_digits_small by (change (10 ^ Z.of_nat 4) with 10000; lia).
  cbn [mbind option_bind]. rewrite expect_append. cbn [mbind option_bind].
  rewrite take_int_digits_small by (change (10 ^ Z.of_nat 2) with 100; lia).
  cbn [mbind option_bind]. rewrite expect_append. cbn [mbind option_bind].
  rewrite take_int_digits_small by (change (10 ^ Z.of_nat 2) with 100; lia).
  cbn [mbind option_bind]. rewrite append_String, append_Empty.
  cbn [mbind option_bind].
  rewrite take_int_digits_small by (change (10 ^ Z.of_nat 2) with 100; lia).
  cbn [mbind option_bind]. rewrite expect_append. cbn [mbind option_bind].
  rewrite take_int_digits_small by (change (10 ^ Z.of_nat 2) with 100; lia).
  cbn [mbind option_bind]. rewrite expect_append. cbn [mbind option_bind].
  rewrite take_int_digits_small by (change (10 ^ Z.of_nat 2) with 100; lia).
  cbn [mbind option_bind].
  rewrite parse_fraction_isoformat by lia.
  cbn [mbind option_bind]. rewrite Hok. reflexivity.
Qed.

(** [fromisoformat] only ever builds a datetime with fields in range. *)
Lemma fromisoformat_ok (s : string) (t : datetime) :
  fromisoformat s = Some t -> datetime_ok t = true.
Proof.
  unfold fromisoformat. intros H.
  repeat match type of H with
         | context [mbind _ ?o] =>
             destruct o as [[? ?] |] eqn:?; cbn [mbind option_bind] in H;
             [| discriminate]
         | context [mbind _ ?o] =>
             destruct o as [? |] eqn:?; cbn [mbind option_bind] in H;
             [| discriminate]
         end.
  destruct (datetime_ok _) eqn:Hok in H; [| discriminate].
  inversion H; subst. exact Hok.
Qed.

Lemma take_int_length k acc s v r :
  take_int k acc s = Some (v, r) ->
  String.length s = (k + String.length r)%nat.
Proof.
  revert acc s. induction k as [| k IH]; intros acc s; cbn [take_int].
  - intros [= _ ->]. reflexivity.
  - destruct s as [| c s]; [discriminate |].
    destruct (is_ascii_digit c); [| discriminate].
    intros H. apply IH in H. cbn [String.length]. lia.
Qed.

Lemma expect_length c s r :
  expect c s = Some r -> String.length s = S (String.length r).
Proof.
  destruct s as [| c' s]; cbn [expect]; [discriminate |].
  destruct (Ascii.eqb c c'); [| discriminate]. now intros [= ->].
Qed.

(** A text of fewer than 7 characters is not read. *)
Lemma fromisoformat_short (s : string) : len s < 7 -> fromisoformat s = None.
Proof.
  unfold len, fromisoformat. intros Hlen.
  destruct (take_int 4 0 s) as [[y s1] |] eqn:H1; [| reflexivity].
  apply take_int_length in H1. cbn [mbind option_bind].
  destruct (expect "-" s1) as [s2 |] eqn:H2; [| reflexivity].
  apply expect_length in H2. cbn [mbind option_bind].
  destruct (take_int 2 0 s2) as [[m s3] |] eqn:H3; [| reflexivity].
  apply take_int_length in H3. lia.
Qed.

End datetime_facts.

(** ** Facts about dictionaries *)

Section dict_facts.
Import Dict.
Context {V : Type}.
Implicit Types (d : dict V) (k : string) (v : V).

Lemma get_None_keys k d : get k d = None <-> ~ In k (keys d).
Proof.
  induction d as [| [k' v'] d IH]; cbn [get keys map fst In].
  - tauto.
  - destruct (String.eqb_spec k k') as [-> | Hne].
    + split; [discriminate | intros H; exfalso; apply H; now left].
    + rewrite IH. unfold keys. split.
      * intros H [Heq | Hin]; [congruence | tauto].
      * intros H Hin. apply H. now right.
Qed.

Lemma get_Some_In k v d : get k d = Some v -> In (k, v) d.
Proof.
  induction d as [| [k' v'] d IH]; cbn [get In]; [discriminate |].
  destruct (String.eqb_spec k k') as [-> | Hne].
  - intros [= ->]. now left.
  - intros H. right. now apply IH.
Qed.

Lemma In_get k v d : NoDup (keys d) -> In (k, v) d -> get k d = Some v.
Proof.
  induction d as [| [k' v'] d IH]; cbn [get keys map fst In]; [tauto |].
  intros Hnd [Heq | Hin].
  - injection Heq as -> ->. now rewrite String.eqb_refl.
  - apply NoDup_cons in Hnd as [Hnotin Hnd].
    destruct (String.eqb_spec k k') as [-> | Hne].
    + exfalso. apply Hnotin. apply list_elem_of_In.
      change (In k' (keys d)). unfold keys.
      apply (in_map fst) in Hin. exact Hin.
    + now apply IH.
Qed.

Lemma contains_true k d : contains k d = true <-> In k (keys d).
Proof.
  unfold contains. destruct (get k d) as [v |] eqn:Hg.
  - split; [intros _ | reflexivity].
    apply get_Some_In in Hg. apply (in_map fst) in Hg. exact Hg.
  - apply get_None_keys in Hg. split; [discriminate | tauto].
Qed.

Lemma contains_false k d : contains k d = false <-> ~ In k (keys d).
Proof.
  rewrite <- contains_true. destruct (contains k d); split; congruence.
Qed.

Lemma get_set_eq k v d : get k (set k v d) = Some v.
Proof.
  induction d as [| [k' v'] d IH]; cbn [set get].
  - now rewrite String.eqb_refl.
  - destruct (String.eqb_spec k k') as [-> | Hne]; cbn [get].
    + now rewrite String.eqb_refl.
    + destruct (String.eqb_spec k k'); [contradiction | exact IH].
Qed.

Lemma get_set_ne k k' v d : k <> k' -> get k' (set k v d) = get k' d.
Proof.
  intros Hne. induction d as [| [k0 v0] d IH]; cbn [set get].
  - destruct (String.eqb_spec k' k); [congruence | reflexivity].
  - destruct (String.eqb_spec k k0) as [-> | Hne0]; cbn [get].
    + destruct (String.eqb_spec k' k0); [congruence | reflexivity].
    + destruct (String.eqb_spec k' k0); [reflexivity | exact IH].
Qed.

Lemma set_fresh k v d : ~ In k (keys d) -> set k v d = d ++ [(k, v)].
Proof.
  induction d as [| [k' v'] d IH]; cbn [set keys map fst In app];
    [reflexivity |].
  intros Hnotin. destruct (String.eqb_spec k k') as [-> | Hne].
  - exfalso. apply Hnotin. now left.
  - f_equal. apply IH. intros Hin. apply Hnotin. now right.
Qed.

Lemma keys_set k v d :
  keys (set k v d) = if contains k d then keys d else keys d ++ [k].
Proof.
  induction d as [| [k' v'] d IH]; [reflexivity |].
  unfold contains in *. cbn [set get keys map fst] in *.
  destruct (String.eqb_spec k k') as [-> | Hne]; [reflexivity |].
  cbn [map fst]. fold (keys (set k v d)). rewrite IH.
  destruct (get k d); reflexivity.
Qed.

Lemma NoDup_keys_set k v d : NoDup (keys d) -> NoDup (keys (set k v d)).
Proof.
  intros Hnd. rewrite keys_set.
  destruct (contains k d) eqn:Hc; [exact Hnd |].
  apply contains_false in Hc.
  apply NoDup_app. split; [exact Hnd |]. split.
  - intros x Hx Hx'. apply list_elem_of_In in Hx.
    apply list_elem_of_In in Hx'. destruct Hx' as [<- | []]. tauto.
  - apply NoDup_singleton.
Qed.

Lemma NoDup_keys_of_pairs_acc (l : list (string * V)) : forall d,
  NoDup (keys d) ->
  NoDup (keys (fold_left (fun acc kv => set (fst kv) (snd kv) acc) l d)).
Proof.
  induction l as [| [k v] l IH]; intros d Hnd; cbn [fold_left];
    [exact Hnd |].
  apply IH. now apply NoDup_keys_set.
Qed.

Lemma NoDup_keys_of_pairs (l : list (string * V)) :
  NoDup (keys (of_pairs l)).
Proof. apply NoDup_keys_of_pairs_acc. apply NoDup_nil_2. Qed.

Lemma keys_app d d' : keys (d ++ d') = keys d ++ keys d'.
Proof. unfold keys. apply map_app. Qed.

Lemma fold_set_fresh {W : Type} (f : W -> V) (l : list (string * W)) :
  forall d : dict V,
  NoDup (keys d ++ map fst l) ->
  fold_left (fun acc kv => set (fst kv) (f (snd kv)) acc) l d
  = d ++ map (fun kv => (fst kv, f (snd kv))) l.
Proof.
  induction l as [| [k w] l IH]; intros d Hnd; cbn [fold_left map fst snd].
  - now rewrite app_nil_r.
  - cbn [map fst] in Hnd.
    assert (~ In k (keys d)) as Hfresh.
    { intros Hin. apply NoDup_app in Hnd as (_ & Hdisj & _).
      apply (Hdisj k); [now apply list_elem_of_In | left]. }
    rewrite set_fresh by exact Hfresh.
    rewrite IH.
    + now rewrite <- app_assoc.
    + rewrite keys_app. cbn [keys map fst].
      rewrite <- app_assoc. exact Hnd.
Qed.

Lemma of_pairs_NoDup (l : list (string * V)) :
  NoDup (map fst l) -> of_pairs l = l.
Proof.
  intros Hnd. unfold of_pairs.
  rewrite (fold_set_fresh (fun v => v) l []) by exact Hnd.
  cbn [app]. rewrite <- (map_id l) at 2. apply map_ext.
  intros [k v]. reflexivity.
Qed.

Lemma keys_of_pairs_In k (l : list (string * V)) :
  In k (keys (of_pairs l)) <-> In k (map fst l).
Proof.
  unfold of_pairs.
  enough (forall d, In k (keys (fold_left
            (fun acc kv => set (fst kv) (snd kv) acc) l d))
          <-> In k (keys d) \/ In k (map fst l)) as H.
  { rewrite H. cbn [keys map In]. tauto. }
  induction l as [| [k' v'] l IH]; intros d; cbn [fold_left map fst snd In].
  - tauto.
  - rewrite IH, keys_set.
    destruct (contains k' d) eqn:Hc.
    + apply contains_true in Hc.
      split; (intros [H | H]; [tauto |]); [tauto |].
      destruct H as [<- | H]; tauto.
    + rewrite in_app_iff. cbn [In]. tauto.
Qed.

Lemma del_Some k d : In k (keys d) -> exists d', del k d = Some d'.
Proof.
  induction d as [| [k' v'] d IH]; cbn [keys map fst In del]; [tauto |].
  intros Hin. destruct (String.eqb_spec k k') as [-> | Hne].
  - eauto.
  - destruct IH as [d' ->]; [| eauto].
    destruct Hin as [Heq | Hin]; [congruence | exact Hin].
Qed.

Lemma del_filter k d d' :
  NoDup (keys d) -> del k d = Some d' ->
  d' = List.filter (fun kv => negb (String.eqb k (fst kv))) d.
Proof.
  revert d'. induction d as [| [k' v'] d IH]; intros d' Hnd;
    cbn [del List.filter fst keys map] in *; [discriminate |].
  apply NoDup_cons in Hnd as [Hnotin Hnd].
  destruct (String.eqb_spec k k') as [-> | Hne]; cbn [negb].
  - intros [= <-]. symmetry. apply forallb_filter_id.
    apply forallb_forall. intros [k0 v0] Hin. cbn [fst].
    destruct (String.eqb_spec k' k0) as [-> | _]; [| reflexivity].
    exfalso. apply Hnotin. apply list_elem_of_In.
    apply (in_map fst) in Hin. exact Hin.
  - destruct (del k d) as [d'' |]; [| discriminate].
    intros [= <-]. f_equal. now apply IH.
Qed.

End dict_facts.

(** ** What the store functions do to the world *)

Section store_facts.
Import Text Datetime Dict Sys App View.

Lemma add_ui_nil w : add_ui [] w = w.
Proof. destruct w. unfold add_ui. cbn. now rewrite app_nil_r. Qed.

Lemma bind_eq {A B} (m : M A) (k : A -> M B) (w : World) :
  bind m k w
  = match m w with
    | (Ok a, w') => k a w'
    | (Raise e, w') => (Raise e, w')
    | (Looping, w') => (Looping, w')
    end.
Proof. reflexivity. Qed.

Lemma load_entry_eq item w :
  load_entry item w
  = (match decode_entry item with
     | Some e => Ok e
     | None => Raise (ValueError (upload_time (snd item)))
     end, w).
Proof.
  destruct item as [pin info]. unfold load_entry, decode_entry.
  cbn [fst snd]. destruct (fromisoformat (upload_time info)); reflexivity.
Qed.

Lemma map_each_load_entry data w :
  map_each load_entry data w
  = (match decode data with
     | Some t => Ok t
     | None => Raise (ValueError (bad_stamp data))
     end, w).
Proof.
  induction data as [| item data IH]; [reflexivity |].
  cbn [map_each decode bad_stamp]. rewrite bind_eq, load_entry_eq.
  unfold decode_entry.
  destruct (fromisoformat (upload_time (snd item))) as [t |]; [| reflexivity].
  rewrite bind_eq, IH. destruct (decode data); reflexivity.
Qed.

Lemma load_file_metadata_eq w :
  load_file_metadata w
  = (Ok (stored_table (disk w)),
     add_ui (load_ui (disk w)) (add_calls (load_calls (disk w)) w)).
Proof.
  unfold load_file_metadata, try_except, bind at 1, os_path_exists,
    bind at 1, log_call, stored_table, load_ui, load_calls, read_table.
  cbn [disk].
  destruct (disk w !! METADATA_FILE) as [c |] eqn:Hc.
  - rewrite bool_decide_true by eauto.
    unfold bind at 1, json_load, bind at 1, read_file, bind at 1, log_call.
    cbn [disk]. rewrite Hc. destruct c as [data | members |].
    + unfold raise, bind, render, ret, add_ui, add_calls. cbn.
      now rewrite <- app_assoc.
    + unfold ret at 1. rewrite map_each_load_entry.
      destruct (decode (of_pairs members)) as [t |].
      * unfold add_ui, add_calls. cbn.
        now rewrite app_nil_r, <- app_assoc.
      * unfold bind, render, ret, add_ui, add_calls. cbn.
        now rewrite <- app_assoc.
    + unfold raise, bind, render, ret, add_ui, add_calls. cbn.
      now rewrite <- app_assoc.
  - rewrite bool_decide_false by (intros [? ?]; discriminate).
    unfold ret, add_ui, add_calls. cbn. now rewrite app_nil_r.
Qed.

Lemma save_file_metadata_eq tbl w :
  save_file_metadata tbl w
  = (Ok tt,
     if bool_decide (METADATA_FILE ∈ refused w) then
       add_ui [st_error (fstring "Error saving metadata: "
                                 (str_exn (OSError METADATA_FILE)))]
         (with_disk (cut_disk (cuts w) METADATA_FILE (disk w))
            (add_calls [lock_acquire; sys_open_w METADATA_FILE; lock_release]
                       w))
     else
       with_disk (<[METADATA_FILE := Snapshot (encode tbl)]> (disk w))
         (add_calls [lock_acquire; sys_open_w METADATA_FILE; lock_release] w)).
Proof.
  unfold save_file_metadata, try_except, with_file_lock, bind at 1,
    log_call at 1, write_file, bind at 1, log_call at 1, cut_disk.
  cbn [refused cuts disk now ui calls].
  destruct (bool_decide (METADATA_FILE ∈ refused w)).
  - destruct (bool_decide (METADATA_FILE ∈ cuts w));
      unfold set_disk, log_call, render, add_ui, add_calls, with_disk; cbn;
      now rewrite <- !app_assoc.
  - unfold set_disk, log_call, with_disk, add_calls. cbn.
    now rewrite <- !app_assoc.
Qed.

Lemma encode_NoDup (tbl : table) :
  NoDup (keys tbl) ->
  encode tbl = map (fun kv => (fst kv, serializable_info (snd kv))) tbl.
Proof.
  intros Hnd. unfold encode.
  rewrite (fold_set_fresh serializable_info tbl []) by exact Hnd.
  reflexivity.
Qed.

Lemma keys_encode (tbl : table) :
  NoDup (keys tbl) -> map fst (encode tbl) = keys tbl.
Proof.
  intros Hnd. rewrite encode_NoDup by exact Hnd.
  rewrite map_map. reflexivity.
Qed.

Lemma decode_serialized (tbl : table) :
  Forall (fun kv => datetime_ok (upload_time (snd kv)) = true) tbl ->
  decode (map (fun kv => (fst kv, serializable_info (snd kv))) tbl)
  = Some tbl.
Proof.
  induction 1 as [| [pin info] tbl Hok _ IH]; [reflexivity |].
  cbn [map decode fst snd]. rewrite IH.
  unfold decode_entry, serializable_info. cbn [fst snd upload_time
    filename filepath size type].
  rewrite fromisoformat_isoformat by exact Hok.
  destruct info; reflexivity.
Qed.

Lemma decode_keys data t : decode data = Some t -> keys t = map fst data.
Proof.
  revert t. induction data as [| item data IH]; intros t; cbn [decode].
  - intros [= <-]. reflexivity.
  - unfold decode_entry.
    destruct (fromisoformat (upload_time (snd item))); [| discriminate].
    destruct (decode data) as [t' |]; [| discriminate].
    intros [= <-]. cbn [keys map fst]. f_equal. now apply IH.
Qed.

Lemma decode_ok data t :
  decode data = Some t ->
  Forall (fun kv => datetime_ok (upload_time (snd kv)) = true) t.
Proof.
  revert t. induction data as [| item data IH]; intros t; cbn [decode].
  - intros [= <-]. constructor.
  - unfold decode_entry.
    destruct (fromisoformat (upload_time (snd item))) as [u |] eqn:Hu;
      [| discriminate].
    destruct (decode data) as [t' |]; [| discriminate].
    intros [= <-]. constructor; [| now apply IH].
    cbn [snd upload_time]. now apply (fromisoformat_ok _ _ Hu).
Qed.

Lemma table_ok_nil : table_ok [].
Proof. split; constructor. Qed.

(** Whatever the disk holds, the table read from it is in order. *)
Lemma stored_table_ok d : table_ok (stored_table d).
Proof.
  unfold stored_table, read_table.
  destruct (d !! METADATA_FILE) as [[data | members |] |];
    try apply table_ok_nil.
  destruct (decode (of_pairs members)) as [t |] eqn:Ht;
    [| apply table_ok_nil].
  split.
  - rewrite (decode_keys _ _ Ht). apply (NoDup_keys_of_pairs members).
  - now apply (decode_ok _ _ Ht).
Qed.

(** A table written by [save_file_metadata] is read back unchanged. *)
Lemma read_table_saved (tbl : table) d :
  table_ok tbl ->
  read_table (<[METADATA_FILE := Snapshot (encode tbl)]> d) = inr tbl.
Proof.
  intros [Hnd Hok]. unfold read_table. rewrite lookup_insert_eq.
  rewrite of_pairs_NoDup by (now rewrite keys_encode).
  rewrite encode_NoDup by exact Hnd.
  now rewrite decode_serialized.
Qed.

Lemma stored_table_saved (tbl : table) d :
  table_ok tbl ->
  stored_table (<[METADATA_FILE := Snapshot (encode tbl)]> d) = tbl.
Proof.
  intros H. unfold stored_table. now rewrite read_table_saved.
Qed.

Lemma read_table_insert_ne path c d :
  path <> METADATA_FILE -> read_table (<[path := c]> d) = read_table d.
Proof.
  intros Hne. unfold read_table. now rewrite lookup_insert_ne.
Qed.

Lemma cut_disk_lookup_ne cuts_ path p d :
  p <> path -> cut_disk cuts_ path d !! p = d !! p.
Proof.
  intros Hne. unfold cut_disk. destruct (bool_decide (path ∈ cuts_));
    [now rewrite lookup_insert_ne by congruence | reflexivity].
Qed.

Lemma cut_disk_is_Some cuts_ path p d :
  is_Some (d !! p) -> is_Some (cut_disk cuts_ path d !! p).
Proof.
  intros Hp. unfold cut_disk. destruct (bool_decide (path ∈ cuts_));
    [| exact Hp].
  destruct (decide (path = p)) as [-> | Hne].
  - rewrite lookup_insert_eq. eauto.
  - now rewrite lookup_insert_ne.
Qed.

Lemma read_table_cut_ne cuts_ path d :
  path <> METADATA_FILE -> read_table (cut_disk cuts_ path d) = read_table d.
Proof.
  intros Hne. unfold read_table. now rewrite cut_disk_lookup_ne by congruence.
Qed.

Lemma read_table_delete_ne path d :
  path <> METADATA_FILE -> read_table (delete path d) = read_table d.
Proof.
  intros Hne. unfold read_table. now rewrite lookup_delete_ne.
Qed.

Lemma Forall_set {P : string * file_info datetime -> Prop}
    k v (tbl : table) :
  P (k, v) -> Forall P tbl -> Forall P (Dict.set k v tbl).
Proof.
  intros Hv. induction 1 as [| [k' v'] tbl Hx Htl IH]; cbn [Dict.set].
  - repeat constructor. exact Hv.
  - destruct (String.eqb k k'); constructor; assumption.
Qed.

Lemma table_ok_set pin info (tbl : table) :
  datetime_ok (upload_time info) = true ->
  table_ok tbl -> table_ok (Dict.set pin info tbl).
Proof.
  intros Hok [Hnd Hall]. split.
  - now apply NoDup_keys_set.
  - now apply Forall_set.
Qed.

Lemma table_ok_filter (p : string * file_info datetime -> bool)
    (tbl : table) :
  table_ok tbl -> table_ok (List.filter p tbl).
Proof.
  intros [Hnd Hall]. split.
  - clear Hall. induction tbl as [| kv tbl IH]; [constructor |].
    cbn [keys map] in Hnd. apply NoDup_cons in Hnd as [Hnotin Hnd].
    cbn [List.filter]. destruct (p kv); [| now apply IH].
    cbn [keys map]. apply NoDup_cons. split; [| now apply IH].
    intros Hin. apply Hnotin. apply list_elem_of_In.
    apply list_elem_of_In in Hin. unfold keys in Hin.
    apply in_map_iff in Hin as (x & Hx & Hin).
    apply filter_In in Hin as [Hin _].
    rewrite <- Hx. now apply in_map.
  - apply Forall_forall. intros x Hx.
    apply list_elem_of_In, filter_In in Hx as [Hx _].
    rewrite Forall_forall in Hall. apply Hall. now apply list_elem_of_In.
Qed.

Lemma os_path_exists_eq path w :
  os_path_exists path w
  = (Ok (bool_decide (is_Some (disk w !! path))),
     add_calls [sys_exists path] w).
Proof. reflexivity. Qed.

Lemma read_file_eq path w :
  read_file path w
  = (match disk w !! path with
     | Some c => Ok c
     | None => Raise (OSError path)
     end, add_calls [sys_open_r path] w).
Proof.
  unfold read_file, bind, log_call, add_calls. cbn [disk].
  destruct (disk w !! path); reflexivity.
Qed.

Lemma write_file_eq path c w :
  write_file path c w
  = if bool_decide (path ∈ refused w)
    then (Raise (OSError path),
          with_disk (cut_disk (cuts w) path (disk w))
                    (add_calls [sys_open_w path] w))
    else (Ok tt, with_disk (<[path := c]> (disk w))
                   (add_calls [sys_open_w path] w)).
Proof.
  unfold write_file, bind, log_call, add_calls, set_disk, with_disk, cut_disk.
  cbn [disk refused cuts now ui calls].
  destruct (bool_decide (path ∈ refused w)); [| reflexivity].
  destruct (bool_decide (path ∈ cuts w)); reflexivity.
Qed.

Lemma os_remove_eq path w :
  os_remove path w
  = match disk w !! path with
    | None => (Raise (OSError path), add_calls [sys_remove path] w)
    | Some _ =>
        if bool_decide (path ∈ refused w)
        then (Raise (OSError path), add_calls [sys_remove path] w)
        else (Ok tt, with_disk (delete path (disk w))
                       (add_calls [sys_remove path] w))
    end.
Proof.
  unfold os_remove, bind, log_call, add_calls, set_disk, with_disk.
  cbn [disk refused cuts now ui calls].
  destruct (disk w !! path); [| reflexivity].
  destruct (bool_decide (path ∈ refused w)); reflexivity.
Qed.

Lemma render_eq x w : render x w = (Ok tt, add_ui [x] w).
Proof. reflexivity. Qed.

Lemma datetime_now_eq w : datetime_now w = (Ok (now w), w).
Proof. reflexivity. Qed.

Lemma ret_eq {A} (a : A) w : ret a w = (Ok a, w).
Proof. reflexivity. Qed.

Lemma try_except_eq {A} (m : M A) (h : exn -> M A) w :
  try_except m h w
  = match m w with
    | (Raise e, w') => h e w'
    | r => r
    end.
Proof. reflexivity. Qed.

End store_facts.

(** Rewrites the first call of a sequence with its equation. *)
Ltac step E := rewrite bind_eq, E; cbv beta iota.

(** Projects the fields out of a world built by the functions above. *)
Ltac fields :=
  cbn [fst snd Sys.tick Sys.disk Sys.refused Sys.cuts Sys.now Sys.ui
       Sys.calls View.with_disk View.add_ui View.add_calls].

(** ** The shape of a PIN *)

Section pin_facts.
Import Text Datetime Dict Sys App View.

Lemma all_chars_digits (k : nat) (n : Z) :
  all_chars is_ascii_digit (digits k n) = true.
Proof.
  induction k as [| k IH]; [reflexivity |].
  cbn [digits all_chars]. rewrite IH, andb_true_r.
  apply digit_val_char. apply Z.mod_pos_bound. lia.
Qed.

Lemma length_digits (k : nat) (n : Z) : String.length (digits k n) = k.
Proof.
  induction k as [| k IH]; [reflexivity |].
  cbn [digits String.length]. now rewrite IH.
Qed.

Lemma str_of_int_4 (n : Z) :
  1000 <= n <= 9999 -> str_of_int n = digits 4 n.
Proof.
  intros Hn. unfold str_of_int.
  destruct (Z.ltb_spec n 0) as [? | _]; [lia |].
  f_equal.
  destruct (Z.to_nat n) as [| [| [| [| f]]]] eqn:Hf; try lia.
  cbn [ndigits].
  destruct (Z.ltb_spec n 10) as [? | _]; [lia |].
  destruct (Z.ltb_spec (n / 10) 10) as [? | _];
    [Z.div_mod_to_equations; lia |].
  destruct (Z.ltb_spec (n / 10 / 10) 10) as [? | _];
    [Z.div_mod_to_equations; lia |].
  destruct (Z.ltb_spec (n / 10 / 10 / 10) 10) as [_ | ?];
    [| Z.div_mod_to_equations; lia].
  reflexivity.
Qed.

Lemma randint_range (a b r : Z) : a <= b -> a <= randint a b r <= b.
Proof.
  intros Hab. unfold randint.
  pose proof (Z.mod_pos_bound r (b - a + 1)). lia.
Qed.

Lemma all_ascii_digits_isdigit (s : string) :
  all_chars is_ascii_digit s = true -> all_chars char_isdigit s = true.
Proof.
  induction s as [| c s IH]; [reflexivity |]. cbn [all_chars].
  intros [Hc Hs]%andb_true_iff. rewrite (IH Hs), andb_true_r.
  unfold char_isdigit. now rewrite Hc.
Qed.

(** Four ASCII digits pass the test of the download tab. *)
Lemma four_ascii_digits_pass (s : string) :
  four_ascii_digits s = true -> passes_pin_check s = true.
Proof.
  unfold four_ascii_digits, passes_pin_check.
  intros [Hlen Hall]%andb_true_iff. rewrite Hlen. cbn [andb].
  destruct s as [| c s]; [discriminate |].
  unfold isdigit. now apply all_ascii_digits_isdigit.
Qed.

Lemma four_ascii_digits_digits (n : Z) :
  four_ascii_digits (digits 4 n) = true.
Proof.
  unfold four_ascii_digits, len.
  now rewrite length_digits, all_chars_digits.
Qed.

(** The text of a draw of [generate_pin]. *)
Lemma pin_of_draw (r : Z) :
  exists n, 1000 <= n <= 9999
            /\ randint 1000 9999 r = n
            /\ str_of_int (randint 1000 9999 r) = digits 4 n.
Proof.
  exists (randint 1000 9999 r).
  pose proof (randint_range 1000 9999 r ltac:(lia)) as Hr.
  repeat split; try lia. now apply str_of_int_4.
Qed.

Lemma os_path_join_digit (a : string) (c : ascii) (s : string) :
  is_ascii_digit c = true ->
  os_path_join a (String c s) = a +:+ "/" +:+ String c s.
Proof.
  intros Hc. unfold os_path_join.
  destruct c as [b0 b1 b2 b3 b4 b5 b6 b7].
  destruct b0, b1, b2, b3, b4, b5, b6, b7;
    solve [reflexivity | cbv in Hc; discriminate Hc].
Qed.

(** A blob whose name starts with a digit is not the metadata file. *)
Lemma blob_path_ne_metadata (c : ascii) (s : string) :
  is_ascii_digit c = true ->
  os_path_join STORAGE_DIR (String c s) <> METADATA_FILE.
Proof.
  intros Hc Heq. rewrite os_path_join_digit in Heq by exact Hc.
  vm_compute in Heq. injection Heq as Heq _. subst c.
  cbv in Hc. discriminate Hc.
Qed.

End pin_facts.


(** ** The PIN allocator *)

Section generate_pin_facts.
Import Text Datetime Dict Sys App View.

Lemma generate_pin_loop_eq (tbl : table) (draws : list Z) (w : World) :
  generate_pin_loop tbl draws w
  = (match first_free tbl draws with
     | Some r => Ok (draw_pin r)
     | None => Looping
     end, w).
Proof.
  induction draws as [| r draws IH]; [reflexivity |].
  cbn [generate_pin_loop first_free List.find]. fold (draw_pin r).
  destruct (negb (contains (draw_pin r) tbl)); [reflexivity |].
  exact IH.
Qed.

Lemma generate_pin_eq (draws : list Z) (w : World) :
  generate_pin draws w
  = (match first_free (stored_table (disk w)) draws with
     | Some r => Ok (draw_pin r)
     | None => Looping
     end,
     add_ui (load_ui (disk w)) (add_calls (load_calls (disk w)) w)).
Proof.
  unfold generate_pin. step load_file_metadata_eq.
  apply generate_pin_loop_eq.
Qed.

Lemma first_free_Some (tbl : table) (draws : list Z) (r : Z) :
  first_free tbl draws = Some r ->
  In r draws /\ contains (draw_pin r) tbl = false.
Proof.
  intros H. apply find_some in H as [Hin Hfree].
  split; [exact Hin |]. now apply negb_true_iff.
Qed.

Lemma first_free_Exists (tbl : table) (draws : list Z) :
  Exists (fun r => contains (draw_pin r) tbl = false) draws ->
  exists r, first_free tbl draws = Some r.
Proof.
  induction 1 as [r draws Hr | r draws _ IH]; cbn [first_free List.find].
  - rewrite Hr. eauto.
  - destruct (negb (contains (draw_pin r) tbl)); [eauto | exact IH].
Qed.

Lemma first_free_None (tbl : table) (draws : list Z) :
  (forall n, 1000 <= n <= 9999 -> contains (str_of_int n) tbl = true) ->
  first_free tbl draws = None.
Proof.
  intros Hfull. induction draws as [| r draws IH]; [reflexivity |].
  cbn [first_free List.find]. unfold draw_pin at 1.
  rewrite Hfull by (apply randint_range; lia). exact IH.
Qed.

(** The text of a number from 1000 to 9999 does not start with a zero. *)
Lemma digits_4_head (n : Z) :
  1000 <= n <= 9999 ->
  exists c s, digits 4 n = String c s /\ is_ascii_digit c = true
              /\ c <> "0"%char.
Proof.
  intros Hn. cbn [digits]. eexists _, _. split; [reflexivity |].
  change (10 ^ Z.of_nat 3) with 1000.
  assert (0 <= (n / 1000) mod 10 < 10) as Hd
    by (apply Z.mod_pos_bound; lia).
  destruct (digit_val_char _ Hd) as [Hdig Hval].
  split; [exact Hdig |].
  intros Heq. rewrite Heq in Hval.
  change (digit_val "0") with 0 in Hval.
  Z.div_mod_to_equations. lia.
Qed.

Lemma draw_pin_digits (r : Z) :
  draw_pin r = digits 4 (randint 1000 9999 r).
Proof.
  unfold draw_pin. apply str_of_int_4. apply randint_range. lia.
Qed.

Lemma draw_pin_four_ascii_digits (r : Z) :
  four_ascii_digits (draw_pin r) = true.
Proof. rewrite draw_pin_digits. apply four_ascii_digits_digits. Qed.

(** Every number from 1000 to 9999 is the candidate of some draw. *)
Lemma draw_pin_onto (n : Z) :
  1000 <= n <= 9999 -> draw_pin (n - 1000) = str_of_int n.
Proof.
  intros Hn. unfold draw_pin, randint. f_equal.
  rewrite Z.mod_small by lia. lia.
Qed.

(** A free number from 1000 to 9999 is hit by a draw. *)
Lemma free_pin_can_be_drawn (tbl : table) (n : Z) :
  1000 <= n <= 9999 ->
  contains (str_of_int n) tbl = false ->
  Exists (fun r => contains (draw_pin r) tbl = false) [n - 1000].
Proof.
  intros Hn Hfree. apply Exists_cons_hd. now rewrite draw_pin_onto.
Qed.

End generate_pin_facts.


Section snapshot_facts.
Import Text Datetime Dict Sys App View.

Lemma In_set_inv {V : Type} (kv : string * V) k v (d : dict V) :
  In kv (Dict.set k v d) -> kv = (k, v) \/ In kv d.
Proof.
  induction d as [| [k' v'] d IH]; cbn [Dict.set In].
  - intros [<- | []]. now left.
  - destruct (String.eqb k k'); cbn [In].
    + intros [<- | H]; [now left | right; now right].
    + intros [<- | H]; [right; now left |].
      destruct (IH H) as [-> | H']; [now left | right; now right].
Qed.

Lemma In_of_pairs {V : Type} (kv : string * V) (l : list (string * V)) :
  In kv (of_pairs l) -> In kv l.
Proof.
  unfold of_pairs.
  enough (forall d, In kv (fold_left
            (fun acc kv => Dict.set (fst kv) (snd kv) acc) l d)
          -> In kv d \/ In kv l) as H.
  { intros Hin. destruct (H [] Hin) as [[] | Hl]. exact Hl. }
  induction l as [| [k v] l IH]; intros d; cbn [fold_left fst snd In].
  - tauto.
  - intros Hin. destruct (IH _ Hin) as [Hs | Hl]; [| tauto].
    destruct (In_set_inv _ _ _ _ Hs) as [-> | Hd]; tauto.
Qed.

Lemma decode_total (data : list (string * file_info string)) :
  Forall (fun kv => is_Some (fromisoformat (upload_time (snd kv)))) data ->
  exists t, decode data = Some t.
Proof.
  induction 1 as [| item data [u Hu] _ [t IH]]; cbn [decode].
  - eauto.
  - unfold decode_entry. rewrite Hu, IH. eauto.
Qed.

(** The keys of the table read from a well-formed snapshot are the names of
    its members. *)
Lemma contains_stored_snapshot d members k :
  d !! METADATA_FILE = Some (Snapshot members) ->
  Forall (fun kv => is_Some (fromisoformat (upload_time (snd kv)))) members ->
  contains k (stored_table d) = true <-> In k (map fst members).
Proof.
  intros Hd Hall. unfold stored_table, read_table. rewrite Hd.
  destruct (decode_total (of_pairs members)) as [t Ht].
  { apply Forall_forall. intros kv Hin.
    rewrite Forall_forall in Hall. apply Hall.
    apply list_elem_of_In. apply In_of_pairs. now apply list_elem_of_In. }
  rewrite Ht, contains_true, (decode_keys _ _ Ht).
  apply (keys_of_pairs_In k members).
Qed.

Lemma full_world_taken (n : Z) :
  1000 <= n <= 9999 ->
  contains (str_of_int n) (stored_table (disk full_world)) = true.
Proof.
  intros Hn.
  apply (contains_stored_snapshot _ full_members).
  - apply lookup_singleton_eq.
  - apply Forall_forall. intros kv Hin.
    apply list_elem_of_In, in_map_iff in Hin as (i & <- & _).
    cbn [snd upload_time]. vm_compute. eauto.
  - unfold full_members. rewrite map_map. cbn [fst].
    apply in_map_iff. exists (Z.to_nat (n - 1000)). split.
    + f_equal. lia.
    + apply in_seq. lia.
Qed.

End snapshot_facts.


(** ** Upload and download *)

Section transfer_facts.
Import Text Datetime Dict Sys App View.

Lemma get_stored_load_ui d k (v : file_info datetime) :
  get k (stored_table d) = Some v -> load_ui d = [].
Proof.
  unfold stored_table, load_ui.
  destruct (read_table d); [discriminate | reflexivity].
Qed.

Lemma get_del {V : Type} k (d d' : dict V) :
  NoDup (keys d) -> del k d = Some d' ->
  get k d' = None /\ forall k', k' <> k -> get k' d' = get k' d.
Proof.
  revert d'. induction d as [| [k0 v0] d IH]; intros d' Hnd;
    cbn [del keys map fst] in *; [discriminate |].
  apply NoDup_cons in Hnd as [Hnotin Hnd].
  destruct (String.eqb_spec k k0) as [-> | Hne].
  - intros [= <-]. split.
    + apply get_None_keys. intros Hin. apply Hnotin.
      now apply list_elem_of_In.
    + intros k' Hk'. cbn [get].
      destruct (String.eqb_spec k' k0); [contradiction | reflexivity].
  - destruct (del k d) as [d'' |] eqn:Hdel; [| discriminate].
    intros [= <-]. destruct (IH d'' Hnd eq_refl) as [Hk Hother].
    split; cbn [get].
    + destruct (String.eqb_spec k k0); [contradiction | exact Hk].
    + intros k' Hk'. destruct (String.eqb_spec k' k0); [reflexivity |].
      now apply Hother.
Qed.

Lemma table_ok_del k (tbl tbl' : table) :
  table_ok tbl -> del k tbl = Some tbl' -> table_ok tbl'.
Proof.
  intros Hok Hdel. rewrite (del_filter _ _ _ (proj1 Hok) Hdel).
  now apply table_ok_filter.
Qed.

Lemma save_file_with_pin_eq (file : UploadedFile) (pin : string) (w : World) :
  save_file_with_pin file pin w
  = let path := blob_path pin (uf_name file) in
    if bool_decide (path ∈ refused w)
    then (Raise (Exception (fstring "Failed to save file: "
                                    (str_exn (OSError path)))),
          with_disk (cut_disk (cuts w) path (disk w))
                    (add_calls [sys_open_w path] w))
    else
      let w1 := with_disk (<[path := Blob (uf_getvalue file)]> (disk w))
                  (add_calls [sys_open_w path] w) in
      let w2 := add_ui (load_ui (disk w1))
                  (add_calls (load_calls (disk w1)) w1) in
      (Ok path,
       snd (save_file_metadata
              (Dict.set pin (new_info file pin (now w))
                        (stored_table (disk w1))) w2)).
Proof.
  unfold save_file_with_pin. fold (blob_path pin (uf_name file)).
  rewrite try_except_eq. step write_file_eq.
  destruct (bool_decide (blob_path pin (uf_name file) ∈ refused w));
    [reflexivity |].
  step load_file_metadata_eq. step datetime_now_eq.
  rewrite bind_eq, !save_file_metadata_eq. reflexivity.
Qed.

Lemma get_file_by_pin_eq pin w :
  get_file_by_pin pin w
  = (Ok (get pin (stored_table (disk w))),
     add_ui (load_ui (disk w)) (add_calls (load_calls (disk w)) w)).
Proof. unfold get_file_by_pin. step load_file_metadata_eq. reflexivity. Qed.

Lemma passes_pin_check_nonempty pin :
  passes_pin_check pin = true -> exists c s, pin = String c s.
Proof. destruct pin; [discriminate | eauto]. Qed.

(** The download tab when the PIN is known and its blob is on disk. *)
Lemma download_tab_found pin w info c :
  passes_pin_check pin = true ->
  get pin (stored_table (disk w)) = Some info ->
  disk w !! filepath info = Some c ->
  download_tab pin w
  = (Ok tt,
     add_ui [st_success "PIN verified! File found.";
             st_download_button c (filename info) (type info)]
       (add_calls (load_calls (disk w)
                   ++ [sys_exists (filepath info);
                       sys_open_r (filepath info)]) w)).
Proof.
  intros Hcheck Hget Hblob.
  destruct (passes_pin_check_nonempty pin Hcheck) as (a & s & ->).
  unfold download_tab. fold (passes_pin_check (String a s)).
  rewrite Hcheck. step get_file_by_pin_eq. rewrite Hget.
  rewrite (get_stored_load_ui _ _ _ Hget), add_ui_nil.
  step os_path_exists_eq. cbn [disk add_calls].
  rewrite bool_decide_true by (rewrite Hblob; eauto).
  step render_eq. rewrite try_except_eq. step read_file_eq.
  cbn [disk add_ui add_calls]. rewrite Hblob.
  rewrite render_eq. unfold add_ui, add_calls. cbn [disk refused cuts now ui calls].
  now rewrite <- !app_assoc.
Qed.

(** The download tab when the PIN is known and its blob is gone. *)
Lemma download_tab_missing pin w info tbl' :
  passes_pin_check pin = true ->
  get pin (stored_table (disk w)) = Some info ->
  disk w !! filepath info = None ->
  del pin (stored_table (disk w)) = Some tbl' ->
  download_tab pin w
  = (Ok tt,
     snd (save_file_metadata tbl'
            (add_ui [st_error "File not found on disk.";
                     st_info "The file may have been moved or deleted from storage."]
               (add_calls (load_calls (disk w)
                           ++ [sys_exists (filepath info)]
                           ++ load_calls (disk w)) w)))).
Proof.
  intros Hcheck Hget Hblob Hdel.
  destruct (passes_pin_check_nonempty pin Hcheck) as (a & s & ->).
  unfold download_tab. fold (passes_pin_check (String a s)).
  rewrite Hcheck. step get_file_by_pin_eq. rewrite Hget.
  rewrite (get_stored_load_ui _ _ _ Hget), add_ui_nil.
  step os_path_exists_eq. cbn [disk add_calls].
  rewrite bool_decide_false by (rewrite Hblob; intros [? ?]; discriminate).
  step render_eq. step render_eq. step load_file_metadata_eq.
  cbn [disk add_ui add_calls].
  rewrite (get_stored_load_ui _ _ _ Hget).
  unfold contains. rewrite Hget, Hdel.
  rewrite !save_file_metadata_eq. cbn [snd refused disk add_ui add_calls].
  f_equal. destruct (bool_decide (METADATA_FILE ∈ refused w));
    cbv [add_ui add_calls with_disk disk refused cuts now ui calls];
    now rewrite ?app_nil_r, <- ?app_assoc.
Qed.

End transfer_facts.


(** * The properties of the specification *)

Section transfer_claims.
Import Text Datetime Dict Sys App View.

#[local] Instance table_ok_dec (tbl : table) : Decision (table_ok tbl).
Proof. unfold table_ok. apply _. Defined.

(** C1.  Registering a file and then fetching by the PIN that was returned
    gives back exactly the bytes that were uploaded: after [upload] has
    returned a PIN and the metadata file could be written, the download tab
    run with that PIN, at any later clock reading, renders the download
    button with the uploaded bytes, name and type. *)
Theorem upload_then_download_returns_payload
    (w : World) (file : UploadedFile) (draws : list Z) (pin : string)
    (w1 : World) (t : datetime) :
  datetime_ok (now w) = true ->
  METADATA_FILE ∉ refused w ->
  upload file draws w = (Ok pin, w1) ->
  exists w2,
    download_tab pin (tick t w1) = (Ok tt, w2)
    /\ ui w2 = ui w1 ++ [st_success "PIN verified! File found.";
                         st_download_button (Blob (uf_getvalue file))
                                            (uf_name file) (uf_type file)].
Proof.
  intros Hnow Hmeta Hup.
  unfold upload in Hup. rewrite bind_eq, generate_pin_eq in Hup.
  destruct (first_free (stored_table (disk w)) draws) as [r |] eqn:Hfree;
    [| discriminate].
  rewrite bind_eq, save_file_with_pin_eq in Hup.
  cbv zeta in Hup. cbn [refused add_ui add_calls] in Hup.
  destruct (bool_decide (blob_path (draw_pin r) (uf_name file) ∈ refused w));
    [discriminate |].
  rewrite save_file_metadata_eq in Hup.
  cbn [snd refused add_ui add_calls with_disk disk now ui calls] in Hup.
  rewrite bool_decide_false in Hup by exact Hmeta.
  unfold ret in Hup. injection Hup as <- <-.
  set (path := blob_path (draw_pin r) (uf_name file)).
  set (info := new_info file (draw_pin r) (now w)).
  assert (path <> METADATA_FILE) as Hpath.
  { unfold path, blob_path. rewrite draw_pin_digits.
    destruct (digits_4_head (randint 1000 9999 r)) as (c & s & -> & Hc & _).
    { apply randint_range. lia. }
    rewrite append_String. now apply blob_path_ne_metadata. }
  assert (table_ok (Dict.set (draw_pin r) info
            (stored_table (<[path := Blob (uf_getvalue file)]> (disk w)))))
    as Hok.
  { apply table_ok_set; [exact Hnow | apply stored_table_ok]. }
  eexists. split.
  - apply (download_tab_found _ _ info (Blob (uf_getvalue file))).
    + apply four_ascii_digits_pass, draw_pin_four_ascii_digits.
    + fields. rewrite stored_table_saved by exact Hok.
      apply get_set_eq.
    + fields. cbn [info new_info filepath]. fold path.
      rewrite lookup_insert_ne by congruence. apply lookup_insert_eq.
  - fields. reflexivity.
Qed.

Lemma upload_then_download_returns_payload_witness :
  datetime_ok (now empty_world) = true
  /\ (METADATA_FILE ∉ refused empty_world)
  /\ upload sample_file [234] empty_world
     = (Ok "1234", snd (upload sample_file [234] empty_world))
  /\ exists w2,
       download_tab "1234"
         (tick evening (snd (upload sample_file [234] empty_world)))
       = (Ok tt, w2)
       /\ ui w2
          = ui (snd (upload sample_file [234] empty_world))
            ++ [st_success "PIN verified! File found.";
                st_download_button (Blob (uf_getvalue sample_file))
                                   (uf_name sample_file)
                                   (uf_type sample_file)].
Proof.
  assert (H1 : datetime_ok (now empty_world) = true) by reflexivity.
  assert (H2 : METADATA_FILE ∉ refused empty_world) by (vm_compute; set_solver).
  assert (H3 : upload sample_file [234] empty_world
               = (Ok "1234", snd (upload sample_file [234] empty_world)))
    by (vm_compute; reflexivity).
  split; [exact H1 |]. split; [exact H2 |]. split; [exact H3 |].
  exact (upload_then_download_returns_payload
           empty_world sample_file [234] "1234" _ evening H1 H2 H3).
Defined.

(** C6 as stated fails on the empty input: the handler renders nothing for
    it, so no InvalidPin warning is shown. *)
Lemma empty_pin_gets_no_warning :
  four_ascii_digits "" = false
  /\ download_tab "" empty_world = (Ok tt, empty_world).
Proof. split; reflexivity. Qed.

(** An input of four characters that [str.isdigit] accepts goes on to the
    store although it is not made of ASCII digits. *)
Lemma superscript_pin_reaches_store :
  four_ascii_digits superscript_twos = false
  /\ passes_pin_check superscript_twos = true
  /\ calls (snd (download_tab superscript_twos empty_world))
     = [sys_exists METADATA_FILE].
Proof. repeat split; vm_compute; reflexivity. Qed.

(** C6, amended.  Every input that fails the test of the handler ([len ==
    4] and [str.isdigit]) is turned away before any lookup: the disk is
    unchanged and no file-system call is made.  A non-empty input gets the
    warning "Please enter a valid 4-digit PIN"; the empty input gets
    nothing. *)
Theorem malformed_pin_never_reaches_store (pin : string) (w : World) :
  passes_pin_check pin = false ->
  exists w',
    download_tab pin w = (Ok tt, w')
    /\ disk w' = disk w
    /\ calls w' = calls w
    /\ ui w' = ui w ++ match pin with
                       | EmptyString => []
                       | _ => [st_warning "Please enter a valid 4-digit PIN"]
                       end.
Proof.
  intros Hcheck. destruct pin as [| c s].
  - exists w. cbn [download_tab]. rewrite app_nil_r. repeat split.
  - unfold download_tab. fold (passes_pin_check (String c s)).
    rewrite Hcheck, render_eq. eexists. split; [reflexivity |].
    fields. repeat split.
Qed.

Lemma malformed_pin_never_reaches_store_witness :
  passes_pin_check "12a4" = false
  /\ exists w',
       download_tab "12a4" stale_world = (Ok tt, w')
       /\ disk w' = disk stale_world
       /\ calls w' = calls stale_world
       /\ ui w' = ui stale_world
                  ++ [st_warning "Please enter a valid 4-digit PIN"].
Proof.
  split; [reflexivity |].
  exact (malformed_pin_never_reaches_store "12a4" stale_world eq_refl).
Defined.

(** C7.  For a well-formed PIN whose record is in the table while its blob
    is not on disk, the download tab answers "File not found on disk" (no
    download button), and the entry of that PIN is gone from the persisted
    table; the other entries and the other files are untouched. *)
Theorem missing_blob_purges_its_record
    (w : World) (pin : string) (info : file_info datetime) :
  four_ascii_digits pin = true ->
  get pin (stored_table (disk w)) = Some info ->
  disk w !! filepath info = None ->
  METADATA_FILE ∉ refused w ->
  exists w',
    download_tab pin w = (Ok tt, w')
    /\ ui w' = ui w ++ [st_error "File not found on disk.";
                        st_info "The file may have been moved or deleted from storage."]
    /\ get pin (stored_table (disk w')) = None
    /\ (forall pin', pin' <> pin ->
          get pin' (stored_table (disk w')) = get pin' (stored_table (disk w)))
    /\ (forall path, path <> METADATA_FILE -> disk w' !! path = disk w !! path).
Proof.
  intros Hpin Hget Hblob Hmeta.
  pose proof (stored_table_ok (disk w)) as Hok.
  destruct (del_Some pin (stored_table (disk w))) as [tbl' Hdel].
  { apply get_Some_In in Hget as Hin.
    apply (in_map fst) in Hin. exact Hin. }
  destruct (get_del _ _ _ (proj1 Hok) Hdel) as [Hgone Hother].
  eexists. split.
  { apply (download_tab_missing pin w info tbl');
      [now apply four_ascii_digits_pass | assumption ..]. }
  rewrite save_file_metadata_eq. fields.
  rewrite bool_decide_false by exact Hmeta. fields.
  rewrite stored_table_saved by (apply (table_ok_del pin _ _ Hok Hdel)).
  repeat split; try assumption.
  intros path Hpath. now rewrite lookup_insert_ne.
Qed.

Lemma missing_blob_purges_its_record_witness :
  four_ascii_digits "4821" = true
  /\ (exists info,
        get "4821" (stored_table (disk stale_world)) = Some info
        /\ disk stale_world !! filepath info = None)
  /\ (METADATA_FILE ∉ refused stale_world)
  /\ exists w',
       download_tab "4821" stale_world = (Ok tt, w')
       /\ get "4821" (stored_table (disk w')) = None.
Proof.
  assert (H1 : four_ascii_digits "4821" = true) by reflexivity.
  assert (H2 : get "4821" (stored_table (disk stale_world))
               = Some (mk_file_info "a.txt"
                         "/tmp/streamlit_file_transfer/4821_a.txt" 1
                         (mk_datetime 2024 3 1 8 0 0 0) None))
    by (vm_compute; reflexivity).
  assert (H3 : disk stale_world !! "/tmp/streamlit_file_transfer/4821_a.txt"
               = None) by (vm_compute; reflexivity).
  assert (H4 : METADATA_FILE ∉ refused stale_world)
    by (vm_compute; set_solver).
  split; [exact H1 |]. split; [eexists; split; [exact H2 | exact H3] |].
  split; [exact H4 |].
  destruct (missing_blob_purges_its_record stale_world "4821" _ H1 H2 H3 H4)
    as (w' & Hrun & _ & Hgone & _).
  exists w'. split; [exact Hrun | exact Hgone].
Defined.

(** C8.  Saving a table and loading it again gives back, for every record,
    exactly the [upload_time] that was saved (and no record more). *)
Theorem save_then_load_keeps_upload_time (w : World) (tbl : table) :
  table_ok tbl ->
  METADATA_FILE ∉ refused w ->
  exists tbl' w',
    load_file_metadata (snd (save_file_metadata tbl w)) = (Ok tbl', w')
    /\ (forall pin info,
          get pin tbl = Some info ->
          exists info',
            get pin tbl' = Some info'
            /\ upload_time info' = upload_time info)
    /\ (forall pin, get pin tbl = None -> get pin tbl' = None).
Proof.
  intros Hok Hmeta. rewrite save_file_metadata_eq. cbn [snd].
  rewrite bool_decide_false by exact Hmeta.
  rewrite load_file_metadata_eq. fields.
  rewrite stored_table_saved by exact Hok.
  eexists _, _. split; [reflexivity |]. split.
  - intros pin info Hget. eauto.
  - intros pin Hget. exact Hget.
Qed.

Lemma save_then_load_keeps_upload_time_witness :
  table_ok sample_table
  /\ (METADATA_FILE ∉ refused empty_world)
  /\ exists tbl' w',
       load_file_metadata (snd (save_file_metadata sample_table empty_world))
       = (Ok tbl', w')
       /\ exists info',
            get "4821" tbl' = Some info'
            /\ upload_time info' = mk_datetime 2024 3 1 8 0 0 123456.
Proof.
  assert (H1 : table_ok sample_table) 
    by (apply (bool_decide_unpack _); vm_compute; exact I).
  assert (H2 : METADATA_FILE ∉ refused empty_world)
    by (vm_compute; set_solver).
  split; [exact H1 |]. split; [exact H2 |].
  destruct (save_then_load_keeps_upload_time empty_world sample_table H1 H2)
    as (tbl' & w' & Hload & Hkeep & _).
  exists tbl', w'. split; [exact Hload |].
  exact (Hkeep "4821" _ eq_refl).
Defined.

(** C9 as stated fails: with a metadata file that cannot be written,
    [save_file_metadata] returns normally, and so does its caller
    [save_file_with_pin], which reports the upload as done. *)
Lemma save_failure_reaches_no_caller :
  METADATA_FILE ∈ refused readonly_world
  /\ fst (save_file_metadata sample_table readonly_world) = Ok tt
  /\ fst (save_file_with_pin sample_file "1234" readonly_world)
     = Ok "/tmp/streamlit_file_transfer/1234_report.pdf"
  /\ stored_table (disk (snd (save_file_with_pin sample_file "1234"
                                                 readonly_world))) = [].
Proof.
  split; [vm_compute; set_solver |].
  repeat split; vm_compute; reflexivity.
Qed.

(** C9, amended.  A failure to write the metadata file, be it at [open]
    (permission denied) or after it (disk full), is caught inside
    [save_file_metadata]: the function renders
    [f"Error saving metadata: {e}"] with [st.error] and returns normally, so
    the caller sees no error.  No other file changes.  When [open] failed the
    metadata file is as it was; when the write failed after [open] the file
    is left cut, and the table it held is lost. *)
Theorem save_failure_is_rendered_not_raised (tbl : table) (w : World) :
  METADATA_FILE ∈ refused w ->
  exists w',
    save_file_metadata tbl w = (Ok tt, w')
    /\ ui w' = ui w ++ [st_error (fstring "Error saving metadata: "
                                          (str_exn (OSError METADATA_FILE)))]
    /\ (forall path, path <> METADATA_FILE -> disk w' !! path = disk w !! path)
    /\ ((METADATA_FILE ∉ cuts w) -> disk w' = disk w)
    /\ (METADATA_FILE ∈ cuts w ->
        disk w' !! METADATA_FILE = Some Cut /\ stored_table (disk w') = []).
Proof.
  intros Hmeta. rewrite save_file_metadata_eq.
  rewrite bool_decide_true by exact Hmeta.
  eexists. split; [reflexivity |]. fields.
  split; [reflexivity |]. split; [| split].
  - intros path Hne. now apply cut_disk_lookup_ne.
  - intros Hcut. unfold cut_disk. now rewrite bool_decide_false by exact Hcut.
  - intros Hcut. unfold cut_disk. rewrite bool_decide_true by exact Hcut.
    split; [apply lookup_insert_eq |].
    unfold stored_table, read_table. now rewrite lookup_insert_eq.
Qed.

Lemma save_failure_is_rendered_not_raised_witness :
  METADATA_FILE ∈ refused disk_full_world
  /\ exists w',
       save_file_metadata sample_table disk_full_world = (Ok tt, w')
       /\ ui w' = ui disk_full_world
                  ++ [st_error (fstring "Error saving metadata: "
                                        (str_exn (OSError METADATA_FILE)))]
       /\ (forall path, path <> METADATA_FILE ->
                        disk w' !! path = disk disk_full_world !! path)
       /\ ((METADATA_FILE ∉ cuts disk_full_world) ->
           disk w' = disk disk_full_world)
       /\ (METADATA_FILE ∈ cuts disk_full_world ->
           disk w' !! METADATA_FILE = Some Cut
           /\ stored_table (disk w') = []).
Proof.
  assert (H : METADATA_FILE ∈ refused disk_full_world)
    by (vm_compute; set_solver).
  split; [exact H |].
  exact (save_failure_is_rendered_not_raised sample_table disk_full_world H).
Defined.

End transfer_claims.


Section allocator_claims.
Import Text Datetime Dict Sys App View.

(** C3 as stated fails: "0000" is free in an empty store, yet no run of
    [generate_pin] returns it. *)
Lemma zero_pin_is_never_allocated :
  contains "0000" (stored_table (disk empty_world)) = false
  /\ ~ exists draws w', generate_pin draws empty_world = (Ok "0000", w').
Proof.
  split; [reflexivity |]. intros (draws & w' & Hrun).
  rewrite generate_pin_eq in Hrun.
  destruct (first_free _ draws) as [r |]; [| discriminate].
  injection Hrun as Hpin _. rewrite draw_pin_digits in Hpin.
  destruct (digits_4_head (randint 1000 9999 r)) as (c & s & Hd & _ & Hc).
  { apply randint_range. lia. }
  rewrite Hd in Hpin. injection Hpin as Hc' _. contradiction.
Qed.

(** C3, amended.  When one of the draws falls on a free PIN,
    [generate_pin] returns: its PIN is the decimal text of a number that
    [random.randint(1000, 9999)] gave, so one of the 9,000 values "1000" to
    "9999"; it is made of 4 ASCII digits and is not a key of the table read
    at the start of the call.  The disk is left as it was. *)
Theorem generate_pin_returns_a_free_pin (w : World) (draws : list Z) :
  Exists (fun r => contains (draw_pin r) (stored_table (disk w)) = false)
         draws ->
  exists n pin w',
    generate_pin draws w = (Ok pin, w')
    /\ 1000 <= n <= 9999
    /\ pin = str_of_int n
    /\ four_ascii_digits pin = true
    /\ contains pin (stored_table (disk w)) = false
    /\ disk w' = disk w.
Proof.
  intros Hfree. destruct (first_free_Exists _ _ Hfree) as [r Hr].
  exists (randint 1000 9999 r), (draw_pin r). eexists.
  rewrite generate_pin_eq, Hr. split; [reflexivity |].
  destruct (first_free_Some _ _ _ Hr) as [_ Habsent].
  split; [apply randint_range; lia |].
  split; [reflexivity |].
  split; [apply draw_pin_four_ascii_digits |].
  split; [exact Habsent | reflexivity].
Qed.

Lemma generate_pin_returns_a_free_pin_witness :
  Exists (fun r => contains (draw_pin r) (stored_table (disk stale_world))
                   = false) [3821; 234]
  /\ exists w',
       generate_pin [3821; 234] stale_world = (Ok "1234", w')
       /\ disk w' = disk stale_world.
Proof.
  assert (H : Exists (fun r => contains (draw_pin r)
                                 (stored_table (disk stale_world)) = false)
                     [3821; 234])
    by (apply Exists_cons_tl, Exists_cons_hd; vm_compute; reflexivity).
  split; [exact H |].
  destruct (generate_pin_returns_a_free_pin stale_world [3821; 234] H)
    as (n & pin & w' & Hrun & _ & _ & _ & _ & Hdisk).
  exists w'. split; [| exact Hdisk].
  rewrite Hrun. f_equal. f_equal.
  assert (fst (generate_pin [3821; 234] stale_world) = Ok "1234") as Hfst
    by (vm_compute; reflexivity).
  rewrite Hrun in Hfst. cbn [fst] in Hfst. now injection Hfst.
Defined.

(** C4 as stated fails: with every PIN from 1000 to 9999 taken, no supply
    of draws makes [generate_pin] end, be it with a PIN or with an error. *)
Lemma allocator_never_ends_on_full_table :
  ~ exists draws, fst (generate_pin draws full_world) <> Looping.
Proof.
  intros (draws & Hend). apply Hend.
  rewrite generate_pin_eq. cbn [fst].
  now rewrite (first_free_None _ draws full_world_taken).
Qed.

(** C4, amended.  When every PIN from 1000 to 9999 is a key of the table,
    [generate_pin] keeps drawing: however many draws it is given, it has
    neither returned nor raised, and the disk is as it was.  There is no
    PinSpaceExhausted error. *)
Theorem generate_pin_loops_on_full_table (w : World) (draws : list Z) :
  (forall n, 1000 <= n <= 9999 ->
             contains (str_of_int n) (stored_table (disk w)) = true) ->
  exists w', generate_pin draws w = (Looping, w') /\ disk w' = disk w.
Proof.
  intros Hfull. rewrite generate_pin_eq, (first_free_None _ draws Hfull).
  eexists. split; reflexivity.
Qed.

Lemma generate_pin_loops_on_full_table_witness :
  (forall n, 1000 <= n <= 9999 ->
             contains (str_of_int n) (stored_table (disk full_world)) = true)
  /\ exists w',
       generate_pin [0; 4500; 8999; 9000] full_world = (Looping, w')
       /\ disk w' = disk full_world.
Proof.
  split; [exact full_world_taken |].
  exact (generate_pin_loops_on_full_table full_world [0; 4500; 8999; 9000]
           full_world_taken).
Defined.

(** C5 fails on the code.  Two sessions upload at the same time and draw
    the same number.  Run one after the other, they get two PINs; with the
    calls interleaved (both allocate, then both save) they both end with
    PIN "1234", and the record of the first upload is overwritten by the
    second.  [file_lock] is held only inside [save_file_metadata]. *)
Theorem interleaved_uploads_get_the_same_pin :
  let a := Allocating sample_file [234; 235] in
  let b := Allocating other_file [234; 235] in
  fst (interleave [true; true; false; false] a b empty_world)
  = (Uploaded "1234", Uploaded "1235")
  /\ fst (interleave [true; false; true; false] a b empty_world)
     = (Uploaded "1234", Uploaded "1234")
  /\ keys (stored_table
             (disk (snd (interleave [true; false; true; false] a b
                                    empty_world))))
     = ["1234"]
  /\ (filename <$>
        get "1234"
          (stored_table
             (disk (snd (interleave [true; false; true; false] a b
                                    empty_world)))))
     = Some "notes.txt".
Proof. repeat split; vm_compute; reflexivity. Qed.

End allocator_claims.


(** ** The sweep *)

Section sweep_facts.
Import Text Datetime Dict Sys App View.

Lemma remove_if_present_eq path w :
  (if bool_decide (is_Some (disk w !! path))
   then try_except (os_remove path)
          (fun e => match e with OSError _ => ret tt | _ => raise e end)
   else ret tt) (add_calls [sys_exists path] w)
  = (Ok tt,
     with_disk (remove_blob (refused w) path (disk w))
       (add_calls (sys_exists path
                   :: match disk w !! path with
                      | Some _ => [sys_remove path]
                      | None => []
                      end) w)).
Proof.
  unfold remove_blob.
  destruct (disk w !! path) as [c |] eqn:Hc.
  - rewrite bool_decide_true by eauto.
    rewrite try_except_eq, os_remove_eq. fields. rewrite Hc.
    destruct (bool_decide (path ∈ refused w));
      unfold ret, with_disk, add_calls; cbn [disk refused cuts now ui calls];
      now rewrite <- ?app_assoc.
  - rewrite bool_decide_false by (intros [? ?]; discriminate).
    destruct w; reflexivity.
Qed.

Lemma cleanup_scan_eq current_time (items : table) :
  forall (acc : list string) (w : World),
    cleanup_scan current_time items acc w
    = (Ok (acc ++ map fst (expired_items current_time items)),
       with_disk (scan_disk current_time items (refused w) (disk w))
         (add_calls (scan_calls current_time items (refused w) (disk w)) w)).
Proof.
  induction items as [| [pin info] items IH]; intros acc w.
  - cbn [cleanup_scan expired_items List.filter map scan_disk scan_calls].
    rewrite app_nil_r. destruct w.
    unfold ret, with_disk, add_calls. cbn. now rewrite app_nil_r.
  - cbn [cleanup_scan expired_items List.filter snd scan_disk scan_calls].
    destruct (expired current_time info).
    + step os_path_exists_eq. rewrite bind_eq, remove_if_present_eq.
      rewrite IH. fields. cbn [map fst]. fold (expired_items current_time items).
      rewrite <- app_assoc. cbn [app]. f_equal.
      unfold with_disk, add_calls. cbn [disk refused cuts now ui calls].
      now rewrite <- app_assoc.
    + rewrite IH. reflexivity.
Qed.

Lemma del_app_fresh {V : Type} k (v : V) (pre d : dict V) :
  ~ In k (keys pre) -> del k (pre ++ (k, v) :: d) = Some (pre ++ d).
Proof.
  induction pre as [| [k' v'] pre IH]; cbn [app del keys map fst In].
  - intros _. now rewrite String.eqb_refl.
  - intros Hnotin. destruct (String.eqb_spec k k') as [-> | Hne].
    + exfalso. apply Hnotin. now left.
    + rewrite IH; [reflexivity |]. intros Hin. apply Hnotin. now right.
Qed.

Lemma cleanup_del_eq (p : string * file_info datetime -> bool)
    (tbl : table) (w : World) :
  forall pre : table,
    NoDup (keys (pre ++ tbl)) ->
    cleanup_del (map fst (List.filter p tbl)) (pre ++ tbl) w
    = (Ok (pre ++ List.filter (fun kv => negb (p kv)) tbl), w).
Proof.
  induction tbl as [| [k v] tbl IH]; intros pre Hnd.
  - reflexivity.
  - cbn [List.filter]. destruct (p (k, v)) eqn:Hp; cbn [negb map fst].
    + cbn [cleanup_del]. rewrite del_app_fresh.
      * apply IH. rewrite keys_app in *. cbn [keys map fst] in Hnd.
        apply NoDup_app in Hnd as (Hpre & Hdisj & Htl).
        apply NoDup_cons in Htl as [_ Htl].
        apply NoDup_app. repeat split; try assumption.
        intros x Hx Hx'. apply (Hdisj x Hx). now right.
      * rewrite keys_app in Hnd. cbn [keys map fst] in Hnd.
        apply NoDup_app in Hnd as (_ & Hdisj & _).
        intros Hin. apply (Hdisj k); [now apply list_elem_of_In | left].
    + replace (pre ++ (k, v) :: tbl) with ((pre ++ [(k, v)]) ++ tbl)
        by (now rewrite <- app_assoc).
      rewrite IH by (now rewrite <- app_assoc).
      now rewrite <- app_assoc.
Qed.

Lemma cleanup_old_files_eq (w : World) :
  cleanup_old_files w
  = let tbl := stored_table (disk w) in
    let gone := expired_items (now w) tbl in
    let w1 := add_ui (load_ui (disk w)) (add_calls (load_calls (disk w)) w) in
    let w2 := with_disk (scan_disk (now w) tbl (refused w) (disk w))
                (add_calls (scan_calls (now w) tbl (refused w) (disk w)) w1) in
    (Ok (Z.of_nat (length gone)),
     match gone with
     | [] => w2
     | _ => snd (save_file_metadata (live_items (now w) tbl) w2)
     end).
Proof.
  cbv zeta. unfold cleanup_old_files. rewrite try_except_eq.
  step load_file_metadata_eq. step datetime_now_eq. fields.
  step cleanup_scan_eq. fields. cbn [app].
  rewrite bind_eq.
  rewrite (cleanup_del_eq (fun kv => expired (now w) (snd kv))
             (stored_table (disk w)) _ [])
    by (apply stored_table_ok).
  cbv beta iota. cbn [app]. fold (live_items (now w) (stored_table (disk w))).
  fold (expired_items (now w) (stored_table (disk w))).
  destruct (expired_items (now w) (stored_table (disk w))) as [| kv gone].
  - reflexivity.
  - cbn [map]. rewrite bind_eq, save_file_metadata_eq.
    unfold ret. cbn [length snd]. rewrite length_map. reflexivity.
Qed.

Lemma scan_nothing_expired current_time (items : table) refused_ d :
  expired_items current_time items = [] ->
  scan_disk current_time items refused_ d = d
  /\ scan_calls current_time items refused_ d = [].
Proof.
  revert d. induction items as [| [pin info] items IH]; intros d;
    cbn [expired_items List.filter snd scan_disk scan_calls];
    [split; reflexivity |].
  destruct (expired current_time info); [discriminate |].
  apply IH.
Qed.

Lemma remove_blob_lookup_ne refused_ path path' d :
  path <> path' -> remove_blob refused_ path d !! path' = d !! path'.
Proof.
  intros Hne. unfold remove_blob. destruct (d !! path); [| reflexivity].
  destruct (bool_decide (path ∈ refused_)); [reflexivity |].
  now apply lookup_delete_ne.
Qed.

Lemma remove_blob_lookup_None refused_ path path' d :
  d !! path' = None -> remove_blob refused_ path d !! path' = None.
Proof.
  intros Hnone. unfold remove_blob. destruct (d !! path); [| exact Hnone].
  destruct (bool_decide (path ∈ refused_)); [exact Hnone |].
  destruct (decide (path = path')) as [-> | Hne].
  - apply lookup_delete_eq.
  - now rewrite lookup_delete_ne.
Qed.

Lemma remove_blob_lookup_eq refused_ path d :
  path ∉ refused_ -> remove_blob refused_ path d !! path = None.
Proof.
  intros Hfree. unfold remove_blob. destruct (d !! path) eqn:Hd;
    [| exact Hd].
  rewrite bool_decide_false by exact Hfree. apply lookup_delete_eq.
Qed.

Lemma scan_disk_lookup_None current_time (items : table) refused_ path :
  forall d, d !! path = None ->
            scan_disk current_time items refused_ d !! path = None.
Proof.
  induction items as [| [pin info] items IH]; intros d Hd;
    cbn [scan_disk]; [exact Hd |].
  apply IH. destruct (expired current_time info); [| exact Hd].
  now apply remove_blob_lookup_None.
Qed.

Lemma scan_disk_lookup_other current_time (items : table) refused_ path :
  (forall kv, In kv (expired_items current_time items) ->
              filepath (snd kv) <> path) ->
  forall d, scan_disk current_time items refused_ d !! path = d !! path.
Proof.
  induction items as [| [pin info] items IH]; intros Hother d;
    cbn [scan_disk]; [reflexivity |].
  cbn [expired_items List.filter snd] in Hother.
  destruct (expired current_time info) eqn:Hexp.
  - rewrite IH by (intros kv Hin; apply Hother; now right).
    apply remove_blob_lookup_ne. apply (Hother (pin, info)). now left.
  - now apply IH.
Qed.

Lemma scan_disk_lookup_gone current_time (items : table) refused_ kv :
  In kv (expired_items current_time items) ->
  filepath (snd kv) ∉ refused_ ->
  forall d,
    scan_disk current_time items refused_ d !! filepath (snd kv) = None.
Proof.
  intros Hin Hfree.
  induction items as [| [pin info] items IH]; intros d;
    cbn [expired_items List.filter snd] in Hin; [destruct Hin |].
  cbn [scan_disk]. destruct (expired current_time info) eqn:Hexp.
  - destruct Hin as [<- | Hin]; [| now apply IH].
    apply scan_disk_lookup_None. cbn [snd].
    now apply remove_blob_lookup_eq.
  - now apply IH.
Qed.

Lemma filter_nil_negb {A : Type} (p : A -> bool) (l : list A) :
  List.filter p l = [] -> List.filter (fun x => negb (p x)) l = l.
Proof.
  induction l as [| x l IH]; [reflexivity |]. cbn [List.filter].
  destruct (p x); [discriminate |]. cbn [negb]. intros H. f_equal.
  now apply IH.
Qed.

Lemma filter_none {A : Type} (p : A -> bool) (l : list A) :
  (forall x, In x l -> p x = false) -> List.filter p l = [].
Proof.
  induction l as [| x l IH]; [reflexivity |]. intros Hall.
  cbn [List.filter]. rewrite (Hall x) by (now left).
  apply IH. intros y Hy. apply Hall. now right.
Qed.

Lemma expired_spec current_time info :
  expired current_time info = true
  <-> timedelta_hours 24 < sub current_time (upload_time info).
Proof. unfold expired. apply Z.ltb_lt. Qed.

Lemma not_expired_spec current_time info :
  negb (expired current_time info) = true
  <-> sub current_time (upload_time info) <= timedelta_hours 24.
Proof. unfold expired. rewrite negb_true_iff. apply Z.ltb_ge. Qed.

End sweep_facts.


Section sweep_claims.
Import Text Datetime Dict Sys App View.

(** The disk and the refusals after a sweep. *)
Lemma cleanup_old_files_disk (w : World) :
  let tbl := stored_table (disk w) in
  let gone := expired_items (now w) tbl in
  let w' := snd (cleanup_old_files w) in
  refused w' = refused w
  /\ disk w'
     = match gone with
       | [] => disk w
       | _ =>
           if bool_decide (METADATA_FILE ∈ refused w)
           then cut_disk (cuts w) METADATA_FILE
                  (scan_disk (now w) tbl (refused w) (disk w))
           else <[METADATA_FILE := Snapshot (encode (live_items (now w) tbl))]>
                  (scan_disk (now w) tbl (refused w) (disk w))
       end.
Proof.
  cbv zeta. rewrite cleanup_old_files_eq. cbv zeta. cbn [snd].
  destruct (expired_items (now w) (stored_table (disk w))) as [| kv gone]
    eqn:Hgone.
  - fields. split; [reflexivity |].
    now apply scan_nothing_expired.
  - rewrite save_file_metadata_eq. fields.
    destruct (bool_decide (METADATA_FILE ∈ refused w)); fields;
      split; reflexivity.
Qed.

Lemma cleanup_old_files_fst (w : World) :
  fst (cleanup_old_files w)
  = Ok (Z.of_nat (length (expired_items (now w) (stored_table (disk w))))).
Proof. rewrite cleanup_old_files_eq. reflexivity. Qed.

(** C2.  The sweep returns the number of records whose age is strictly
    more than 24 hours; it removes exactly those records from the persisted
    table, removes their blobs (a blob that is not there is passed over
    without an error), touches no other file, and writes the table back only
    when at least one record was removed. *)
Theorem sweep_removes_exactly_the_expired (w : World) :
  let tbl := stored_table (disk w) in
  let gone := expired_items (now w) tbl in
  let kept := live_items (now w) tbl in
  exists w',
    cleanup_old_files w = (Ok (Z.of_nat (length gone)), w')
    /\ (forall kv,
          In kv gone
          <-> In kv tbl
              /\ timedelta_hours 24 < sub (now w) (upload_time (snd kv)))
    /\ (forall kv,
          In kv kept
          <-> In kv tbl
              /\ sub (now w) (upload_time (snd kv)) <= timedelta_hours 24)
    /\ (METADATA_FILE ∉ refused w -> stored_table (disk w') = kept)
    /\ (forall kv,
          In kv gone ->
          filepath (snd kv) ∉ refused w ->
          filepath (snd kv) <> METADATA_FILE ->
          disk w' !! filepath (snd kv) = None)
    /\ (forall path,
          path <> METADATA_FILE ->
          (forall kv, In kv gone -> filepath (snd kv) <> path) ->
          disk w' !! path = disk w !! path)
    /\ (gone = [] -> w' = snd (load_file_metadata w))
    /\ (gone <> [] -> In (sys_open_w METADATA_FILE) (calls w')).
Proof.
  cbv zeta.
  destruct (cleanup_old_files_disk w) as [_ Hdisk]. cbv zeta in Hdisk.
  rewrite cleanup_old_files_eq in *. cbv zeta in *. cbn [snd] in Hdisk.
  eexists. split; [reflexivity |].
  split.
  { intros kv. unfold expired_items. rewrite filter_In, expired_spec.
    reflexivity. }
  split.
  { intros kv. unfold live_items. rewrite filter_In, not_expired_spec.
    reflexivity. }
  split.
  { intros Hmeta. rewrite Hdisk.
    destruct (expired_items (now w) (stored_table (disk w))) eqn:Hgone.
    - unfold live_items. now rewrite filter_nil_negb.
    - rewrite bool_decide_false by exact Hmeta.
      apply stored_table_saved. apply table_ok_filter, stored_table_ok. }
  split.
  { intros kv Hin Hfree Hpath. rewrite Hdisk.
    destruct (expired_items (now w) (stored_table (disk w))) eqn:Hgone;
      [destruct Hin |].
    rewrite <- Hgone in Hin.
    destruct (bool_decide (METADATA_FILE ∈ refused w)).
    - rewrite cut_disk_lookup_ne by exact Hpath.
      now apply scan_disk_lookup_gone.
    - rewrite lookup_insert_ne by congruence.
      now apply scan_disk_lookup_gone. }
  split.
  { intros path Hpath Hother. rewrite Hdisk.
    destruct (expired_items (now w) (stored_table (disk w))) eqn:Hgone;
      [reflexivity |].
    rewrite <- Hgone in Hother.
    destruct (bool_decide (METADATA_FILE ∈ refused w)).
    - rewrite cut_disk_lookup_ne by exact Hpath.
      now apply scan_disk_lookup_other.
    - rewrite lookup_insert_ne by congruence.
      now apply scan_disk_lookup_other. }
  split.
  { intros Hgone. rewrite Hgone, load_file_metadata_eq. cbn [snd].
    destruct (scan_nothing_expired (now w) (stored_table (disk w))
                (refused w) (disk w) Hgone) as [-> ->].
    unfold with_disk, add_calls, add_ui. cbn [disk refused cuts now ui calls].
    now rewrite app_nil_r. }
  intros Hgone.
  destruct (expired_items (now w) (stored_table (disk w)));
    [contradiction |].
  rewrite save_file_metadata_eq. cbn [snd].
  destruct (bool_decide _); fields; rewrite !in_app_iff; right;
    cbn [In]; tauto.
Qed.

Lemma sweep_removes_exactly_the_expired_witness :
  exists w',
    cleanup_old_files day_old_world = (Ok 1, w')
    /\ keys (stored_table (disk w')) = ["1234"]
    /\ disk w' !! "/tmp/streamlit_file_transfer/1234_b.bin"
       = Some (Blob [Byte.x00; Byte.x01]).
Proof.
  assert (Hmeta : METADATA_FILE ∉ refused day_old_world)
    by (vm_compute; set_solver).
  assert (Hgone : length (expired_items (now day_old_world)
                            (stored_table (disk day_old_world))) = 1%nat)
    by (vm_compute; reflexivity).
  destruct (sweep_removes_exactly_the_expired day_old_world)
    as (w' & Hrun & _ & _ & Hkept & _ & Hother & _).
  cbv zeta in *. rewrite Hgone in Hrun.
  exists w'. split; [exact Hrun |]. split.
  - rewrite (Hkept Hmeta). vm_compute. reflexivity.
  - rewrite Hother.
    + vm_compute. reflexivity.
    + intros Heq. vm_compute in Heq. discriminate Heq.
    + intros kv Hin.
      assert (expired_items (now day_old_world)
                (stored_table (disk day_old_world))
              = [("4821",
                  mk_file_info "a.txt"
                    "/tmp/streamlit_file_transfer/4821_a.txt" 1
                    (mk_datetime 2024 2 29 11 0 0 0) None)]) as Hlist
        by (vm_compute; reflexivity).
      rewrite Hlist in Hin. destruct Hin as [<- | []].
      cbn [snd filepath]. intros Heq. vm_compute in Heq. discriminate Heq.
Defined.

(** C10 as stated fails: a record uploaded exactly 24 hours before the
    first sweep is kept by it, and removed by a second sweep that reads the
    clock one microsecond later. *)
Lemma second_sweep_can_remove_a_record :
  fst (cleanup_old_files boundary_world) = Ok 0
  /\ fst (cleanup_old_files
            (tick just_after_noon (snd (cleanup_old_files boundary_world))))
     = Ok 1.
Proof. split; vm_compute; reflexivity. Qed.

(** C10, amended.  After a sweep whose table could be written back, a
    second sweep with no upload in between removes nothing and leaves the
    disk as it is, provided no record the first sweep kept has grown older
    than 24 hours by the time the second sweep reads the clock (for
    instance, when it reads the same time). *)
Theorem second_sweep_removes_nothing (w : World) (t : datetime) :
  METADATA_FILE ∉ refused w ->
  (forall kv,
     In kv (live_items (now w) (stored_table (disk w))) ->
     expired t (snd kv) = false) ->
  exists w1 w2,
    cleanup_old_files w
    = (Ok (Z.of_nat (length (expired_items (now w) (stored_table (disk w))))),
       w1)
    /\ cleanup_old_files (tick t w1) = (Ok 0, w2)
    /\ disk w2 = disk w1.
Proof.
  intros Hmeta Hlive.
  destruct (cleanup_old_files_disk w) as [Hrefused Hdisk].
  cbv zeta in Hrefused, Hdisk.
  assert (stored_table (disk (snd (cleanup_old_files w)))
          = live_items (now w) (stored_table (disk w))) as Hstored.
  { rewrite Hdisk.
    destruct (expired_items (now w) (stored_table (disk w))) eqn:Hgone.
    - unfold live_items. now rewrite filter_nil_negb.
    - rewrite bool_decide_false by exact Hmeta.
      apply stored_table_saved. apply table_ok_filter, stored_table_ok. }
  assert (expired_items t (live_items (now w) (stored_table (disk w))) = [])
    as Hnone.
  { apply filter_none. exact Hlive. }
  exists (snd (cleanup_old_files w)),
         (snd (cleanup_old_files (tick t (snd (cleanup_old_files w))))).
  split.
  { rewrite (surjective_pairing (cleanup_old_files w)) at 1.
    now rewrite cleanup_old_files_fst. }
  destruct (cleanup_old_files_disk (tick t (snd (cleanup_old_files w))))
    as [_ Hdisk2].
  cbv zeta in Hdisk2. cbn [tick disk now] in Hdisk2.
  rewrite Hstored, Hnone in Hdisk2.
  split; [| exact Hdisk2].
  rewrite (surjective_pairing (cleanup_old_files (tick t _))) at 1.
  rewrite cleanup_old_files_fst. cbn [tick disk now].
  now rewrite Hstored, Hnone.
Qed.

Lemma second_sweep_removes_nothing_witness :
  (METADATA_FILE ∉ refused day_old_world)
  /\ (forall kv,
        In kv (live_items (now day_old_world)
                          (stored_table (disk day_old_world))) ->
        expired half_past_noon (snd kv) = false)
  /\ exists w1 w2,
       cleanup_old_files day_old_world = (Ok 1, w1)
       /\ cleanup_old_files (tick half_past_noon w1) = (Ok 0, w2)
       /\ disk w2 = disk w1.
Proof.
  assert (H1 : METADATA_FILE ∉ refused day_old_world)
    by (vm_compute; set_solver).
  assert (H2 : forall kv,
             In kv (live_items (now day_old_world)
                               (stored_table (disk day_old_world))) ->
             expired half_past_noon (snd kv) = false).
  { intros kv Hin.
    assert (live_items (now day_old_world)
              (stored_table (disk day_old_world))
            = [("1234",
                mk_file_info "b.bin"
                  "/tmp/streamlit_file_transfer/1234_b.bin" 2
                  (mk_datetime 2024 2 29 13 0 0 0) None)]) as Hlist
      by (vm_compute; reflexivity).
    rewrite Hlist in Hin. destruct Hin as [<- | []]. reflexivity. }
  split; [exact H1 |]. split; [exact H2 |].
  destruct (second_sweep_removes_nothing day_old_world half_past_noon H1 H2)
    as (w1 & w2 & Hfirst & Hsecond & Hdisk).
  exists w1, w2. split; [| split; assumption].
  rewrite Hfirst. reflexivity.
Defined.

End sweep_claims.


(** * Further properties of the store *)

(** ** Preparations *)

Section more_store_facts.
Import Text Datetime Dict Sys App View.

Lemma decode_None_In data item :
  In item data -> decode_entry item = None -> decode data = None.
Proof.
  induction data as [| x data IH]; cbn [In decode]; [tauto |].
  intros [-> | Hin] Hbad.
  - now rewrite Hbad.
  - rewrite (IH Hin Hbad). now destruct (decode_entry x).
Qed.

Lemma bad_stamp_In data item :
  In item data -> decode_entry item = None ->
  In (bad_stamp data) (map (fun kv => upload_time (snd kv)) data).
Proof.
  induction data as [| x data IH]; cbn [In bad_stamp map]; [tauto |].
  intros Hin Hbad.
  destruct (fromisoformat (upload_time (snd x))) eqn:Hx; [| now left].
  right. destruct Hin as [-> | Hin]; [| now apply IH].
  unfold decode_entry in Hbad. rewrite Hx in Hbad. discriminate.
Qed.

Lemma unreadable_read_table d :
  unreadable d -> exists e, read_table d = inl e.
Proof.
  unfold unreadable, read_table.
  destruct (d !! METADATA_FILE) as [[data | members |] |]; try (now eauto).
  intros [Hnd Hex]. apply Exists_exists in Hex as ([pin info] & Hin & Hbad).
  apply list_elem_of_In in Hin.
  rewrite of_pairs_NoDup by exact Hnd.
  rewrite (decode_None_In members (pin, info) Hin); [eauto |].
  unfold decode_entry. cbn [snd] in *.
  now rewrite (fromisoformat_short _ Hbad).
Qed.

Lemma four_ascii_digits_head pin :
  four_ascii_digits pin = true ->
  exists c s, pin = String c s /\ is_ascii_digit c = true.
Proof.
  unfold four_ascii_digits. intros [Hlen Hall]%andb_true_iff.
  destruct pin as [| c s]; [discriminate Hlen |].
  cbn [all_chars] in Hall. apply andb_true_iff in Hall as [Hc _]. eauto.
Qed.

Lemma blob_path_ne_metadata_file pin name :
  four_ascii_digits pin = true -> blob_path pin name <> METADATA_FILE.
Proof.
  intros Hpin. destruct (four_ascii_digits_head pin Hpin) as (c & s & -> & Hc).
  unfold blob_path. rewrite append_String. now apply blob_path_ne_metadata.
Qed.

Lemma get_filter {V : Type} (p : string * V -> bool) k (d : dict V) :
  NoDup (keys d) ->
  get k (List.filter p d)
  = match get k d with
    | Some v => if p (k, v) then Some v else None
    | None => None
    end.
Proof.
  induction d as [| [k' v'] d IH]; intros Hnd; [reflexivity |].
  cbn [keys map fst] in Hnd. apply NoDup_cons in Hnd as [Hnotin Hnd].
  cbn [List.filter get].
  destruct (String.eqb_spec k k') as [-> | Hne].
  - destruct (p (k', v')) eqn:Hp; cbn [get].
    + now rewrite String.eqb_refl.
    + rewrite (IH Hnd).
      assert (get k' d = None) as ->; [| reflexivity].
      apply get_None_keys. intros Hin. apply Hnotin.
      now apply list_elem_of_In.
  - destruct (p (k', v')); cbn [get].
    + destruct (String.eqb_spec k k'); [contradiction | now apply IH].
    + now apply IH.
Qed.

(** What [save_file_with_pin] leaves behind once the blob is written. *)
Lemma save_file_with_pin_written (file : UploadedFile) (pin : string) w :
  blob_path pin (uf_name file) ∉ refused w ->
  let path := blob_path pin (uf_name file) in
  let d1 := <[path := Blob (uf_getvalue file)]> (disk w) in
  let tbl := Dict.set pin (new_info file pin (now w)) (stored_table d1) in
  exists w',
    save_file_with_pin file pin w = (Ok path, w')
    /\ refused w' = refused w
    /\ now w' = now w
    /\ disk w'
       = (if bool_decide (METADATA_FILE ∈ refused w)
          then cut_disk (cuts w) METADATA_FILE d1
          else <[METADATA_FILE := Snapshot (encode tbl)]> d1)
    /\ ui w'
       = ui w ++ load_ui d1
         ++ (if bool_decide (METADATA_FILE ∈ refused w)
             then [st_error (fstring "Error saving metadata: "
                                     (str_exn (OSError METADATA_FILE)))]
             else []).
Proof.
  intros Hpath. cbv zeta. rewrite save_file_with_pin_eq. cbv zeta.
  rewrite bool_decide_false by exact Hpath.
  rewrite save_file_metadata_eq. fields.
  eexists. split; [reflexivity |].
  destruct (bool_decide (METADATA_FILE ∈ refused w)); fields;
    rewrite <- ?app_assoc, ?app_nil_r; repeat split.
Qed.

(** What a pass of the upload loop that returned a PIN has done. *)
Lemma upload_Ok (file : UploadedFile) (draws : list Z) w pin w1 :
  upload file draws w = (Ok pin, w1) ->
  let path := blob_path pin (uf_name file) in
  let d1 := <[path := Blob (uf_getvalue file)]> (disk w) in
  let tbl := Dict.set pin (new_info file pin (now w)) (stored_table d1) in
  (exists r, first_free (stored_table (disk w)) draws = Some r
             /\ pin = draw_pin r)
  /\ (path ∉ refused w)
  /\ refused w1 = refused w
  /\ now w1 = now w
  /\ disk w1
     = (if bool_decide (METADATA_FILE ∈ refused w)
        then cut_disk (cuts w) METADATA_FILE d1
        else <[METADATA_FILE := Snapshot (encode tbl)]> d1).
Proof.
  unfold upload. rewrite bind_eq, generate_pin_eq.
  destruct (first_free (stored_table (disk w)) draws) as [r |];
    [| discriminate].
  rewrite bind_eq, save_file_with_pin_eq. cbv zeta. fields.
  destruct (bool_decide (blob_path (draw_pin r) (uf_name file) ∈ refused w))
    eqn:Hb; [discriminate |].
  apply bool_decide_eq_false in Hb.
  rewrite save_file_metadata_eq. fields. unfold ret.
  intros [= <- <-]. split; [eauto |]. split; [exact Hb |].
  destruct (bool_decide (METADATA_FILE ∈ refused w)); fields;
    repeat split.
Qed.

End more_store_facts.


(** ** Loading and saving *)

Section store_extras.
Import Text Datetime Dict Sys App View.

(** X1.  [load_file_metadata] never raises and never changes the disk, the
    clock or what the system refuses: it only asks whether the metadata
    file exists and reads it.  The table it returns has distinct keys; when
    there is no metadata file yet, the table is empty and nothing is
    rendered. *)
Theorem load_never_raises_nor_writes (w : World) :
  exists tbl w' cs,
    load_file_metadata w = (Ok tbl, w')
    /\ disk w' = disk w /\ refused w' = refused w /\ now w' = now w
    /\ calls w' = calls w ++ cs
    /\ Forall (fun c => c = sys_exists METADATA_FILE
                        \/ c = sys_open_r METADATA_FILE) cs
    /\ NoDup (keys tbl)
    /\ (disk w !! METADATA_FILE = None -> tbl = [] /\ ui w' = ui w).
Proof.
  rewrite load_file_metadata_eq. eexists _, _, _. split; [reflexivity |].
  fields. repeat split.
  - unfold load_calls. destruct (disk w !! METADATA_FILE);
      repeat constructor; tauto.
  - apply stored_table_ok.
  - unfold stored_table, read_table. now rewrite H.
  - unfold load_ui, read_table. rewrite H. apply app_nil_r.
Qed.

(** X2.  One record with a timestamp that is no date hides the whole
    table: [load_file_metadata] renders [f"Error loading metadata: {e}"] for
    the [ValueError] of [datetime.fromisoformat] on a timestamp of the file
    and returns the empty dict, whatever else the file holds. *)
Theorem one_bad_timestamp_hides_the_table
    (w : World) (members : list (string * file_info string))
    (pin : string) (info : file_info string) :
  disk w !! METADATA_FILE = Some (Snapshot members) ->
  NoDup (map fst members) ->
  In (pin, info) members ->
  too_short (upload_time info) ->
  exists w' date_string,
    load_file_metadata w = (Ok [], w')
    /\ In date_string (map (fun kv => upload_time (snd kv)) members)
    /\ ui w' = ui w ++ [st_error (fstring "Error loading metadata: "
                                          (str_exn (ValueError date_string)))].
Proof.
  intros Hfile Hnd Hin Hbad. rewrite load_file_metadata_eq.
  assert (read_table (disk w) = inl (ValueError (bad_stamp members)))
    as Hread.
  { unfold read_table. rewrite Hfile, of_pairs_NoDup by exact Hnd.
    rewrite (decode_None_In members (pin, info) Hin); [reflexivity |].
    unfold decode_entry. cbn [snd].
    now rewrite (fromisoformat_short _ Hbad). }
  unfold stored_table, load_ui. rewrite Hread.
  eexists _, (bad_stamp members). split; [reflexivity |].
  split; [| reflexivity].
  apply (bad_stamp_In members (pin, info) Hin).
  unfold decode_entry. cbn [snd]. now rewrite (fromisoformat_short _ Hbad).
Qed.

Lemma one_bad_timestamp_hides_the_table_witness :
  disk bad_stamp_world !! METADATA_FILE = Some (Snapshot bad_stamp_members)
  /\ NoDup (map fst bad_stamp_members)
  /\ In ("1234",
         mk_file_info "b.bin" "/tmp/streamlit_file_transfer/1234_b.bin" 2
                      "never" None) bad_stamp_members
  /\ too_short "never"
  /\ exists w' date_string,
       load_file_metadata bad_stamp_world = (Ok [], w')
       /\ In date_string
             (map (fun kv => upload_time (snd kv)) bad_stamp_members)
       /\ ui w' = ui bad_stamp_world
                  ++ [st_error (fstring "Error loading metadata: "
                                        (str_exn (ValueError date_string)))].
Proof.
  assert (H1 : disk bad_stamp_world !! METADATA_FILE
               = Some (Snapshot bad_stamp_members))
    by (vm_compute; reflexivity).
  assert (H2 : NoDup (map fst bad_stamp_members))
    by (apply (bool_decide_unpack _); vm_compute; exact I).
  assert (H3 : In ("1234",
                   mk_file_info "b.bin"
                     "/tmp/streamlit_file_transfer/1234_b.bin" 2
                     "never" None) bad_stamp_members)
    by (right; left; reflexivity).
  assert (H4 : too_short "never") by (unfold too_short; vm_compute; reflexivity).
  repeat (split; [assumption |]).
  exact (one_bad_timestamp_hides_the_table bad_stamp_world bad_stamp_members
           "1234" _ H1 H2 H3 H4).
Defined.

(** X3.  When the metadata file holds what [load_file_metadata] fails on,
    the next [save_file_with_pin] writes a file that holds the new record
    alone: what the unreadable file held is gone. *)
Theorem upload_over_unreadable_file_keeps_only_itself
    (w : World) (file : UploadedFile) (pin : string) :
  unreadable (disk w) ->
  four_ascii_digits pin = true ->
  blob_path pin (uf_name file) ∉ refused w ->
  METADATA_FILE ∉ refused w ->
  exists w',
    save_file_with_pin file pin w = (Ok (blob_path pin (uf_name file)), w')
    /\ disk w' !! METADATA_FILE
       = Some (Snapshot
                 [(pin, serializable_info (new_info file pin (now w)))]).
Proof.
  intros Hread Hpin Hpath Hmeta.
  destruct (save_file_with_pin_written file pin w Hpath)
    as (w' & Hrun & _ & _ & Hdisk & _).
  cbv zeta in Hdisk. rewrite bool_decide_false in Hdisk by exact Hmeta.
  exists w'. split; [exact Hrun |].
  rewrite Hdisk, lookup_insert_eq.
  unfold stored_table.
  rewrite read_table_insert_ne
    by (now apply blob_path_ne_metadata_file).
  destruct (unreadable_read_table _ Hread) as [e ->]. reflexivity.
Qed.

Lemma upload_over_unreadable_file_keeps_only_itself_witness :
  unreadable (disk bad_stamp_world)
  /\ four_ascii_digits "5555" = true
  /\ (blob_path "5555" (uf_name sample_file) ∉ refused bad_stamp_world)
  /\ (METADATA_FILE ∉ refused bad_stamp_world)
  /\ exists w',
       save_file_with_pin sample_file "5555" bad_stamp_world
       = (Ok (blob_path "5555" (uf_name sample_file)), w')
       /\ disk w' !! METADATA_FILE
          = Some (Snapshot
                    [("5555",
                      serializable_info
                        (new_info sample_file "5555"
                                  (now bad_stamp_world)))]).
Proof.
  assert (H1 : unreadable (disk bad_stamp_world)).
  { unfold unreadable.
    replace (disk bad_stamp_world !! METADATA_FILE)
      with (Some (Snapshot bad_stamp_members)) by (vm_compute; reflexivity).
    split; [apply (bool_decide_unpack _); vm_compute; exact I |].
    apply Exists_cons_tl, Exists_cons_hd.
    unfold too_short. vm_compute. reflexivity. }
  assert (H2 : four_ascii_digits "5555" = true) by reflexivity.
  assert (H3 : blob_path "5555" (uf_name sample_file)
               ∉ refused bad_stamp_world) by (vm_compute; set_solver).
  assert (H4 : METADATA_FILE ∉ refused bad_stamp_world)
    by (vm_compute; set_solver).
  repeat (split; [assumption |]).
  exact (upload_over_unreadable_file_keeps_only_itself
           bad_stamp_world sample_file "5555" H1 H2 H3 H4).
Defined.

(** X4.  After [save_file_with_pin] has written blob and table,
    [get_file_by_pin] returns under the new PIN the record of the upload
    (name, blob path, size, time of the call, type), every other PIN
    resolves as before, and the blob holds the uploaded bytes. *)
Theorem saved_file_is_found_by_its_pin
    (w : World) (file : UploadedFile) (pin : string) :
  four_ascii_digits pin = true ->
  blob_path pin (uf_name file) ∉ refused w ->
  METADATA_FILE ∉ refused w ->
  datetime_ok (now w) = true ->
  exists w',
    save_file_with_pin file pin w = (Ok (blob_path pin (uf_name file)), w')
    /\ fst (get_file_by_pin pin w')
       = Ok (Some (mk_file_info (uf_name file)
                                (blob_path pin (uf_name file))
                                (uf_size file) (now w) (uf_type file)))
    /\ (forall pin', pin' <> pin ->
          fst (get_file_by_pin pin' w') = fst (get_file_by_pin pin' w))
    /\ disk w' !! blob_path pin (uf_name file)
       = Some (Blob (uf_getvalue file)).
Proof.
  intros Hpin Hpath Hmeta Hnow.
  pose proof (blob_path_ne_metadata_file pin (uf_name file) Hpin) as Hne.
  destruct (save_file_with_pin_written file pin w Hpath)
    as (w' & Hrun & _ & _ & Hdisk & _).
  cbv zeta in Hdisk. rewrite bool_decide_false in Hdisk by exact Hmeta.
  exists w'. split; [exact Hrun |].
  assert (stored_table (disk w')
          = Dict.set pin (new_info file pin (now w)) (stored_table (disk w)))
    as Hstored.
  { rewrite Hdisk, stored_table_saved.
    - unfold stored_table. now rewrite read_table_insert_ne.
    - apply table_ok_set; [exact Hnow | apply stored_table_ok]. }
  rewrite !get_file_by_pin_eq. cbn [fst]. rewrite Hstored.
  split; [now rewrite get_set_eq |]. split.
  - intros pin' Hpin'. rewrite ?get_file_by_pin_eq. cbn [fst].
    rewrite ?Hstored. rewrite get_set_ne by congruence. reflexivity.
  - rewrite Hdisk, lookup_insert_ne by congruence. apply lookup_insert_eq.
Qed.

Lemma saved_file_is_found_by_its_pin_witness :
  four_ascii_digits "5555" = true
  /\ (blob_path "5555" (uf_name sample_file) ∉ refused stale_world)
  /\ (METADATA_FILE ∉ refused stale_world)
  /\ datetime_ok (now stale_world) = true
  /\ exists w',
       save_file_with_pin sample_file "5555" stale_world
       = (Ok (blob_path "5555" (uf_name sample_file)), w')
       /\ fst (get_file_by_pin "5555" w')
          = Ok (Some (mk_file_info "report.pdf"
                        "/tmp/streamlit_file_transfer/5555_report.pdf" 4
                        noon (Some "application/pdf")))
       /\ fst (get_file_by_pin "4821" w')
          = fst (get_file_by_pin "4821" stale_world).
Proof.
  assert (H1 : four_ascii_digits "5555" = true) by reflexivity.
  assert (H2 : blob_path "5555" (uf_name sample_file) ∉ refused stale_world)
    by (vm_compute; set_solver).
  assert (H3 : METADATA_FILE ∉ refused stale_world)
    by (vm_compute; set_solver).
  assert (H4 : datetime_ok (now stale_world) = true) by reflexivity.
  repeat (split; [assumption |]).
  destruct (saved_file_is_found_by_its_pin stale_world sample_file "5555"
              H1 H2 H3 H4) as (w' & Hrun & Hnew & Hold & _).
  exists w'. split; [exact Hrun |]. split; [exact Hnew |].
  apply Hold. discriminate.
Defined.



(** X6.  A table saved by [save_file_metadata] is loaded back whole: the
    same records with the same fields, in the same order. *)
Theorem save_then_load_is_identity (w : World) (tbl : table) :
  table_ok tbl ->
  METADATA_FILE ∉ refused w ->
  fst (load_file_metadata (snd (save_file_metadata tbl w))) = Ok tbl.
Proof.
  intros Hok Hmeta. rewrite save_file_metadata_eq. cbn [snd].
  rewrite bool_decide_false by exact Hmeta.
  rewrite load_file_metadata_eq. fields.
  now rewrite stored_table_saved.
Qed.

Lemma save_then_load_is_identity_witness :
  table_ok sample_table
  /\ (METADATA_FILE ∉ refused stale_world)
  /\ fst (load_file_metadata (snd (save_file_metadata sample_table
                                                      stale_world)))
     = Ok sample_table.
Proof.
  assert (H1 : table_ok sample_table)
    by (apply (bool_decide_unpack _); vm_compute; exact I).
  assert (H2 : METADATA_FILE ∉ refused stale_world)
    by (vm_compute; set_solver).
  split; [exact H1 |]. split; [exact H2 |].
  exact (save_then_load_is_identity stale_world sample_table H1 H2).
Defined.

End store_extras.


(** ** Uploading and downloading *)

Section transfer_extras.
Import Text Datetime Dict Sys App View.

Lemma append_inj_l (a x y : string) : a +:+ x = a +:+ y -> x = y.
Proof.
  induction a as [| c a IH]; [now rewrite !append_Empty |].
  rewrite !append_String. intros [= H]. now apply IH.
Qed.

Lemma append_inj_length (p q x y : string) :
  String.length p = String.length q ->
  p +:+ x = q +:+ y -> p = q /\ x = y.
Proof.
  revert q. induction p as [| c p IH]; intros [| c' q] Hlen;
    try discriminate Hlen.
  - rewrite !append_Empty. intros ->. split; reflexivity.
  - rewrite !append_String. intros [= -> H].
    destruct (IH q) as [-> ->]; [now injection Hlen | exact H |].
    split; reflexivity.
Qed.

Lemma four_ascii_digits_length pin :
  four_ascii_digits pin = true -> String.length pin = 4%nat.
Proof.
  unfold four_ascii_digits, len. intros [Hlen _]%andb_true_iff.
  apply Z.eqb_eq in Hlen. lia.
Qed.

Lemma blob_path_digit pin name :
  four_ascii_digits pin = true ->
  blob_path pin name = STORAGE_DIR +:+ "/" +:+ pin +:+ "_" +:+ name.
Proof.
  intros Hpin. destruct (four_ascii_digits_head pin Hpin) as (c & s & -> & Hc).
  unfold blob_path. rewrite append_String. now apply os_path_join_digit.
Qed.

Lemma pin_and_name_inj (pin1 pin2 name1 name2 : string) :
  String.length pin1 = String.length pin2 ->
  pin1 +:+ "_" +:+ name1 = pin2 +:+ "_" +:+ name2 ->
  pin1 = pin2 /\ name1 = name2.
Proof.
  intros Hlen Heq. apply append_inj_length in Heq as [-> Heq];
    [| exact Hlen].
  split; [reflexivity |]. now apply (append_inj_l "_").
Qed.

(** X7.  Uploads under different PINs, or under different names, never
    share a blob file: the blob path tells PIN and file name apart. *)
Theorem blob_path_tells_uploads_apart (pin1 pin2 name1 name2 : string) :
  four_ascii_digits pin1 = true ->
  four_ascii_digits pin2 = true ->
  blob_path pin1 name1 = blob_path pin2 name2 ->
  pin1 = pin2 /\ name1 = name2.
Proof.
  intros H1 H2 Heq. rewrite !blob_path_digit in Heq by assumption.
  apply append_inj_l, append_inj_l in Heq.
  apply pin_and_name_inj; [| exact Heq].
  now rewrite !four_ascii_digits_length.
Qed.

Lemma blob_path_tells_uploads_apart_witness :
  four_ascii_digits "1234" = true
  /\ four_ascii_digits "1234" = true
  /\ blob_path "1234" "a_b.txt" = blob_path "1234" "a_b.txt"
  /\ "1234" = "1234" /\ "a_b.txt" = "a_b.txt".
Proof.
  assert (H1 : four_ascii_digits "1234" = true) by reflexivity.
  assert (H3 : blob_path "1234" "a_b.txt" = blob_path "1234" "a_b.txt")
    by reflexivity.
  split; [exact H1 |]. split; [exact H1 |]. split; [exact H3 |].
  exact (blob_path_tells_uploads_apart "1234" "1234" "a_b.txt" "a_b.txt"
           H1 H1 H3).
Defined.

Lemma download_tab_unknown pin w :
  passes_pin_check pin = true ->
  get pin (stored_table (disk w)) = None ->
  download_tab pin w
  = (Ok tt,
     add_ui (load_ui (disk w)
             ++ [st_error "Invalid PIN or file has expired.";
                 st_info "Please check the PIN or contact the file sender."])
       (add_calls (load_calls (disk w)) w)).
Proof.
  intros Hcheck Hget.
  destruct (passes_pin_check_nonempty pin Hcheck) as (a & s & ->).
  unfold download_tab. fold (passes_pin_check (String a s)).
  rewrite Hcheck. step get_file_by_pin_eq. rewrite Hget.
  step render_eq. rewrite render_eq.
  unfold add_ui, add_calls. cbn [disk refused cuts now ui calls].
  now rewrite <- !app_assoc.
Qed.

(** X8.  For a PIN that passes the test and is not in the table, the
    download tab answers "Invalid PIN or file has expired." (after the error
    of an unreadable metadata file, if there is one) and leaves the disk as
    it is, without looking at any blob. *)
Theorem unknown_pin_is_turned_down (pin : string) (w : World) :
  passes_pin_check pin = true ->
  fst (get_file_by_pin pin w) = Ok None ->
  exists w',
    download_tab pin w = (Ok tt, w')
    /\ disk w' = disk w
    /\ ui w'
       = ui w ++ load_ui (disk w)
         ++ [st_error "Invalid PIN or file has expired.";
             st_info "Please check the PIN or contact the file sender."]
    /\ calls w' = calls w ++ load_calls (disk w).
Proof.
  intros Hcheck Hget. rewrite get_file_by_pin_eq in Hget. cbn [fst] in Hget.
  injection Hget as Hget.
  rewrite (download_tab_unknown pin w Hcheck Hget).
  eexists. split; [reflexivity |]. fields. repeat split.
Qed.

Lemma unknown_pin_is_turned_down_witness :
  passes_pin_check "0042" = true
  /\ fst (get_file_by_pin "0042" one_file_world) = Ok None
  /\ exists w',
       download_tab "0042" one_file_world = (Ok tt, w')
       /\ disk w' = disk one_file_world
       /\ ui w'
          = [st_error "Invalid PIN or file has expired.";
             st_info "Please check the PIN or contact the file sender."].
Proof.
  assert (H1 : passes_pin_check "0042" = true) by reflexivity.
  assert (H2 : fst (get_file_by_pin "0042" one_file_world) = Ok None)
    by (vm_compute; reflexivity).
  split; [exact H1 |]. split; [exact H2 |].
  destruct (unknown_pin_is_turned_down "0042" one_file_world H1 H2)
    as (w' & Hrun & Hdisk & Hui & _).
  exists w'. split; [exact Hrun |]. split; [exact Hdisk |].
  rewrite Hui. vm_compute. reflexivity.
Defined.

(** X9.  However the block ends, the download tab never creates, changes
    or removes a blob, whatever is typed and whatever the disk holds: the
    only file it may write is the metadata file.  Clock and refusals are
    left alone. *)
Theorem download_tab_touches_no_blob (pin : string) (w : World) :
  let w' := snd (download_tab pin w) in
  (forall path, path <> METADATA_FILE -> disk w' !! path = disk w !! path)
  /\ refused w' = refused w
  /\ cuts w' = cuts w
  /\ now w' = now w.
Proof.
  cbv zeta. destruct (passes_pin_check pin) eqn:Hcheck.
  - destruct (get pin (stored_table (disk w))) as [info |] eqn:Hget.
    + destruct (disk w !! filepath info) as [c |] eqn:Hblob.
      * rewrite (download_tab_found pin w info c Hcheck Hget Hblob).
        fields. repeat split.
      * destruct (del_Some pin (stored_table (disk w))) as [tbl' Hdel].
        { apply get_Some_In in Hget. apply (in_map fst) in Hget.
          exact Hget. }
        rewrite (download_tab_missing pin w info tbl' Hcheck Hget Hblob Hdel).
        rewrite save_file_metadata_eq. fields.
        destruct (bool_decide (METADATA_FILE ∈ refused w)); fields;
          repeat split; intros path Hpath.
        -- now apply cut_disk_lookup_ne.
        -- now rewrite lookup_insert_ne.
    + rewrite (download_tab_unknown pin w Hcheck Hget).
      fields. repeat split.
  - destruct pin as [| c s].
    + repeat split.
    + unfold download_tab. fold (passes_pin_check (String c s)).
      rewrite Hcheck, render_eq. fields. repeat split.
Qed.

(** X10.  Two uploads made one after the other never get the same PIN,
    provided the first one could record itself. *)
Theorem successive_uploads_get_different_pins
    (w : World) (file1 file2 : UploadedFile) (draws1 draws2 : list Z)
    (pin1 pin2 : string) (w1 w2 : World) (t : datetime) :
  datetime_ok (now w) = true ->
  METADATA_FILE ∉ refused w ->
  upload file1 draws1 w = (Ok pin1, w1) ->
  upload file2 draws2 (tick t w1) = (Ok pin2, w2) ->
  pin1 <> pin2.
Proof.
  intros Hnow Hmeta Hup1 Hup2.
  destruct (upload_Ok _ _ _ _ _ Hup1) as ((r1 & _ & _) & _ & _ & _ & Hdisk).
  destruct (upload_Ok _ _ _ _ _ Hup2) as ((r2 & Hfree & ->) & _).
  cbv zeta in Hdisk. rewrite bool_decide_false in Hdisk by exact Hmeta.
  cbn [tick disk] in Hfree. rewrite Hdisk in Hfree.
  rewrite stored_table_saved in Hfree
    by (apply table_ok_set; [exact Hnow | apply stored_table_ok]).
  apply first_free_Some in Hfree as [_ Hfree].
  intros ->. unfold contains in Hfree. now rewrite get_set_eq in Hfree.
Qed.

Lemma successive_uploads_get_different_pins_witness :
  datetime_ok (now empty_world) = true
  /\ (METADATA_FILE ∉ refused empty_world)
  /\ upload sample_file [234; 235] empty_world
     = (Ok "1234", snd (upload sample_file [234; 235] empty_world))
  /\ upload other_file [234; 235]
       (tick evening (snd (upload sample_file [234; 235] empty_world)))
     = (Ok "1235",
        snd (upload other_file [234; 235]
               (tick evening
                  (snd (upload sample_file [234; 235] empty_world)))))
  /\ "1234" <> "1235".
Proof.
  assert (H1 : datetime_ok (now empty_world) = true) by reflexivity.
  assert (H2 : METADATA_FILE ∉ refused empty_world)
    by (vm_compute; set_solver).
  assert (H3 : upload sample_file [234; 235] empty_world
               = (Ok "1234", snd (upload sample_file [234; 235] empty_world)))
    by (vm_compute; reflexivity).
  assert (H4 : upload other_file [234; 235]
                 (tick evening
                    (snd (upload sample_file [234; 235] empty_world)))
               = (Ok "1235",
                  snd (upload other_file [234; 235]
                         (tick evening
                            (snd (upload sample_file [234; 235]
                                         empty_world))))))
    by (vm_compute; reflexivity).
  repeat (split; [assumption |]).
  exact (successive_uploads_get_different_pins empty_world sample_file
           other_file [234; 235] [234; 235] "1234" "1235" _ _ evening
           H1 H2 H3 H4).
Defined.

(** X11.  When the metadata file cannot be written, the upload still
    returns a PIN, but that PIN does not resolve: the download tab answers
    "Invalid PIN or file has expired.", while the blob sits on disk with no
    record pointing at it. *)
Theorem unrecorded_upload_does_not_resolve
    (w : World) (file : UploadedFile) (draws : list Z) (pin : string)
    (w1 : World) :
  METADATA_FILE ∈ refused w ->
  upload file draws w = (Ok pin, w1) ->
  exists w2,
    download_tab pin w1 = (Ok tt, w2)
    /\ ui w2
       = ui w1 ++ load_ui (disk w1)
         ++ [st_error "Invalid PIN or file has expired.";
             st_info "Please check the PIN or contact the file sender."]
    /\ ((METADATA_FILE ∉ cuts w) -> load_ui (disk w1) = load_ui (disk w))
    /\ disk w2 !! blob_path pin (uf_name file)
       = Some (Blob (uf_getvalue file)).
Proof.
  intros Hmeta Hup.
  destruct (upload_Ok _ _ _ _ _ Hup) as ((r & Hfree & ->) & _ & _ & _ & Hdisk).
  cbv zeta in Hdisk. rewrite bool_decide_true in Hdisk by exact Hmeta.
  pose proof (blob_path_ne_metadata_file (draw_pin r) (uf_name file)
                (draw_pin_four_ascii_digits r)) as Hne.
  apply first_free_Some in Hfree as [_ Hfree].
  rewrite download_tab_unknown.
  - eexists. split; [reflexivity |]. fields. split; [reflexivity |]. split.
    + intros Hcut. rewrite Hdisk. unfold load_ui, cut_disk.
      rewrite bool_decide_false by exact Hcut.
      now rewrite read_table_insert_ne.
    + rewrite Hdisk, cut_disk_lookup_ne by exact Hne. apply lookup_insert_eq.
  - apply four_ascii_digits_pass, draw_pin_four_ascii_digits.
  - rewrite Hdisk. unfold stored_table, read_table, cut_disk.
    destruct (bool_decide (METADATA_FILE ∈ cuts w)).
    + now rewrite lookup_insert_eq.
    + rewrite lookup_insert_ne by exact Hne.
      fold (read_table (disk w)). fold (stored_table (disk w)).
      unfold contains in Hfree.
      destruct (get (draw_pin r) (stored_table (disk w)));
        [discriminate | reflexivity].
Qed.

Lemma unrecorded_upload_does_not_resolve_witness :
  METADATA_FILE ∈ refused readonly_world
  /\ upload sample_file [234] readonly_world
     = (Ok "1234", snd (upload sample_file [234] readonly_world))
  /\ exists w2,
       download_tab "1234" (snd (upload sample_file [234] readonly_world))
       = (Ok tt, w2)
       /\ disk w2 !! blob_path "1234" (uf_name sample_file)
          = Some (Blob (uf_getvalue sample_file)).
Proof.
  assert (H1 : METADATA_FILE ∈ refused readonly_world)
    by (vm_compute; set_solver).
  assert (H2 : upload sample_file [234] readonly_world
               = (Ok "1234", snd (upload sample_file [234] readonly_world)))
    by (vm_compute; reflexivity).
  split; [exact H1 |]. split; [exact H2 |].
  destruct (unrecorded_upload_does_not_resolve readonly_world sample_file
              [234] "1234" _ H1 H2) as (w2 & Hrun & _ & _ & Hblob).
  exists w2. split; [exact Hrun | exact Hblob].
Defined.

End transfer_extras.


(** ** Sweeping between upload and download *)

Section sweep_extras.
Import Text Datetime Dict Sys App View.

Lemma In_set_NoDup {V : Type} (kv : string * V) k v (d : dict V) :
  NoDup (keys d) ->
  In kv (Dict.set k v d) -> kv = (k, v) \/ (In kv d /\ fst kv <> k).
Proof.
  induction d as [| [k' v'] d IH]; intros Hnd; cbn [Dict.set In].
  - intros [<- | []]. now left.
  - cbn [keys map fst] in Hnd. apply NoDup_cons in Hnd as [Hnotin Hnd].
    destruct (String.eqb_spec k k') as [-> | Hne]; cbn [In].
    + intros [<- | Hin]; [now left |]. right. split; [now right |].
      intros Heq. apply Hnotin. apply list_elem_of_In.
      rewrite <- Heq. now apply (in_map fst).
    + intros [<- | Hin].
      * right. split; [now left | cbn [fst]; congruence].
      * destruct (IH Hnd Hin) as [-> | [Hd Hk]]; [now left |].
        right. split; [now right | exact Hk].
Qed.

Lemma own_path_ne_metadata kv :
  own_path kv -> filepath (snd kv) <> METADATA_FILE.
Proof.
  intros [Hpin Hpath]. rewrite Hpath. now apply blob_path_ne_metadata_file.
Qed.

Lemma own_paths_differ kv1 kv2 :
  own_path kv1 -> own_path kv2 -> fst kv1 <> fst kv2 ->
  filepath (snd kv1) <> filepath (snd kv2).
Proof.
  intros [Hp1 Hf1] [Hp2 Hf2] Hne Heq. rewrite Hf1, Hf2 in Heq.
  rewrite !blob_path_digit in Heq by assumption.
  apply append_inj_l, append_inj_l, pin_and_name_inj in Heq as [Heq _];
    [contradiction |].
  now rewrite !four_ascii_digits_length.
Qed.

(** The table and the disk after an upload that could record itself. *)
Lemma stored_after_upload (file : UploadedFile) (draws : list Z) w pin w1 :
  datetime_ok (now w) = true ->
  METADATA_FILE ∉ refused w ->
  upload file draws w = (Ok pin, w1) ->
  let path := blob_path pin (uf_name file) in
  let tbl := Dict.set pin (new_info file pin (now w))
                      (stored_table (disk w)) in
  four_ascii_digits pin = true
  /\ path <> METADATA_FILE
  /\ stored_table (disk w1) = tbl
  /\ disk w1
     = <[METADATA_FILE := Snapshot (encode tbl)]>
         (<[path := Blob (uf_getvalue file)]> (disk w))
  /\ refused w1 = refused w
  /\ now w1 = now w.
Proof.
  intros Hnow Hmeta Hup. cbv zeta.
  destruct (upload_Ok _ _ _ _ _ Hup)
    as ((r & _ & ->) & _ & Hrefused & Hclock & Hdisk).
  cbv zeta in Hdisk. rewrite bool_decide_false in Hdisk by exact Hmeta.
  pose proof (draw_pin_four_ascii_digits r) as Hpin.
  pose proof (blob_path_ne_metadata_file _ (uf_name file) Hpin) as Hne.
  assert (stored_table (<[blob_path (draw_pin r) (uf_name file)
                          := Blob (uf_getvalue file)]> (disk w))
          = stored_table (disk w)) as Hsame
    by (unfold stored_table; now rewrite read_table_insert_ne).
  rewrite Hsame in Hdisk.
  repeat split; try assumption.
  rewrite Hdisk. apply stored_table_saved.
  apply table_ok_set; [exact Hnow | apply stored_table_ok].
Qed.

(** The table and the disk after a sweep that could write the table. *)
Lemma stored_after_sweep w :
  METADATA_FILE ∉ refused w ->
  let tbl := stored_table (disk w) in
  let w' := snd (cleanup_old_files w) in
  stored_table (disk w') = live_items (now w) tbl
  /\ load_ui (disk w') = match expired_items (now w) tbl with
                         | [] => load_ui (disk w)
                         | _ => []
                         end
  /\ (forall path,
        path <> METADATA_FILE ->
        (forall kv, In kv (expired_items (now w) tbl) ->
                    filepath (snd kv) <> path) ->
        disk w' !! path = disk w !! path)
  /\ (forall kv,
        In kv (expired_items (now w) tbl) ->
        filepath (snd kv) ∉ refused w ->
        filepath (snd kv) <> METADATA_FILE ->
        disk w' !! filepath (snd kv) = None).
Proof.
  intros Hmeta. cbv zeta.
  destruct (cleanup_old_files_disk w) as [_ Hdisk]. cbv zeta in Hdisk.
  rewrite Hdisk. clear Hdisk.
  destruct (expired_items (now w) (stored_table (disk w))) as [| x gone]
    eqn:Hgone.
  - repeat split.
    + unfold live_items. now rewrite filter_nil_negb.
    + intros kv [].
  - rewrite bool_decide_false by exact Hmeta.
    assert (table_ok (live_items (now w) (stored_table (disk w)))) as Hok
      by (apply table_ok_filter, stored_table_ok).
    rewrite <- Hgone. repeat split.
    + now apply stored_table_saved.
    + unfold load_ui. now rewrite read_table_saved.
    + intros path Hpath Hother. rewrite lookup_insert_ne by congruence.
      now apply scan_disk_lookup_other.
    + intros kv Hin Hfree Hpath. rewrite lookup_insert_ne by congruence.
      now apply scan_disk_lookup_gone.
Qed.

(** X12.  A record that the sweep finds older than 24 hours is never
    served afterwards: the download tab answers "Invalid PIN or file has
    expired." for its PIN, and its blob, where the system lets it be
    removed, is off the disk. *)
Theorem expired_record_is_not_served_after_sweep
    (w : World) (pin : string) (info : file_info datetime) (t : datetime) :
  passes_pin_check pin = true ->
  get pin (stored_table (disk w)) = Some info ->
  expired (now w) info = true ->
  METADATA_FILE ∉ refused w ->
  exists w2,
    download_tab pin (tick t (snd (cleanup_old_files w))) = (Ok tt, w2)
    /\ ui w2
       = ui (snd (cleanup_old_files w))
         ++ [st_error "Invalid PIN or file has expired.";
             st_info "Please check the PIN or contact the file sender."]
    /\ (filepath info ∉ refused w ->
        filepath info <> METADATA_FILE ->
        disk w2 !! filepath info = None).
Proof.
  intros Hcheck Hget Hexp Hmeta.
  destruct (stored_after_sweep w Hmeta) as (Hstored & Hui & _ & Hgone).
  cbv zeta in *.
  assert (In (pin, info) (expired_items (now w) (stored_table (disk w))))
    as Hin.
  { apply filter_In. split; [now apply get_Some_In | exact Hexp]. }
  rewrite download_tab_unknown; [| exact Hcheck |].
  - eexists. split; [reflexivity |]. fields. split.
    + rewrite Hui.
      destruct (expired_items (now w) (stored_table (disk w)));
        [destruct Hin | reflexivity].
    + intros Hfree Hpath. now apply (Hgone (pin, info)).
  - fields. rewrite Hstored. unfold live_items.
    rewrite get_filter by apply stored_table_ok.
    rewrite Hget. cbn [snd]. now rewrite Hexp.
Qed.

Lemma expired_record_is_not_served_after_sweep_witness :
  passes_pin_check "4821" = true
  /\ (exists info,
        get "4821" (stored_table (disk day_old_world)) = Some info
        /\ expired (now day_old_world) info = true)
  /\ (METADATA_FILE ∉ refused day_old_world)
  /\ exists w2,
       download_tab "4821"
         (tick half_past_noon (snd (cleanup_old_files day_old_world)))
       = (Ok tt, w2)
       /\ ui w2
          = ui (snd (cleanup_old_files day_old_world))
            ++ [st_error "Invalid PIN or file has expired.";
                st_info "Please check the PIN or contact the file sender."].
Proof.
  assert (H1 : passes_pin_check "4821" = true) by reflexivity.
  assert (H2 : get "4821" (stored_table (disk day_old_world))
               = Some (mk_file_info "a.txt"
                         "/tmp/streamlit_file_transfer/4821_a.txt" 1
                         (mk_datetime 2024 2 29 11 0 0 0) None))
    by (vm_compute; reflexivity).
  assert (H3 : expired (now day_old_world)
                 (mk_file_info "a.txt"
                    "/tmp/streamlit_file_transfer/4821_a.txt" 1
                    (mk_datetime 2024 2 29 11 0 0 0) None) = true)
    by reflexivity.
  assert (H4 : METADATA_FILE ∉ refused day_old_world)
    by (vm_compute; set_solver).
  split; [exact H1 |]. split; [eexists; split; [exact H2 | exact H3] |].
  split; [exact H4 |].
  destruct (expired_record_is_not_served_after_sweep day_old_world "4821" _
              half_past_noon H1 H2 H3 H4) as (w2 & Hrun & Hui & _).
  exists w2. split; [exact Hrun | exact Hui].
Defined.

(** X13.  An upload made into a consistent store is still served after a
    sweep that runs within 24 hours of it: the download tab renders the
    download button with the uploaded bytes. *)
Theorem fresh_upload_survives_the_sweep
    (w : World) (file : UploadedFile) (draws : list Z) (pin : string)
    (w1 : World) (t : datetime) :
  consistent w ->
  datetime_ok (now w) = true ->
  METADATA_FILE ∉ refused w ->
  upload file draws w = (Ok pin, w1) ->
  sub t (now w) <= timedelta_hours 24 ->
  exists w3,
    download_tab pin (snd (cleanup_old_files (tick t w1))) = (Ok tt, w3)
    /\ ui w3
       = ui (snd (cleanup_old_files (tick t w1)))
         ++ [st_success "PIN verified! File found.";
             st_download_button (Blob (uf_getvalue file)) (uf_name file)
                                (uf_type file)].
Proof.
  intros Hcons Hnow Hmeta Hup Hage.
  destruct (stored_after_upload _ _ _ _ _ Hnow Hmeta Hup)
    as (Hpin & Hne & Hstored & Hdisk & Hrefused & Hclock).
  cbv zeta in *.
  set (path := blob_path pin (uf_name file)) in *.
  set (info := new_info file pin (now w)) in *.
  assert (METADATA_FILE ∉ refused (tick t w1)) as Hmeta1
    by (cbn [tick refused]; now rewrite Hrefused).
  destruct (stored_after_sweep (tick t w1) Hmeta1)
    as (Hstored2 & Hui & Hkeep & _).
  cbv zeta in *. cbn [tick disk now] in Hstored2, Hui, Hkeep.
  rewrite Hstored in Hstored2, Hui, Hkeep.
  assert (expired t info = false) as Hlive.
  { unfold expired, info. cbn [new_info upload_time]. now apply Z.ltb_ge. }
  assert (get pin (stored_table (disk (snd (cleanup_old_files (tick t w1)))))
          = Some info) as Hget.
  { rewrite Hstored2. unfold live_items.
    rewrite get_filter
      by (apply NoDup_keys_set, stored_table_ok).
    rewrite get_set_eq. cbn [snd]. now rewrite Hlive. }
  assert (disk (snd (cleanup_old_files (tick t w1))) !! path
          = Some (Blob (uf_getvalue file))) as Hblob.
  { rewrite Hkeep; [| exact Hne |].
    - rewrite Hdisk, lookup_insert_ne by congruence. apply lookup_insert_eq.
    - intros kv Hin. apply filter_In in Hin as [Hin Hexp].
      apply In_set_NoDup in Hin as [-> | [Hin Hkey]];
        [| | apply stored_table_ok].
      + cbn [snd] in Hexp. congruence.
      + unfold consistent in Hcons. rewrite Forall_forall in Hcons.
        destruct (Hcons kv) as [Hown _]; [now apply list_elem_of_In |].
        apply (own_paths_differ kv (pin, info)); [exact Hown | | exact Hkey].
        split; [exact Hpin | reflexivity]. }
  rewrite (download_tab_found pin _ info (Blob (uf_getvalue file))).
  - eexists. split; [reflexivity |]. fields. reflexivity.
  - now apply four_ascii_digits_pass.
  - exact Hget.
  - exact Hblob.
Qed.

Lemma fresh_upload_survives_the_sweep_witness :
  consistent one_file_world
  /\ datetime_ok (now one_file_world) = true
  /\ (METADATA_FILE ∉ refused one_file_world)
  /\ upload sample_file [234] one_file_world
     = (Ok "1234", snd (upload sample_file [234] one_file_world))
  /\ sub evening (now one_file_world) <= timedelta_hours 24
  /\ exists w3,
       download_tab "1234"
         (snd (cleanup_old_files
                 (tick evening (snd (upload sample_file [234]
                                            one_file_world)))))
       = (Ok tt, w3)
       /\ ui w3
          = ui (snd (cleanup_old_files
                       (tick evening (snd (upload sample_file [234]
                                                  one_file_world)))))
            ++ [st_success "PIN verified! File found.";
                st_download_button (Blob (uf_getvalue sample_file))
                                   (uf_name sample_file)
                                   (uf_type sample_file)].
Proof.
  assert (H1 : consistent one_file_world).
  { unfold consistent.
    assert (stored_table (disk one_file_world)
            = [("4821",
                mk_file_info "a.txt"
                  "/tmp/streamlit_file_transfer/4821_a.txt" 1
                  (mk_datetime 2024 3 1 8 0 0 0) None)]) as ->
      by (vm_compute; reflexivity).
    repeat constructor. vm_compute. eauto. }
  assert (H2 : datetime_ok (now one_file_world) = true) by reflexivity.
  assert (H3 : METADATA_FILE ∉ refused one_file_world)
    by (vm_compute; set_solver).
  assert (H4 : upload sample_file [234] one_file_world
               = (Ok "1234", snd (upload sample_file [234] one_file_world)))
    by (vm_compute; reflexivity).
  assert (H5 : sub evening (now one_file_world) <= timedelta_hours 24)
    by (vm_compute; discriminate).
  repeat (split; [assumption |]).
  exact (fresh_upload_survives_the_sweep one_file_world sample_file [234]
           "1234" _ evening H1 H2 H3 H4 H5).
Defined.

End sweep_extras.


(** ** The store stays consistent *)

Section consistency_extras.
Import Text Datetime Dict Sys App View.

Lemma consistent_same_disk w w' : disk w' = disk w -> consistent w -> consistent w'.
Proof. unfold consistent. now intros ->. Qed.

Lemma consistent_grown w w' :
  stored_table (disk w') = stored_table (disk w) ->
  (forall p, is_Some (disk w !! p) -> is_Some (disk w' !! p)) ->
  consistent w -> consistent w'.
Proof.
  unfold consistent. intros -> Hgrow Hcons.
  apply Forall_forall. intros kv Hin. rewrite Forall_forall in Hcons.
  destruct (Hcons kv Hin) as [Hown Hblob]. split; [exact Hown |].
  now apply Hgrow.
Qed.

Lemma upload_world (file : UploadedFile) (draws : list Z) w :
  refused (snd (upload file draws w)) = refused w
  /\ now (snd (upload file draws w)) = now w
  /\ ((exists pin, fst (upload file draws w) = Ok pin)
      \/ (stored_table (disk (snd (upload file draws w)))
          = stored_table (disk w)
          /\ forall p, is_Some (disk w !! p) ->
                       is_Some (disk (snd (upload file draws w)) !! p))).
Proof.
  destruct (upload file draws w) as [[pin | e |] w1] eqn:Hup.
  - destruct (upload_Ok _ _ _ _ _ Hup) as (_ & _ & Hr & Hn & _).
    cbn [fst snd]. eauto.
  - revert Hup. unfold upload. rewrite bind_eq, generate_pin_eq.
    destruct (first_free _ draws) as [r |]; [| discriminate].
    rewrite bind_eq, save_file_with_pin_eq. cbv zeta. fields.
    destruct (bool_decide _).
    + intros [= <- <-]. fields. repeat split. right. split.
      * unfold stored_table. rewrite read_table_cut_ne; [reflexivity |].
        apply blob_path_ne_metadata_file, draw_pin_four_ascii_digits.
      * intros p. apply cut_disk_is_Some.
    + rewrite save_file_metadata_eq. discriminate.
  - revert Hup. unfold upload. rewrite bind_eq, generate_pin_eq.
    destruct (first_free _ draws).
    + rewrite bind_eq, save_file_with_pin_eq. cbv zeta. fields.
      destruct (bool_decide _); [discriminate |].
      rewrite save_file_metadata_eq. discriminate.
    + intros [= <-]. fields. repeat split. right. split; [reflexivity |].
      intros p Hp. exact Hp.
Qed.

Lemma consistent_upload (file : UploadedFile) (draws : list Z) w :
  consistent w -> datetime_ok (now w) = true ->
  consistent (snd (upload file draws w)).
Proof.
  intros Hcons Hnow.
  destruct (upload_world file draws w)
    as (_ & _ & [[pin Hok] | [Hsame' Hgrow]]);
    [| now apply (consistent_grown w)].
  rewrite (surjective_pairing (upload file draws w)) in Hok.
  cbn [fst] in Hok.
  assert (upload file draws w = (Ok pin, snd (upload file draws w))) as Hup
    by (rewrite (surjective_pairing (upload file draws w)) at 1;
        now rewrite Hok).
  destruct (upload_Ok _ _ _ _ _ Hup) as ((r & _ & Hr) & _ & _ & _ & Hdisk).
  cbv zeta in Hdisk.
  assert (four_ascii_digits pin = true) as Hpin
    by (rewrite Hr; apply draw_pin_four_ascii_digits).
  pose proof (blob_path_ne_metadata_file pin (uf_name file) Hpin) as Hne.
  set (path := blob_path pin (uf_name file)) in *.
  set (d1 := <[path := Blob (uf_getvalue file)]> (disk w)) in *.
  assert (stored_table d1 = stored_table (disk w)) as Hsame
    by (unfold stored_table, d1; now rewrite read_table_insert_ne).
  assert (forall kv, In kv (stored_table (disk w)) ->
                     own_path kv /\ is_Some (d1 !! filepath (snd kv)))
    as Hold.
  { intros kv Hin. unfold consistent in Hcons.
    rewrite Forall_forall in Hcons.
    destruct (Hcons kv) as [Hown Hblob]; [now apply list_elem_of_In |].
    split; [exact Hown |]. unfold d1.
    destruct (decide (path = filepath (snd kv))) as [<- | Hp].
    - rewrite lookup_insert_eq. eauto.
    - now rewrite lookup_insert_ne. }
  unfold consistent. rewrite Hdisk.
  destruct (bool_decide (METADATA_FILE ∈ refused w)).
  - unfold cut_disk. destruct (bool_decide (METADATA_FILE ∈ cuts w)).
    + unfold stored_table, read_table. rewrite lookup_insert_eq. constructor.
    + rewrite Hsame. apply Forall_forall. intros kv Hin.
      apply Hold. now apply list_elem_of_In.
  - rewrite Hsame.
    rewrite stored_table_saved
      by (apply table_ok_set; [exact Hnow | apply stored_table_ok]).
    apply Forall_set.
    + split; [split; [exact Hpin | reflexivity] |].
      cbn [snd new_info filepath]. fold path.
      rewrite lookup_insert_ne by congruence.
      unfold d1. rewrite lookup_insert_eq. eauto.
    + apply Forall_forall. intros kv Hin.
      apply list_elem_of_In in Hin. destruct (Hold kv Hin) as [Hown Hblob].
      split; [exact Hown |].
      rewrite lookup_insert_ne; [exact Hblob |].
      intros Heq. now apply (own_path_ne_metadata kv).
Qed.

Lemma consistent_sweep w :
  consistent w -> METADATA_FILE ∉ refused w ->
  consistent (snd (cleanup_old_files w)).
Proof.
  intros Hcons Hmeta.
  destruct (stored_after_sweep w Hmeta) as (Hstored & _ & Hkeep & _).
  cbv zeta in *. unfold consistent in *. rewrite Hstored.
  rewrite Forall_forall in Hcons. apply Forall_forall. intros kv Hin.
  apply list_elem_of_In, filter_In in Hin as [Hin Hlive].
  destruct (Hcons kv) as [Hown Hblob]; [now apply list_elem_of_In |].
  split; [exact Hown |]. rewrite Hkeep; [exact Hblob | |].
  - now apply own_path_ne_metadata.
  - intros kv' Hin'. apply filter_In in Hin' as [Hin' Hexp].
    destruct (Hcons kv') as [Hown' _]; [now apply list_elem_of_In |].
    apply own_paths_differ; [exact Hown' | exact Hown |].
    intros Hkey.
    pose proof (proj1 (stored_table_ok (disk w))) as Hnd.
    destruct kv as [k v], kv' as [k' v']. cbn [fst snd] in *. subst k'.
    pose proof (In_get _ _ _ Hnd Hin) as Hv.
    rewrite (In_get _ _ _ Hnd Hin') in Hv. injection Hv as ->.
    rewrite Hexp in Hlive. discriminate.
Qed.

Lemma download_tab_consistent pin w :
  consistent w -> disk (snd (download_tab pin w)) = disk w.
Proof.
  intros Hcons.
  destruct (passes_pin_check pin) eqn:Hcheck.
  - destruct (get pin (stored_table (disk w))) as [info |] eqn:Hget.
    + unfold consistent in Hcons. rewrite Forall_forall in Hcons.
      destruct (Hcons (pin, info)) as [_ [c Hblob]].
      { apply list_elem_of_In. now apply get_Some_In. }
      cbn [snd] in Hblob.
      now rewrite (download_tab_found pin w info c Hcheck Hget Hblob).
    + now rewrite (download_tab_unknown pin w Hcheck Hget).
  - destruct pin as [| c s]; [reflexivity |].
    unfold download_tab. fold (passes_pin_check (String c s)).
    now rewrite Hcheck, render_eq.
Qed.

Lemma download_tab_outer pin w :
  refused (snd (download_tab pin w)) = refused w
  /\ now (snd (download_tab pin w)) = now w.
Proof.
  destruct (passes_pin_check pin) eqn:Hcheck.
  - destruct (get pin (stored_table (disk w))) as [info |] eqn:Hget.
    + destruct (disk w !! filepath info) as [c |] eqn:Hblob.
      * now rewrite (download_tab_found pin w info c Hcheck Hget Hblob).
      * destruct (del_Some pin (stored_table (disk w))) as [tbl' Hdel].
        { apply get_Some_In in Hget. apply (in_map fst) in Hget.
          exact Hget. }
        rewrite (download_tab_missing pin w info tbl' Hcheck Hget Hblob Hdel).
        rewrite save_file_metadata_eq. fields.
        destruct (bool_decide _); fields; split; reflexivity.
    + now rewrite (download_tab_unknown pin w Hcheck Hget).
  - destruct pin as [| c s]; [split; reflexivity |].
    unfold download_tab. fold (passes_pin_check (String c s)).
    now rewrite Hcheck, render_eq.
Qed.

(** X14.  Consistency is kept.  A store in which every record sits under a
    4-digit PIN, points at the blob path of that PIN and file name, and has
    its blob on disk stays so under any sequence of uploads, sweeps and
    downloads, with the clock moving in between, as long as the metadata
    file can be written. *)
Theorem store_stays_consistent (actions : list action) (w : World) :
  consistent w ->
  datetime_ok (now w) = true ->
  METADATA_FILE ∉ refused w ->
  Forall clock_ok actions ->
  consistent (run actions w).
Proof.
  intros Hcons Hnow Hmeta Hticks. revert w Hcons Hnow Hmeta.
  induction Hticks as [| a actions Ha _ IH]; intros w Hcons Hnow Hmeta;
    [exact Hcons |].
  unfold run. cbn [fold_left]. apply IH.
  - destruct a as [file draws | | pin | t]; cbn [act].
    + now apply consistent_upload.
    + now apply consistent_sweep.
    + apply (consistent_same_disk w); [| exact Hcons].
      now apply download_tab_consistent.
    + exact Hcons.
  - destruct a as [file draws | | pin | t]; cbn [act].
    + destruct (upload_world file draws w) as (_ & -> & _). exact Hnow.
    + rewrite cleanup_old_files_eq. cbv zeta. cbn [snd].
      destruct (expired_items _ _); fields; [exact Hnow |].
      rewrite save_file_metadata_eq. fields.
      destruct (bool_decide _); fields; exact Hnow.
    + destruct (download_tab_outer pin w) as [_ ->]. exact Hnow.
    + exact Ha.
  - destruct a as [file draws | | pin | t]; cbn [act].
    + destruct (upload_world file draws w) as (-> & _). exact Hmeta.
    + destruct (cleanup_old_files_disk w) as [-> _]. exact Hmeta.
    + destruct (download_tab_outer pin w) as [-> _]. exact Hmeta.
    + exact Hmeta.
Qed.

Lemma store_stays_consistent_witness :
  consistent empty_world
  /\ datetime_ok (now empty_world) = true
  /\ (METADATA_FILE ∉ refused empty_world)
  /\ Forall clock_ok
       [do_upload sample_file [234]; do_upload other_file [234; 8000];
        do_tick evening; do_download "1234"; do_sweep]
  /\ consistent
       (run [do_upload sample_file [234]; do_upload other_file [234; 8000];
             do_tick evening; do_download "1234"; do_sweep] empty_world).
Proof.
  assert (H1 : consistent empty_world) by (vm_compute; constructor).
  assert (H2 : datetime_ok (now empty_world) = true) by reflexivity.
  assert (H3 : METADATA_FILE ∉ refused empty_world)
    by (vm_compute; set_solver).
  assert (H4 : Forall clock_ok
                 [do_upload sample_file [234];
                  do_upload other_file [234; 8000];
                  do_tick evening; do_download "1234"; do_sweep])
    by (repeat constructor).
  repeat (split; [assumption |]).
  exact (store_stays_consistent _ empty_world H1 H2 H3 H4).
Defined.

(** X15.  In a consistent store the download tab writes nothing, and every
    PIN of the table that passes the test and whose record has a size that
    can be shown is served: the tab renders the download button with the
    content of the record's blob. *)
Theorem consistent_store_serves_every_record
    (w : World) (pin : string) (info : file_info datetime) :
  consistent w ->
  passes_pin_check pin = true ->
  get pin (stored_table (disk w)) = Some info ->
  float_size info ->
  exists c w',
    disk w !! filepath info = Some c
    /\ download_tab pin w = (Ok tt, w')
    /\ disk w' = disk w
    /\ ui w' = ui w ++ [st_success "PIN verified! File found.";
                        st_download_button c (filename info) (type info)].
Proof.
  intros Hcons Hcheck Hget _.
  unfold consistent in Hcons. rewrite Forall_forall in Hcons.
  destruct (Hcons (pin, info)) as [_ [c Hblob]].
  { apply list_elem_of_In. now apply get_Some_In. }
  cbn [snd] in Hblob. exists c.
  rewrite (download_tab_found pin w info c Hcheck Hget Hblob).
  eexists. split; [exact Hblob |]. split; [reflexivity |].
  fields. split; reflexivity.
Qed.

Lemma consistent_store_serves_every_record_witness :
  consistent one_file_world
  /\ passes_pin_check "4821" = true
  /\ (exists info,
        get "4821" (stored_table (disk one_file_world)) = Some info
        /\ float_size info)
  /\ exists w',
       download_tab "4821" one_file_world = (Ok tt, w')
       /\ disk w' = disk one_file_world
       /\ ui w' = [st_success "PIN verified! File found.";
                   st_download_button (Blob [Byte.x61]) "a.txt" None].
Proof.
  assert (Htbl : stored_table (disk one_file_world)
                 = [("4821",
                     mk_file_info "a.txt"
                       "/tmp/streamlit_file_transfer/4821_a.txt" 1
                       (mk_datetime 2024 3 1 8 0 0 0) None)])
    by (vm_compute; reflexivity).
  assert (H1 : consistent one_file_world).
  { unfold consistent. rewrite Htbl. repeat constructor.
    vm_compute. eauto. }
  assert (H2 : passes_pin_check "4821" = true) by reflexivity.
  assert (H3 : get "4821" (stored_table (disk one_file_world))
               = Some (mk_file_info "a.txt"
                         "/tmp/streamlit_file_transfer/4821_a.txt" 1
                         (mk_datetime 2024 3 1 8 0 0 0) None))
    by (rewrite Htbl; reflexivity).
  assert (H4 : float_size (mk_file_info "a.txt"
                             "/tmp/streamlit_file_transfer/4821_a.txt" 1
                             (mk_datetime 2024 3 1 8 0 0 0) None))
    by (unfold float_size; cbn [size]; reflexivity).
  split; [exact H1 |]. split; [exact H2 |]. split; [eauto |].
  destruct (consistent_store_serves_every_record one_file_world "4821" _
              H1 H2 H3 H4) as (c & w' & Hblob & Hrun & Hdisk & Hui).
  exists w'. split; [exact Hrun |]. split; [exact Hdisk |].
  rewrite Hui. cbn [filepath] in Hblob.
  assert (disk one_file_world !! "/tmp/streamlit_file_transfer/4821_a.txt"
          = Some (Blob [Byte.x61])) as Hc by (vm_compute; reflexivity).
  rewrite Hc in Hblob. injection Hblob as <-. reflexivity.
Defined.

End consistency_extras.


(** ** The upload loop and the admin view *)

Section loop_extras.
Import Text Datetime Dict Sys App View.

Lemma upload_loop_cons file files draws up fail w :
  upload_loop (file :: files) draws up fail w
  = match upload file (hd [] draws) w with
    | (Ok pin, w1) =>
        upload_loop files (tl draws)
          (up ++ [mk_uploaded_entry (uf_name file) pin (uf_size file)
                                    (uf_type file)]) fail w1
    | (Raise e, w1) =>
        upload_loop files (tl draws) up
          (fail ++ [mk_failed_entry (uf_name file) (str_exn e)]) w1
    | (Looping, w1) => (Looping, w1)
    end.
Proof.
  cbn [upload_loop]. rewrite bind_eq, try_except_eq.
  unfold upload. rewrite !bind_eq.
  destruct (generate_pin (hd [] draws) w) as [[pin | e |] w0];
    [| reflexivity | reflexivity].
  rewrite !bind_eq.
  destruct (save_file_with_pin file pin w0) as [[path | e |] w1];
    reflexivity.
Qed.

Lemma upload_Raise (file : UploadedFile) (draws : list Z) w e w1 :
  upload file draws w = (Raise e, w1) ->
  exists r,
    first_free (stored_table (disk w)) draws = Some r
    /\ blob_path (draw_pin r) (uf_name file) ∈ refused w
    /\ e = Exception
             (fstring "Failed to save file: "
                (str_exn (OSError (blob_path (draw_pin r) (uf_name file)))))
    /\ stored_table (disk w1) = stored_table (disk w)
    /\ refused w1 = refused w /\ now w1 = now w.
Proof.
  unfold upload. rewrite bind_eq, generate_pin_eq.
  destruct (first_free _ draws) as [r |]; [| discriminate].
  rewrite bind_eq, save_file_with_pin_eq. cbv zeta. fields.
  destruct (bool_decide _) eqn:Hb.
  - apply bool_decide_eq_true in Hb.
    intros [= <- <-]. exists r. fields. repeat split; [exact Hb |].
    unfold stored_table. rewrite read_table_cut_ne; [reflexivity |].
    apply blob_path_ne_metadata_file, draw_pin_four_ascii_digits.
  - rewrite save_file_metadata_eq. discriminate.
Qed.

Lemma upload_loop_accounts files :
  forall draws up fail w,
    match upload_loop files draws up fail w with
    | (Ok (up', fail'), _) =>
        (length up' + length fail'
         = length up + length fail + length files)%nat
        /\ (Forall blob_write_error fail -> Forall blob_write_error fail')
    | (Raise _, _) => False
    | (Looping, _) => True
    end.
Proof.
  induction files as [| file files IH]; intros draws up fail w.
  - cbn [upload_loop]. unfold ret.
    split; [cbn [length]; lia | tauto].
  - rewrite upload_loop_cons.
    destruct (upload file (hd [] draws) w) as [[pin | e |] w1] eqn:Hup;
      [| | exact I].
    + specialize (IH (tl draws)
                     (up ++ [mk_uploaded_entry (uf_name file) pin
                                               (uf_size file) (uf_type file)])
                     fail w1).
      destruct (upload_loop files _ _ _ w1) as [[[up' fail'] | e |] w'];
        [| exact IH | exact I].
      destruct IH as [Hlen Herr].
      rewrite length_app in Hlen. cbn [length] in *.
      split; [lia | exact Herr].
    + specialize (IH (tl draws) up
                     (fail ++ [mk_failed_entry (uf_name file) (str_exn e)])
                     w1).
      destruct (upload_loop files _ _ _ w1) as [[[up' fail'] | e' |] w'];
        [| exact IH | exact I].
      destruct IH as [Hlen Herr].
      rewrite length_app in Hlen. cbn [length] in *.
      split; [lia |]. intros Hfail. apply Herr.
      apply Forall_app. split; [exact Hfail |].
      repeat constructor.
      destruct (upload_Raise _ _ _ _ _ Hup) as (r & _ & _ & -> & _).
      exists (draw_pin r). reflexivity.
Qed.

(** X16.  The upload loop never raises, and it accounts for every file:
    when it ends, each file is either in [uploaded_file_info] or in
    [failed_uploads], and every failure carries as its error the text
    "Failed to save file: " followed by the text of the [OSError] of a blob
    that could not be written.  (The loop does not end only when
    [generate_pin] does not.) *)
Theorem upload_loop_accounts_for_every_file
    (files : list UploadedFile) (draws : list (list Z)) (w : World) :
  match upload_loop files draws [] [] w with
  | (Ok (uploaded, failed), _) =>
      (length uploaded + length failed = length files)%nat
      /\ Forall
           (fun f =>
              exists pin,
                fe_error f
                = fstring "Failed to save file: "
                    (str_exn (OSError (blob_path pin (fe_filename f)))))
           failed
  | (Raise _, _) => False
  | (Looping, _) => True
  end.
Proof.
  pose proof (upload_loop_accounts files draws [] [] w) as H.
  destruct (upload_loop files draws [] [] w) as [[[up fail] | e |] w'];
    [| exact H | exact I].
  destruct H as [Hlen Herr].
  split; [exact Hlen | apply Herr; constructor].
Qed.

Lemma upload_loop_accounts_for_every_file_witness :
  exists failed w',
    upload_loop [sample_file; other_file] [[234]; [234]] [] []
                blob_refused_world
    = (Ok ([mk_uploaded_entry "notes.txt" "1234" 2 (Some "text/plain")],
           failed), w')
    /\ (1 + length failed = 2)%nat
    /\ Forall
         (fun f =>
            exists pin,
              fe_error f
              = fstring "Failed to save file: "
                  (str_exn (OSError (blob_path pin (fe_filename f)))))
         failed.
Proof.
  pose proof (upload_loop_accounts_for_every_file
                [sample_file; other_file] [[234]; [234]] blob_refused_world)
    as H.
  assert (Hrun : upload_loop [sample_file; other_file] [[234]; [234]] [] []
                             blob_refused_world
                 = (Ok ([mk_uploaded_entry "notes.txt" "1234" 2
                                           (Some "text/plain")],
                        [mk_failed_entry "report.pdf"
                           (fstring "Failed to save file: "
                              (str_exn
                                 (OSError (blob_path "1234" "report.pdf"))))]),
                    snd (upload_loop [sample_file; other_file]
                                     [[234]; [234]] [] [] blob_refused_world)))
    by (vm_compute; reflexivity).
  rewrite Hrun in H. destruct H as [Hlen Herr].
  eexists _, _. split; [exact Hrun |]. split; [exact Hlen | exact Herr].
Defined.

(** X20.  A file whose blob cannot be written does not stop the loop: the
    failure, with the text of the exception, is appended to
    [failed_uploads], and the loop goes on with the next file.  The table
    on disk is as it was. *)
Theorem failed_upload_does_not_stop_the_loop
    (file : UploadedFile) (files : list UploadedFile)
    (draws : list (list Z)) (up : list uploaded_entry)
    (fail : list failed_entry) (w : World) (r : Z) :
  first_free (stored_table (disk w)) (hd [] draws) = Some r ->
  blob_path (draw_pin r) (uf_name file) ∈ refused w ->
  exists w1,
    upload_loop (file :: files) draws up fail w
    = upload_loop files (tl draws) up
        (fail
         ++ [mk_failed_entry (uf_name file)
               (fstring "Failed to save file: "
                  (str_exn
                     (OSError (blob_path (draw_pin r) (uf_name file)))))])
        w1
    /\ stored_table (disk w1) = stored_table (disk w)
    /\ refused w1 = refused w
    /\ ui w1 = ui w ++ load_ui (disk w).
Proof.
  intros Hfree Hpath. rewrite upload_loop_cons.
  unfold upload. rewrite bind_eq, generate_pin_eq, Hfree.
  rewrite bind_eq, save_file_with_pin_eq. cbv zeta. fields.
  rewrite bool_decide_true by exact Hpath.
  eexists. split; [reflexivity |]. fields. repeat split.
  unfold stored_table. rewrite read_table_cut_ne; [reflexivity |].
  apply blob_path_ne_metadata_file, draw_pin_four_ascii_digits.
Qed.

Lemma failed_upload_does_not_stop_the_loop_witness :
  first_free (stored_table (disk blob_refused_world))
             (hd [] [[234]; [234]]) = Some 234
  /\ blob_path (draw_pin 234) (uf_name sample_file)
     ∈ refused blob_refused_world
  /\ exists w1,
       upload_loop [sample_file; other_file] [[234]; [234]] [] []
                   blob_refused_world
       = upload_loop [other_file] (tl [[234]; [234]]) []
           ([]
            ++ [mk_failed_entry (uf_name sample_file)
                  (fstring "Failed to save file: "
                     (str_exn
                        (OSError (blob_path (draw_pin 234)
                                            (uf_name sample_file)))))])
           w1
       /\ stored_table (disk w1) = stored_table (disk blob_refused_world)
       /\ refused w1 = refused blob_refused_world
       /\ ui w1 = ui blob_refused_world ++ load_ui (disk blob_refused_world).
Proof.
  assert (H1 : first_free (stored_table (disk blob_refused_world))
                          (hd [] [[234]; [234]]) = Some 234)
    by (vm_compute; reflexivity).
  assert (H2 : blob_path (draw_pin 234) (uf_name sample_file)
               ∈ refused blob_refused_world) by (vm_compute; set_solver).
  split; [exact H1 |]. split; [exact H2 |].
  exact (failed_upload_does_not_stop_the_loop sample_file [other_file]
           [[234]; [234]] [] [] blob_refused_world 234 H1 H2).
Defined.

Lemma upload_loop_reports files :
  forall draws up fail w up' fail' w',
    datetime_ok (now w) = true ->
    METADATA_FILE ∉ refused w ->
    reported_ok up w ->
    upload_loop files draws up fail w = (Ok (up', fail'), w') ->
    reported_ok up' w'.
Proof.
  induction files as [| file files IH];
    intros draws up fail w up' fail' w' Hnow Hmeta Hinv.
  - cbn [upload_loop]. unfold ret. now intros [= <- <- <-].
  - rewrite upload_loop_cons.
    destruct (upload file (hd [] draws) w) as [[pin | e |] w1] eqn:Hup;
      [| | discriminate].
    + destruct (upload_Ok _ _ _ _ _ Hup) as ((r & Hfree & Hr) & _).
      destruct (stored_after_upload _ _ _ _ _ Hnow Hmeta Hup)
        as (_ & _ & Hstored & _ & Hrefused & Hclock).
      cbv zeta in Hstored.
      apply first_free_Some in Hfree as [_ Hfree]. rewrite <- Hr in Hfree.
      assert (get pin (stored_table (disk w)) = None) as Hnone.
      { unfold contains in Hfree.
        destruct (get pin (stored_table (disk w)));
          [discriminate | reflexivity]. }
      apply IH; [now rewrite Hclock | now rewrite Hrefused |].
      destruct Hinv as [Hnd Hall]. rewrite Forall_forall in Hall.
      assert (forall e, In e up -> ue_pin e <> pin) as Hfresh.
      { intros e Hin Heq.
        destruct (Hall e) as (info & Hget & _);
          [now apply list_elem_of_In |].
        rewrite Heq, Hnone in Hget. discriminate. }
      split.
      * rewrite map_app. cbn [map ue_pin]. apply NoDup_app.
        split; [exact Hnd |]. split; [| apply NoDup_singleton].
        intros x Hx Hx'. apply list_elem_of_In in Hx, Hx'.
        destruct Hx' as [<- | []].
        apply in_map_iff in Hx as (e & Heq & Hin). now apply (Hfresh e).
      * apply Forall_app. split.
        -- apply Forall_forall. intros e Hin.
           destruct (Hall e Hin) as (info & Hget & Hrest).
           exists info. split; [| exact Hrest].
           rewrite Hstored, get_set_ne; [exact Hget |].
           intros Heq. apply (Hfresh e); [now apply list_elem_of_In |].
           now symmetry.
        -- repeat constructor. cbn [ue_pin ue_filename ue_size ue_type].
           eexists. rewrite Hstored, get_set_eq.
           split; [reflexivity |]. repeat split.
    + destruct (upload_Raise _ _ _ _ _ Hup)
        as (r & _ & _ & _ & Hdisk & Hrefused & Hclock).
      apply IH; [now rewrite Hclock | now rewrite Hrefused |].
      unfold reported_ok. now rewrite Hdisk.
Qed.

(** X17.  The PINs one batch reports are pairwise distinct, and after the
    loop each of them resolves to a record with the name, size and type of
    its file, provided the metadata file can be written. *)
Theorem upload_loop_reports_distinct_resolving_pins
    (files : list UploadedFile) (draws : list (list Z)) (w : World)
    (uploaded : list uploaded_entry) (failed : list failed_entry)
    (w' : World) :
  datetime_ok (now w) = true ->
  METADATA_FILE ∉ refused w ->
  upload_loop files draws [] [] w = (Ok (uploaded, failed), w') ->
  NoDup (map ue_pin uploaded)
  /\ forall e,
       In e uploaded ->
       exists info,
         fst (get_file_by_pin (ue_pin e) w') = Ok (Some info)
         /\ filename info = ue_filename e
         /\ size info = ue_size e
         /\ type info = ue_type e.
Proof.
  intros Hnow Hmeta Hrun.
  assert (reported_ok [] w) as Hinit by (split; constructor).
  destruct (upload_loop_reports _ _ _ _ _ _ _ _ Hnow Hmeta Hinit Hrun)
    as [Hnd Hall].
  split; [exact Hnd |]. intros e Hin.
  rewrite Forall_forall in Hall.
  destruct (Hall e) as (info & Hget & Hrest); [now apply list_elem_of_In |].
  exists info. rewrite get_file_by_pin_eq. cbn [fst]. now rewrite Hget.
Qed.

Lemma upload_loop_reports_distinct_resolving_pins_witness :
  datetime_ok (now one_file_world) = true
  /\ (METADATA_FILE ∉ refused one_file_world)
  /\ upload_loop [sample_file; other_file] [[3821; 234]; [234; 235]] [] []
                 one_file_world
     = (Ok ([mk_uploaded_entry "report.pdf" "1234" 4
                               (Some "application/pdf");
             mk_uploaded_entry "notes.txt" "1235" 2 (Some "text/plain")],
            []),
        snd (upload_loop [sample_file; other_file]
                         [[3821; 234]; [234; 235]] [] [] one_file_world))
  /\ NoDup ["1234"; "1235"].
Proof.
  assert (H1 : datetime_ok (now one_file_world) = true) by reflexivity.
  assert (H2 : METADATA_FILE ∉ refused one_file_world)
    by (vm_compute; set_solver).
  assert (H3 : upload_loop [sample_file; other_file]
                           [[3821; 234]; [234; 235]] [] [] one_file_world
               = (Ok ([mk_uploaded_entry "report.pdf" "1234" 4
                                         (Some "application/pdf");
                       mk_uploaded_entry "notes.txt" "1235" 2
                                         (Some "text/plain")],
                      []),
                  snd (upload_loop [sample_file; other_file]
                                   [[3821; 234]; [234; 235]] [] []
                                   one_file_world)))
    by (vm_compute; reflexivity).
  repeat (split; [assumption |]).
  exact (proj1 (upload_loop_reports_distinct_resolving_pins _ _ _ _ _ _
                  H1 H2 H3)).
Defined.

Lemma get_files_by_time_step k acc item :
  get k (files_by_time_step acc item)
  = if String.eqb k (strftime_minute (upload_time (snd item)))
    then Some (default [] (get k acc) ++ [item])
    else get k acc.
Proof.
  unfold files_by_time_step. cbv zeta.
  set (key := strftime_minute (upload_time (snd item))).
  unfold contains.
  destruct (get key acc) as [files |] eqn:Hkey; cbn [negb].
  - rewrite Hkey. destruct (String.eqb_spec k key) as [-> | Hne].
    + now rewrite get_set_eq, Hkey.
    + now rewrite get_set_ne by congruence.
  - rewrite get_set_eq. destruct (String.eqb_spec k key) as [-> | Hne].
    + now rewrite get_set_eq, Hkey.
    + now rewrite !get_set_ne by congruence.
Qed.

Lemma NoDup_keys_files_by_time_step acc item :
  NoDup (keys acc) -> NoDup (keys (files_by_time_step acc item)).
Proof.
  intros Hnd. unfold files_by_time_step. cbv zeta.
  destruct (negb _);
    destruct (get _ _); repeat apply NoDup_keys_set; exact Hnd.
Qed.

Lemma get_fold_files_by_time k (metadata : table) :
  forall acc,
    get k (fold_left files_by_time_step metadata acc)
    = match List.filter
              (fun item =>
                 String.eqb k (strftime_minute (upload_time (snd item))))
              metadata with
      | [] => get k acc
      | files => Some (default [] (get k acc) ++ files)
      end.
Proof.
  induction metadata as [| item metadata IH]; intros acc; [reflexivity |].
  cbn [fold_left List.filter]. rewrite IH, get_files_by_time_step.
  destruct (String.eqb k (strftime_minute (upload_time (snd item)))).
  - destruct (List.filter _ metadata) as [| x l]; [reflexivity |].
    cbn [from_option id]. now rewrite <- app_assoc.
  - reflexivity.
Qed.

(** X18.  The admin view lists every record once, under the minute of its
    upload: the group of a minute holds exactly the records uploaded in that
    minute, in the order of the table; a minute without uploads has no
    group, and no minute has two. *)
Theorem files_by_time_groups_by_minute (metadata : table) (time_key : string) :
  get time_key (files_by_time metadata)
  = match List.filter
            (fun item =>
               String.eqb time_key
                          (strftime_minute (upload_time (snd item))))
            metadata with
    | [] => None
    | files => Some files
    end
  /\ NoDup (keys (files_by_time metadata)).
Proof.
  split.
  - unfold files_by_time. rewrite get_fold_files_by_time. reflexivity.
  - unfold files_by_time.
    enough (forall acc : dict (list (string * file_info datetime)),
               NoDup (keys acc) ->
               NoDup (keys (fold_left files_by_time_step metadata acc))) as H
      by (apply H; constructor).
    induction metadata as [| item metadata IH]; intros acc Hnd;
      [exact Hnd |].
    cbn [fold_left]. apply IH. now apply NoDup_keys_files_by_time_step.
Qed.

End loop_extras.


Section sweep_failure_extras.
Import Text Datetime Dict Sys App View.

Lemma remove_blob_refused refused_ path path' d :
  path' ∈ refused_ -> remove_blob refused_ path d !! path' = d !! path'.
Proof.
  intros Href. unfold remove_blob. destruct (d !! path); [| reflexivity].
  destruct (bool_decide (path ∈ refused_)) eqn:Hb; [reflexivity |].
  apply bool_decide_eq_false in Hb.
  apply lookup_delete_ne. intros ->. contradiction.
Qed.

Lemma scan_disk_refused current_time (items : table) refused_ path :
  path ∈ refused_ ->
  forall d, scan_disk current_time items refused_ d !! path = d !! path.
Proof.
  intros Href. induction items as [| [pin info] items IH]; intros d;
    cbn [scan_disk]; [reflexivity |].
  rewrite IH. destruct (expired current_time info); [| reflexivity].
  now apply remove_blob_refused.
Qed.

(** X19.  When the metadata file cannot be written, the sweep still
    returns the number of expired records and renders
    [f"Error saving metadata: {e}"]; the expired records are not taken out
    of the persisted table.  The table is as it was when [open] failed, and
    is lost when the write failed after [open]. *)
Theorem sweep_with_failing_save_still_counts (w : World) :
  METADATA_FILE ∈ refused w ->
  expired_items (now w) (stored_table (disk w)) <> [] ->
  exists w',
    cleanup_old_files w
    = (Ok (Z.of_nat (length (expired_items (now w)
                                           (stored_table (disk w))))), w')
    /\ ((METADATA_FILE ∉ cuts w) ->
        stored_table (disk w') = stored_table (disk w))
    /\ (METADATA_FILE ∈ cuts w -> stored_table (disk w') = [])
    /\ ui w' = ui w ++ load_ui (disk w)
               ++ [st_error (fstring "Error saving metadata: "
                                     (str_exn (OSError METADATA_FILE)))].
Proof.
  intros Hmeta Hgone. rewrite cleanup_old_files_eq. cbv zeta.
  eexists. split; [reflexivity |].
  destruct (expired_items (now w) (stored_table (disk w))) as [| kv gone];
    [contradiction |].
  rewrite save_file_metadata_eq. fields.
  rewrite bool_decide_true by exact Hmeta. fields. unfold cut_disk.
  split; [| split].
  - intros Hcut. rewrite bool_decide_false by exact Hcut.
    unfold stored_table, read_table.
    now rewrite scan_disk_refused.
  - intros Hcut. rewrite bool_decide_true by exact Hcut.
    unfold stored_table, read_table. now rewrite lookup_insert_eq.
  - now rewrite <- app_assoc.
Qed.

Lemma sweep_with_failing_save_still_counts_witness :
  METADATA_FILE ∈ refused readonly_day_old_world
  /\ expired_items (now readonly_day_old_world)
                   (stored_table (disk readonly_day_old_world)) <> []
  /\ exists w',
       cleanup_old_files readonly_day_old_world = (Ok 1, w')
       /\ keys (stored_table (disk w')) = ["4821"; "1234"].
Proof.
  assert (H1 : METADATA_FILE ∈ refused readonly_day_old_world)
    by (vm_compute; set_solver).
  assert (H2 : expired_items (now readonly_day_old_world)
                 (stored_table (disk readonly_day_old_world)) <> [])
    by (vm_compute; discriminate).
  assert (H3 : METADATA_FILE ∉ cuts readonly_day_old_world)
    by (vm_compute; set_solver).
  split; [exact H1 |]. split; [exact H2 |].
  destruct (sweep_with_failing_save_still_counts readonly_day_old_world H1 H2)
    as (w' & Hrun & Hstored & _).
  exists w'. split.
  - rewrite Hrun. f_equal.
  - rewrite (Hstored H3). vm_compute. reflexivity.
Defined.

End sweep_failure_extras.
